(** * Verification of the video upscaling handler (handler.py)

    A shallow embedding of [src/handler.py]: the RunPod serverless handler
    that downloads a video, extracts its frames with ffmpeg, upscales each
    frame with Real-ESRGAN and reassembles the result.

    Python values are modelled as follows:
    - [str] as [string], for ASCII text only ([PyStr.is_ascii]): the string
      methods below act on ASCII code points, and a statement about the
      text of a request says so where it depends on them (Python's
      [str.strip] and [str.lower] also act on code points above 127, which
      a [string] does not represent);
    - [float] as the primitive binary64 floats of [PrimFloat], [int] as [Z];
    - [None]-able values as [option];
    - dictionaries as [gmap string _];
    - exceptions as an explicit result type threaded with the state of the
      file system. *)

From Stdlib Require Import ZArith Ascii String List DecimalString Floats.PrimFloat.
From Stdlib Require Floats.SpecFloat Floats.FloatOps.
From stdpp Require Import base option list gmap strings sorting.

Open Scope string_scope.
Set Warnings "-inexact-float".

(** ** Python string methods *)

Module PyStr.

(** The text is ASCII: every code point is below 128. *)
Fixpoint is_ascii (s : string) : bool :=
  match s with
  | EmptyString => true
  | String c s' => (N_of_ascii c <? 128)%N && is_ascii s'
  end.

(** [str.isspace] on an ASCII code point: TAB..CR, FS..US and space. *)
Definition is_space (c : ascii) : bool :=
  let n := N_of_ascii c in
  ((9 <=? n) && (n <=? 13) || (28 <=? n) && (n <=? 32))%N.

(** [str.lower] on one ASCII code point. *)
Definition lower_char (c : ascii) : ascii :=
  let n := N_of_ascii c in
  if ((65 <=? n) && (n <=? 90))%N then ascii_of_N (n + 32) else c.

Fixpoint lower (s : string) : string :=
  match s with
  | EmptyString => EmptyString
  | String c s' => String (lower_char c) (lower s')
  end.

Fixpoint lstrip (s : string) : string :=
  match s with
  | EmptyString => EmptyString
  | String c s' => if is_space c then lstrip s' else s
  end.

Fixpoint rstrip (s : string) : string :=
  match s with
  | EmptyString => EmptyString
  | String c s' =>
      match rstrip s' with
      | EmptyString => if is_space c then EmptyString else String c EmptyString
      | r => String c r
      end
  end.

(** [s.strip()] *)
Definition strip (s : string) : string := rstrip (lstrip s).

(** [s.startswith(p)] *)
Fixpoint startswith (p s : string) : bool :=
  match p, s with
  | EmptyString, _ => true
  | String a p', String b s' => if Ascii.eqb a b then startswith p' s' else false
  | String _ _, EmptyString => false
  end.

(** [s.endswith(p)]: some suffix of [s] is [p]. *)
Fixpoint endswith (p s : string) : bool :=
  if String.eqb p s then true
  else match s with
       | EmptyString => false
       | String _ s' => endswith p s'
       end.

(** [s.replace(old, new)] scans [s] from the left; at an occurrence of [old]
    it emits [new] and resumes after the occurrence.  [skip] counts the
    characters of the current occurrence still to be passed over. *)
Fixpoint replace_from (old new : string) (skip : nat) (s : string) : string :=
  match s with
  | EmptyString => EmptyString
  | String c s' =>
      match skip with
      | S k => replace_from old new k s'
      | O =>
          if startswith old s
          then new ++ replace_from old new (String.length old - 1) s'
          else String c (replace_from old new 0 s')
      end
  end.

(** With an empty [old], Python inserts [new] before every character and at
    the end. *)
Fixpoint intersperse (new s : string) : string :=
  match s with
  | EmptyString => new
  | String c s' => new ++ String c (intersperse new s')
  end.

Definition replace (old new s : string) : string :=
  match old with
  | EmptyString => intersperse new s
  | _ => replace_from old new 0 s
  end.

(** [s.split(sep)] for a one-character separator. *)
Fixpoint split (sep : ascii) (s : string) : list string :=
  match s with
  | EmptyString => [EmptyString]
  | String c s' =>
      if Ascii.eqb c sep then EmptyString :: split sep s'
      else match split sep s' with
           | h :: t => String c h :: t
           | [] => [String c EmptyString]
           end
  end.

(** The rest of [s] after the prefix [p], when [s] starts with [p]. *)
Fixpoint strip_prefix (p s : string) : option string :=
  match p, s with
  | EmptyString, _ => Some s
  | String a p', String b s' => if Ascii.eqb a b then strip_prefix p' s' else None
  | String _ _, EmptyString => None
  end.

(** [needle in s] *)
Fixpoint contains (needle s : string) : bool :=
  if startswith needle s then true
  else match s with
       | EmptyString => false
       | String _ s' => contains needle s'
       end.

(** Truthiness of an optional string: [None] and [""] are falsy. *)
Definition truthy (o : option string) : bool :=
  match o with
  | Some (String _ _) => true
  | _ => false
  end.

End PyStr.

(** ** Module constants (handler.py, lines 17-28) *)

Definition WEIGHTS_DIR : string := "/workspace/weights".

Definition TARGET_RESOLUTION_SCALE : gmap string float :=
  {[ "1080p" := 1.5%float; "2k" := 2.0%float; "1440p" := 2.0%float ]}.

Definition DEFAULT_SCALE : float := 1.5%float.
Definition DEFAULT_CRF : Z := 20.
Definition DEFAULT_PRESET : string := "medium".

(** ** resolve_scale (handler.py, lines 78-92) *)

(** The normalisation of line 85, [strip().lower().replace(" ", "")], on
    ASCII text. *)
Definition preset_key (target_resolution : string) : string :=
  PyStr.replace " " "" (PyStr.lower (PyStr.strip target_resolution)).

Definition resolve_preset (target_resolution : option string) : float :=
  if PyStr.truthy target_resolution then
    let key := preset_key (default "" target_resolution) in
    match TARGET_RESOLUTION_SCALE !! key with
    | Some v => v
    | None =>
        if String.eqb key "2k" || String.eqb key "1440p" then 2.0%float
        else if String.eqb key "1080p" then 1.5%float
        else DEFAULT_SCALE
    end
  else DEFAULT_SCALE.

(** [scale is not None and scale > 0] *)
Definition scale_given (scale : option float) : bool :=
  match scale with
  | Some s => PrimFloat.ltb 0%float s
  | None => false
  end.

Definition resolve_scale (scale : option float) (target_resolution : option string) : float :=
  match scale with
  | Some s => if PrimFloat.ltb 0%float s then s else resolve_preset target_resolution
  | None => resolve_preset target_resolution
  end.

(** ** The process state: file system, external commands, exceptions *)

(** The Python exceptions that the handler can meet.  All of them are
    subclasses of [Exception]; [LibraryError] stands for anything raised
    inside cv2, torch or realesrgan. *)
Inductive exn : Type :=
| CalledProcessError (returncode : Z) (cmd : list string)
| OSError (filename : string)
| ValueError
| ZeroDivisionError
| LibraryError
| TypeError
| OverflowError.

Inductive result (A : Type) : Type :=
| Ok (a : A)
| Raise (e : exn).
Arguments Ok {A} a.
Arguments Raise {A} e.

(** Regular files (absolute path to content) and directories. *)
Record FS : Type := mkFS {
  files : gmap string string;
  dirs : gset string;
}.

(** What a finished child process hands back. *)
Record proc_result : Type := mkProc {
  returncode : Z;
  stdout : string;
  stderr : string;
}.

Inductive call_kind : Type := CheckCall | CheckOutput.

(** One entry of the log of child processes started by this process. *)
Record call : Type := mkCall {
  call_kind_of : call_kind;
  call_cmd : list string;
  call_rc : Z;
}.

Record uuid : Type := mkUuid {
  uuid_str : string;   (* str(u): 8-4-4-4-12 hex digits *)
  uuid_hex : string;   (* u.hex: 32 hex digits *)
}.

Record World : Type := mkWorld {
  fs : FS;
  entropy : nat;        (* number of uuids drawn so far *)
  calls : list call;    (* child processes run so far, oldest first *)
}.

(** Configuration of the network and of the upsampler (lines 97-114). *)
Record net_config : Type := mkNet {
  num_in_ch : Z; num_out_ch : Z; num_feat : Z; num_conv : Z;
  upscale : Z; act_type : string;
}.

Record esrgan_config : Type := mkEsrgan {
  netscale : Z; tile : Z; tile_pad : Z; pre_pad : Z; half : bool;
}.

(** Everything the handler takes from outside its own source: child
    processes, the random source, the environment, Python built-ins whose
    exact text format is fixed by CPython, and the imaging libraries.

    [exec] is a program that has been started: it ends with an exit status.
    The worker is taken to have curl, ffprobe and ffmpeg installed; a
    program that cannot be started (subprocess then raises
    [FileNotFoundError]) is outside [exec]. *)
Record Externals : Type := mkExternals {
  image : Type;
  upsampler : Type;
  exec : list string -> FS -> proc_result * FS;
  uuid4 : nat -> uuid;
  getenv : string -> option string;
  abspath : string -> string;
  py_float : string -> option float;
  py_int : string -> option Z;
  str_float : float -> string;
  str_CalledProcessError : Z -> list string -> string;
  b64encode : string -> string;
  RealESRGANer : net_config -> esrgan_config -> string -> option upsampler;
  imdecode : string -> option image;
  imencode : image -> string;
  enhance : upsampler -> image -> float -> option image;
}.

(** ** A state and exception monad *)

Definition M (A : Type) : Type := World -> result A * World.

Definition ret {A} (a : A) : M A := fun w => (Ok a, w).

Definition raise {A} (e : exn) : M A := fun w => (Raise e, w).

Definition bind {A B} (m : M A) (k : A -> M B) : M B :=
  fun w =>
    match m w with
    | (Ok a, w1) => k a w1
    | (Raise e, w1) => (Raise e, w1)
    end.

Declare Scope py_scope.
Delimit Scope py_scope with py.
Notation "x <- m ;; k" := (bind m (fun x => k))
  (at level 20, m at level 99, k at level 200, only parsing) : py_scope.
Notation "m ;; k" := (bind m (fun _ => k))
  (at level 100, k at level 200, only parsing, right associativity) : py_scope.
Open Scope py_scope.

(** [try: m except <handled>: h]; [h e = None] when [e] is not handled. *)
Definition try_except {A} (m : M A) (h : exn -> option (M A)) : M A :=
  fun w =>
    match m w with
    | (Ok a, w1) => (Ok a, w1)
    | (Raise e, w1) =>
        match h e with
        | Some k => k w1
        | None => (Raise e, w1)
        end
    end.

(** [try: m finally: f] *)
Definition try_finally {A} (m : M A) (f : M unit) : M A :=
  fun w =>
    match m w with
    | (r, w1) =>
        match f w1 with
        | (Ok _, w2) => (r, w2)
        | (Raise e, w2) => (Raise e, w2)
        end
    end.

Fixpoint for_each {A} (l : list A) (body : A -> M unit) : M unit :=
  match l with
  | [] => ret tt
  | x :: l' => body x ;; for_each l' body
  end.

Definition get_fs : M FS := fun w => (Ok (fs w), w).

Definition put_fs (f : FS) : M unit :=
  fun w => (Ok tt, mkWorld f (entropy w) (calls w)).

(** ** The operating-system interface *)

Module os.

(** [os.path.join(a, b)] *)
Definition path_join (a b : string) : string :=
  if PyStr.startswith "/" b then b
  else if String.eqb a "" || PyStr.endswith "/" a then a ++ b
  else a ++ "/" ++ b.

Definition isfile (p : string) : M bool :=
  f <- get_fs ;; ret (bool_decide (is_Some (files f !! p))).

Definition getsize (p : string) : M nat :=
  f <- get_fs ;;
  match files f !! p with
  | Some c => ret (String.length c)
  | None => raise (OSError p)
  end.

(** [os.makedirs(p, exist_ok=True)] *)
Definition makedirs (p : string) : M unit :=
  f <- get_fs ;;
  match files f !! p with
  | Some _ => raise (OSError p)
  | None => put_fs (mkFS (files f) ({[ p ]} ∪ dirs f))
  end.

(** [os.rename(a, b)] for a regular file [a]. *)
Definition rename (a b : string) : M unit :=
  f <- get_fs ;;
  match files f !! a with
  | Some c => put_fs (mkFS (<[ b := c ]> (delete a (files f))) (dirs f))
  | None => raise (OSError a)
  end.

Definition remove (p : string) : M unit :=
  f <- get_fs ;;
  match files f !! p with
  | Some _ => put_fs (mkFS (delete p (files f)) (dirs f))
  | None => raise (OSError p)
  end.

(** The name of [p] inside directory [d], when [p] lies directly in [d]. *)
Definition entry_name (d p : string) : option string :=
  match PyStr.strip_prefix (d ++ "/") p with
  | Some n => if String.eqb n "" || PyStr.contains "/" n then None else Some n
  | None => None
  end.

Definition listdir (d : string) : M (list string) :=
  f <- get_fs ;;
  if bool_decide (d ∈ dirs f) then
    ret (omap (entry_name d) ((map_to_list (files f)).*1 ++ elements (dirs f))%list)
  else raise (OSError d).

(** [open(p, "rb").read()] *)
Definition read_file (p : string) : M string :=
  f <- get_fs ;;
  match files f !! p with
  | Some c => ret c
  | None => raise (OSError p)
  end.

Definition write_file (p c : string) : M unit :=
  f <- get_fs ;; put_fs (mkFS (<[ p := c ]> (files f)) (dirs f)).

End os.

(** [str(n)] for a Python [int]. *)
Definition str_int (n : Z) : string :=
  DecimalString.NilZero.string_of_int (Z.to_int n).

(** [sorted(l)] on strings: ascending code-point order. *)
Definition sorted (l : list string) : list string := merge_sort String.le l.

(** The parameters of a job once lines 204-214 have read and converted
    them: the locals [video_url], [file_path], [target_resolution], [scale],
    [output_fps], [crf] of [handler], and the values of "model" and "preset"
    before their defaults apply.  [inp_crf = None] is an absent "crf" key. *)
Record job_input : Type := mkJob {
  inp_video_url : option string;
  inp_file_path : option string;
  inp_target_resolution : option string;
  inp_scale : option float;
  inp_model : option string;
  inp_output_fps : option float;
  inp_crf : option Z;
  inp_preset : option string;
}.

(** The "params" entry of a successful response; [par_output_fps = None]
    stands for the string "source". *)
Record params : Type := mkParams {
  par_scale : float;
  par_model : string;
  par_target_resolution : option string;
  par_crf : Z;
  par_preset : string;
  par_output_fps : option float;
}.

(** The dictionary returned by [handler].  [Failure e] is
    {"error": e, "output_base64": None, "output_url": None}; [Success] is
    the dictionary of lines 258-271, whose "output_url" is None. *)
Inductive response : Type :=
| Failure (error : string)
| Success (output_base64 content_type filename : string) (p : params).

(** A JSON value as it arrives for a numeric parameter: null, a boolean, an
    integer or a float, a string, or ([VOther]) a list or an object. *)
Inductive value : Type :=
| VNone
| VBool (b : bool)
| VInt (n : Z)
| VFloat (x : float)
| VStr (s : string)
| VOther.

(** The request payload [event.get("input") or event] of line 203, as the
    dictionary holds it.  The text parameters are JSON strings, [None] for
    an absent key or a null, which lines 204-214 do not tell apart.  "scale"
    and "output_fps" are any JSON value, [VNone] for an absent key or a
    null; "crf" is [None] when the key is absent and [Some VNone] when it
    is null, which line 213 does tell apart. *)
Record payload : Type := mkPayload {
  raw_video_url : option string;
  raw_file_path : option string;
  raw_target_resolution : option string;
  raw_scale : value;
  raw_model : option string;
  raw_output_fps : value;
  raw_crf : option value;
  raw_preset : option string;
}.

Section Handler.

Context (E : Externals).

Definition DEFAULT_MODEL : string :=
  default "realesr-animevideov3" (getenv E "REAL_ESRGAN_MODEL").

(** [uuid.uuid4()] *)
Definition draw_uuid : M uuid :=
  fun w => (Ok (uuid4 E (entropy w)), mkWorld (fs w) (S (entropy w)) (calls w)).

(** ** subprocess *)

(** A child process that was started and ran to its end: it is logged with
    its exit status, and a non-zero status is [CalledProcessError]. *)
Definition spawn (k : call_kind) (cmd : list string) : M proc_result :=
  fun w =>
    let (r, f') := exec E cmd (fs w) in
    let w' := mkWorld f' (entropy w) (calls w ++ [mkCall k cmd (returncode r)]) in
    if (returncode r =? 0)%Z then (Ok r, w')
    else (Raise (CalledProcessError (returncode r) cmd), w').

(** [subprocess.check_output(cmd, stderr=DEVNULL, text=True)] *)
Definition check_output (cmd : list string) : M string :=
  r <- spawn CheckOutput cmd ;; ret (stdout r).

(** [run] (lines 31-32): [subprocess.check_call(cmd)]. *)
Definition run (cmd : list string) : M unit :=
  spawn CheckCall cmd ;; ret tt.

(** ** Python built-ins that may raise *)

Definition float_of_str (s : string) : M float :=
  match py_float E s with
  | Some x => ret x
  | None => raise ValueError
  end.

Definition int_of_str (s : string) : M Z :=
  match py_int E s with
  | Some n => ret n
  | None => raise ValueError
  end.

Definition float_div (a b : float) : M float :=
  if PrimFloat.eqb b 0%float then raise ZeroDivisionError
  else ret (PrimFloat.div a b).

(** [x, y = l] *)
Definition unpack2 (l : list string) : M (string * string) :=
  match l with
  | [x; y] => ret (x, y)
  | _ => raise ValueError
  end.

Definition except_Exception {A} (k : M A) : exn -> option (M A) :=
  fun _ => Some k.

(** ** get_video_fps (lines 35-54) and get_video_size (lines 57-75) *)

Definition fps_probe_cmd (path : string) : list string :=
  ["ffprobe"; "-v"; "error"; "-select_streams"; "v:0";
   "-show_entries"; "stream=r_frame_rate";
   "-of"; "default=noprint_wrappers=1:nokey=1"; path].

Definition size_probe_cmd (path : string) : list string :=
  ["ffprobe"; "-v"; "error"; "-select_streams"; "v:0";
   "-show_entries"; "stream=width,height";
   "-of"; "csv=p=0"; path].

Definition get_video_fps (path : string) : M float :=
  try_except
    (out <- check_output (fps_probe_cmd path) ;;
     nd <- unpack2 (PyStr.split "/" (PyStr.strip out)) ;;
     let (num, den) := (nd : string * string) in
     if negb (String.eqb den "0") then
       n <- float_of_str num ;;
       d <- float_of_str den ;;
       float_div n d
     else ret 30.0%float)
    (except_Exception (ret 30.0%float)).

Definition get_video_size (path : string) : M (option (Z * Z)) :=
  try_except
    (out <- check_output (size_probe_cmd path) ;;
     wh <- unpack2 (PyStr.split "," (PyStr.strip out)) ;;
     let (w, h) := (wh : string * string) in
     wi <- int_of_str w ;;
     hi <- int_of_str h ;;
     ret (Some (wi, hi)))
    (except_Exception (ret None)).

(** ** upscale_frames_cuda (lines 95-127) *)

Definition SRVGGNetCompact : net_config :=
  mkNet 3 3 64 16 4 "prelu".

(** [RealESRGANer(scale=4, model_path=..., model=..., tile=512, ...)]; the
    weights are read from [model_path]. *)
Definition make_upsampler (model_path : string) : M (upsampler E) :=
  weights <- os.read_file model_path ;;
  match RealESRGANer E SRVGGNetCompact (mkEsrgan 4 512 10 0 true) weights with
  | Some u => ret u
  | None => raise LibraryError
  end.

(** [cv2.imread]: [None] when the file is missing or is not an image. *)
Definition imread (p : string) : M (option (image E)) :=
  f <- get_fs ;; ret (files f !! p ≫= imdecode E).

(** [upsampler.enhance(img, outscale=scale)]; it raises on a [None] image. *)
Definition enhance_frame (u : upsampler E) (img : option (image E)) (outscale : float)
  : M (image E) :=
  match img ≫= (fun i => enhance E u i outscale) with
  | Some o => ret o
  | None => raise LibraryError
  end.

Definition imwrite (p : string) (img : image E) : M unit :=
  os.write_file p (imencode E img).

(** All characters of [s] are decimal digits, as in a frame index. *)
Fixpoint is_digits (s : string) : bool :=
  match s with
  | EmptyString => true
  | String c s' =>
      let n := N_of_ascii c in ((48 <=? n) && (n <=? 57))%N && is_digits s'
  end.

(** The files that ffmpeg's patterns frame_%08d.png and
    frames_upscaled_%08d.png name for the index [idx]. *)
Definition frame_name (idx : string) : string := "frame_" ++ idx ++ ".png".
Definition upscaled_name (idx : string) : string := "frames_upscaled_" ++ idx ++ ".png".

Definition is_frame_file (f : string) : bool :=
  PyStr.startswith "frame_" f && PyStr.endswith ".png" f.

Definition out_name_of (fname : string) : string :=
  PyStr.replace "frame_" "frames_upscaled_" fname.

Definition upscale_frame (u : upsampler E) (work_dir : string) (scale : float)
    (fname : string) : M unit :=
  let in_path := os.path_join work_dir fname in
  let out_name := out_name_of fname in
  let out_path := os.path_join work_dir out_name in
  img <- imread in_path ;;
  output <- enhance_frame u img scale ;;
  imwrite out_path output.

Definition upscale_frames_cuda (work_dir : string) (scale : float) (model_name : string)
  : M unit :=
  let model_path := WEIGHTS_DIR ++ "/" ++ model_name ++ ".pth" in
  u <- make_upsampler model_path ;;
  names <- os.listdir work_dir ;;
  let frame_files := sorted (filter (fun f => is_frame_file f = true) names) in
  for_each frame_files (upscale_frame u work_dir scale).

(** ** upscale_video (lines 130-186) *)

Definition work_dir_of (job_id : string) : string := "/tmp/" ++ job_id.

Definition extract_cmd (src frame_pattern : string) : list string :=
  ["ffmpeg"; "-y"; "-i"; src; "-q:v"; "1"; frame_pattern].

Definition encode_cmd (out_fps : float) (upscaled_frame_pattern : string) (crf : Z)
    (preset upscaled_video : string) : list string :=
  ["ffmpeg"; "-y"; "-framerate"; str_float E out_fps;
   "-i"; upscaled_frame_pattern; "-c:v"; "libx264"; "-crf"; str_int crf;
   "-preset"; preset; "-pix_fmt"; "yuv420p"; upscaled_video].

Definition remux_cmd (upscaled_video src final_video : string) : list string :=
  ["ffmpeg"; "-y"; "-i"; upscaled_video; "-i"; src;
   "-c:v"; "copy"; "-c:a"; "copy"; "-shortest"; final_video].

Definition upscale_video (input_path : string) (scale : float) (model : string)
    (fps : option float) (crf : Z) (preset : string) : M string :=
  u <- draw_uuid ;;
  let job_id := uuid_str u in
  let work_dir := work_dir_of job_id in
  os.makedirs work_dir ;;
  let src := os.path_join work_dir "src.mp4" in
  let frame_pattern := os.path_join work_dir "frame_%08d.png" in
  let upscaled_frame_pattern := os.path_join work_dir "frames_upscaled_%08d.png" in
  let upscaled_video := os.path_join work_dir "upscaled_noaudio.mp4" in
  let final_video := os.path_join work_dir "upscaled_with_audio.mp4" in
  (if negb (String.eqb (abspath E input_path) (abspath E src))
   then os.rename input_path src else ret tt) ;;
  out_fps <- match fps with
             | Some f => if PrimFloat.ltb 0%float f then ret f else get_video_fps src
             | None => get_video_fps src
             end ;;
  (* 1) Extract frames *)
  run (extract_cmd src frame_pattern) ;;
  (* 2) Run Real-ESRGAN on frames *)
  upscale_frames_cuda work_dir scale model ;;
  (* 3) Reassemble upscaled frames *)
  run (encode_cmd out_fps upscaled_frame_pattern crf preset upscaled_video) ;;
  (* 4) Copy audio from original *)
  run (remux_cmd upscaled_video src final_video) ;;
  ret final_video.

(** ** handler (lines 189-283) *)

Definition download_cmd (video_url tmp_path : string) : list string :=
  ["curl"; "-L"; "-s"; "-S"; video_url; "-o"; tmp_path].

Definition tmp_path_of (u : uuid) : string := "/tmp/input_" ++ uuid_hex u ++ ".mp4".

(** [str(x or dflt).strip() or dflt] *)
Definition str_or_default (x : option string) (dflt : string) : string :=
  let s := PyStr.strip (if PyStr.truthy x then default "" x else dflt) in
  if String.eqb s "" then dflt else s.

(** Lines 226-241.  An early [return] of the source is [inl]; otherwise
    the path to hand to [upscale_video] is [inr]. *)
Definition acquire_input (video_url file_path : option string) (tmp_path : string)
  : M (response + string) :=
  if PyStr.truthy video_url then
    run (download_cmd (default "" video_url) tmp_path) ;;
    present <- os.isfile tmp_path ;;
    unusable <- (if negb present then ret true
                 else sz <- os.getsize tmp_path ;; ret (Nat.eqb sz 0)) ;;
    if (unusable : bool) then ret (inl (Failure "Download failed or empty file."))
    else ret (inr tmp_path)
  else
    let fp := default "" file_path in
    present <- os.isfile fp ;;
    if negb present then ret (inl (Failure ("File not found: " ++ fp)))
    else ret (inr fp).

Definition except_CalledProcessError {A} (k : Z -> list string -> M A)
  : exn -> option (M A) :=
  fun e => match e with
           | CalledProcessError rc cmd => Some (k rc cmd)
           | _ => None
           end.

Definition except_OSError {A} (k : M A) : exn -> option (M A) :=
  fun e => match e with
           | OSError _ => Some k
           | _ => None
           end.

(** The body of the [try] block, lines 226-271. *)
Definition handler_try (j : job_input) (tmp_path : string) : M response :=
  let target_resolution := inp_target_resolution j in
  let model := str_or_default (inp_model j) DEFAULT_MODEL in
  let output_fps := inp_output_fps j in
  let crf := default DEFAULT_CRF (inp_crf j) in
  let preset := str_or_default (inp_preset j) DEFAULT_PRESET in
  acquired <- acquire_input (inp_video_url j) (inp_file_path j) tmp_path ;;
  match acquired with
  | inl early => ret early
  | inr input_path =>
      let scale := resolve_scale (inp_scale j) target_resolution in
      out_path <- upscale_video input_path scale model output_fps crf preset ;;
      data <- os.read_file out_path ;;
      ret (Success (b64encode E data) "video/mp4" "upscaled.mp4"
             (mkParams scale model target_resolution crf preset output_fps))
  end.

(** The [finally] block, lines 278-283.  It acts only when [video_url] is
    set, and then [tmp_path] still is the download path of line 223. *)
Definition handler_finally (j : job_input) (tmp_path : string) : M unit :=
  if PyStr.truthy (inp_video_url j) then
    present <- os.isfile tmp_path ;;
    if (present : bool) then try_except (os.remove tmp_path) (except_OSError (ret tt))
    else ret tt
  else ret tt.

(** Lines 216-283 of [handler]: the function from the source check on,
    given the parameters [j] that lines 204-214 have converted.  The whole
    function, from the payload, is [handler_event] below. *)
Definition handler (j : job_input) : M response :=
  if negb (PyStr.truthy (inp_video_url j)) && negb (PyStr.truthy (inp_file_path j)) then
    ret (Failure "Provide either 'video_url' or 'file_path' in input.")
  else
    u <- draw_uuid ;;
    let tmp_path := tmp_path_of u in
    try_finally
      (try_except (handler_try j tmp_path)
         (except_CalledProcessError
            (fun rc cmd =>
               ret (Failure ("Upscale failed: " ++ str_CalledProcessError E rc cmd)))))
      (handler_finally j tmp_path).

(** ** The conversions of lines 204-214 *)

(** [float(n)] for an [int]: the nearest binary64 value, ties to even;
    [OverflowError] when it is out of range. *)
Definition float_of_int (n : Z) : M float :=
  let x := FloatOps.SF2Prim
             (SpecFloat.binary_normalize FloatOps.prec FloatOps.emax n 0 false) in
  if PrimFloat.is_infinity x then raise OverflowError else ret x.

(** [int(x)] for a [float]: truncation towards zero; [ValueError] for a
    NaN, [OverflowError] for an infinity. *)
Definition int_of_float (x : float) : M Z :=
  match FloatOps.Prim2SF x with
  | SpecFloat.S754_zero _ => ret 0%Z
  | SpecFloat.S754_finite s m e =>
      ret ((if s then -1 else 1) * Z.shiftl (Z.pos m) e)%Z
  | SpecFloat.S754_infinity _ => raise OverflowError
  | SpecFloat.S754_nan => raise ValueError
  end.

(** [float(v)] *)
Definition float_of_value (v : value) : M float :=
  match v with
  | VNone => raise TypeError
  | VBool b => ret (if b then 1%float else 0%float)
  | VInt n => float_of_int n
  | VFloat x => ret x
  | VStr s => float_of_str s
  | VOther => raise TypeError
  end.

(** [int(v)] *)
Definition int_of_value (v : value) : M Z :=
  match v with
  | VNone => raise TypeError
  | VBool b => ret (if b then 1%Z else 0%Z)
  | VInt n => ret n
  | VFloat x => int_of_float x
  | VStr s => int_of_str s
  | VOther => raise TypeError
  end.

(** [float(v) if v is not None else None] (lines 208-209 and 211-212). *)
Definition optional_float (v : value) : M (option float) :=
  match v with
  | VNone => ret None
  | _ => x <- float_of_value v ;; ret (Some x)
  end.

(** Lines 204-214.  [int(job_input.get("crf", DEFAULT_CRF))] converts a
    "crf" that is present, a null included; the default of an absent key
    is applied where [crf] is used.  The texts of lines 210 and 214 cannot
    raise and are resolved by [str_or_default] where they are used. *)
Definition job_input_of (p : payload) : M job_input :=
  let video_url := raw_video_url p in
  let file_path := raw_file_path p in
  let target_resolution := raw_target_resolution p in
  scale <- optional_float (raw_scale p) ;;
  output_fps <- optional_float (raw_output_fps p) ;;
  crf <- match raw_crf p with
         | None => ret None
         | Some v => n <- int_of_value v ;; ret (Some n)
         end ;;
  ret (mkJob video_url file_path target_resolution scale (raw_model p)
             output_fps crf (raw_preset p)).

(** [handler] (lines 189-283) from the payload: the conversions run first,
    before the source check and outside the [try] block. *)
Definition handler_event (p : payload) : M response :=
  j <- job_input_of p ;;
  handler j.

End Handler.

(** ** A scripted machine

    A concrete instance of [Externals] on which the embedding runs: curl
    stores a video at its output path, ffprobe reports 30/1, ffmpeg writes
    two frames for a frame pattern and one file otherwise, and the
    upsampler marks each frame.  It provides the closed inputs of the
    examples below. *)

Module Machine.

Definition last_arg (cmd : list string) : string := List.last cmd "".

Definition write (p c : string) (f : FS) : FS :=
  mkFS (<[ p := c ]> (files f)) (dirs f).

Definition ok (out : string) : proc_result := mkProc 0 out "".

Definition newline : string := String (ascii_of_nat 10) "".

Definition program (cmd : list string) : string := List.hd "" cmd.

Definition exec_ok (cmd : list string) (f : FS) : proc_result * FS :=
  if String.eqb (program cmd) "curl" then (ok "", write (last_arg cmd) "VIDEO" f)
  else if String.eqb (program cmd) "ffprobe" then (ok ("30/1" ++ newline), f)
  else if String.eqb (program cmd) "ffmpeg" then
    let out := last_arg cmd in
    if PyStr.contains "/frame_%08d" out then
      (ok "", write (PyStr.replace "%08d" "00000002" out) "F2"
                (write (PyStr.replace "%08d" "00000001" out) "F1" f))
    else (ok "", write out "MP4" f)
  else (mkProc 127 "" "command not found", f).

(** As [exec_ok], but every ffmpeg run fails and writes nothing. *)
Definition exec_ffmpeg_fails (cmd : list string) (f : FS) : proc_result * FS :=
  if String.eqb (program cmd) "ffmpeg"
  then (mkProc 1 "" "Invalid data found when processing input", f)
  else exec_ok cmd f.

(** As [exec_ok], but curl fails and writes nothing. *)
Definition exec_curl_fails (cmd : list string) (f : FS) : proc_result * FS :=
  if String.eqb (program cmd) "curl"
  then (mkProc 6 "" "curl: (6) Could not resolve host", f)
  else exec_ok cmd f.

(** As [exec_ok], but ffprobe reports the NTSC film rate 24000/1001. *)
Definition exec_ntsc (cmd : list string) (f : FS) : proc_result * FS :=
  if String.eqb (program cmd) "ffprobe" then (ok ("24000/1001" ++ newline), f)
  else exec_ok cmd f.

Definition digit (n : nat) : string := str_int (Z.of_nat (n mod 10)).

Definition uuid_of (n : nat) : uuid :=
  mkUuid ("00000000-0000-4000-8000-00000000000" ++ digit n)
         ("00000000000040008000" ++ "00000000000" ++ digit n).

Fixpoint digits_value (acc : Z) (s : string) : option Z :=
  match s with
  | EmptyString => Some acc
  | String c s' =>
      let n := Z.of_N (N_of_ascii c) in
      if ((48 <=? n) && (n <=? 57))%Z then digits_value (10 * acc + (n - 48)) s'
      else None
  end.

(** Decimal integers only; enough for the output of ffprobe. *)
Definition parse_int (s : string) : option Z :=
  match s with
  | EmptyString => None
  | _ => digits_value 0 s
  end.

Definition float_of_digit (d : Z) : float :=
  match d with
  | 1%Z => 1 | 2%Z => 2 | 3%Z => 3 | 4%Z => 4 | 5%Z => 5
  | 6%Z => 6 | 7%Z => 7 | 8%Z => 8 | 9%Z => 9 | _ => 0
  end%float.

Fixpoint digits_float (acc : float) (s : string) : option float :=
  match s with
  | EmptyString => Some acc
  | String c s' =>
      let n := Z.of_N (N_of_ascii c) in
      if ((48 <=? n) && (n <=? 57))%Z
      then digits_float (PrimFloat.add (PrimFloat.mul 10 acc) (float_of_digit (n - 48))) s'
      else None
  end.

Definition parse_float (s : string) : option float :=
  match s with
  | EmptyString => None
  | _ => digits_float 0 s
  end.

Definition repr_cmd (cmd : list string) : string :=
  "[" ++ String.concat ", " (map (fun a => "'" ++ a ++ "'") cmd) ++ "]".

(** The text CPython gives a [CalledProcessError] with a positive status. *)
Definition str_cpe (rc : Z) (cmd : list string) : string :=
  "Command '" ++ repr_cmd cmd ++ "' returned non-zero exit status " ++ str_int rc ++ ".".

Definition externals (run_cmd : list string -> FS -> proc_result * FS) : Externals :=
  {| image := string;
     upsampler := unit;
     exec := run_cmd;
     uuid4 := uuid_of;
     getenv := fun _ => None;
     abspath := fun p => p;
     py_float := parse_float;
     py_int := parse_int;
     str_float := fun _ => "30.0";   (* a fixed text: the examples do not depend on it *)
     str_CalledProcessError := str_cpe;
     b64encode := fun d => "base64:" ++ d;
     RealESRGANer := fun _ _ _ => Some tt;
     imdecode := fun b => Some b;
     imencode := fun i => i;
     enhance := fun _ i _ => Some ("upscaled " ++ i) |}.

Definition weights : string := "/workspace/weights/realesr-animevideov3.pth".

(** A worker with the model weights installed and a video at /data/in.mp4. *)
Definition fs0 : FS :=
  mkFS {[ weights := "WEIGHTS"; "/data/in.mp4" := "VIDEO" ]}
       {[ "/tmp"; "/data"; "/workspace/weights" ]}.

Definition world0 : World := mkWorld fs0 0 [].

Definition no_input : job_input :=
  mkJob None None None None None None None None.

Definition url_job : job_input :=
  mkJob (Some "https://example.org/in.mp4") None (Some "1080p") None None None None None.

Definition file_job : job_input :=
  mkJob None (Some "/data/in.mp4") None None None None None None.

(** A working directory as the frame extractor leaves it. *)
Definition job_dir : string := "/tmp/00000000-0000-4000-8000-000000000001".

Definition extracted : World :=
  mkWorld
    (mkFS {[ weights := "WEIGHTS";
             job_dir ++ "/src.mp4" := "VIDEO";
             job_dir ++ "/frame_00000001.png" := "F1";
             job_dir ++ "/frame_00000002.png" := "F2" ]}
          {[ "/tmp"; job_dir; "/workspace/weights" ]})
    2 [].

End Machine.

(** * Terms of the statements

    The worlds, commands and predicates in which the properties of the
    handler are stated. *)

(** ** Child processes *)

(** The world after a child process has been run. *)
Definition after_spawn (E : Externals) (k : call_kind) (cmd : list string) (w : World)
  : World :=
  mkWorld (exec E cmd (fs w)).2 (entropy w)
          (calls w ++ [mkCall k cmd (returncode (exec E cmd (fs w)).1)]).

(** What ffprobe answers to the two probes of [path] in world [w]. *)
Definition fps_probe (E : Externals) (path : string) (w : World) : proc_result :=
  (exec E (fps_probe_cmd path) (fs w)).1.

Definition size_probe (E : Externals) (path : string) (w : World) : proc_result :=
  (exec E (size_probe_cmd path) (fs w)).1.

(** A stage run through [run] that exited non-zero. *)
Definition failed (c : call) : Prop := call_kind_of c = CheckCall /\ call_rc c <> 0%Z.

Definition all_ok (l : list call) : Prop := Forall (fun c => ~ failed c) l.

(** [m] starts no child process. *)
Definition silent {A} (m : M A) : Prop := forall w, calls (m w).2 = calls w.

(** [m] starts probes ([check_output]) only. *)
Definition probing {A} (m : M A) : Prop :=
  forall w, exists l,
    calls (m w).2 = (calls w ++ l)%list /\
    Forall (fun c => call_kind_of c = CheckOutput) l.

(** [m] stops at the first stage that exits non-zero, with the result
    [on_fail rc cmd] built from that stage's exit status and command line. *)
Definition stops_at {A} (on_fail : Z -> list string -> result A) (m : M A) : Prop :=
  forall w, exists l,
    calls (m w).2 = (calls w ++ l)%list /\
    (all_ok l \/
     exists pre cmd rc,
       l = (pre ++ [mkCall CheckCall cmd rc])%list /\ all_ok pre /\ rc <> 0%Z /\
       (m w).1 = on_fail rc cmd).

Definition fail_fast {A} (m : M A) : Prop :=
  stops_at (fun rc cmd => Raise (CalledProcessError rc cmd)) m.

(** The error response of [handler] for a failed stage (line 274). *)
Definition failure_of (E : Externals) (rc : Z) (cmd : list string) : result response :=
  Ok (Failure ("Upscale failed: " ++ str_CalledProcessError E rc cmd)).

(** ** Frames *)

(** The upscaled image of frame [fname] of directory [wd], when the frame
    can be read and enhanced. *)
Definition frame_result (E : Externals) (u : upsampler E) (wd : string) (scale : float)
    (fname : string) (f : FS) : option (image E) :=
  (files f !! os.path_join wd fname ≫= imdecode E) ≫= (fun i => enhance E u i scale).

Definition out_path (wd fname : string) : string := os.path_join wd (out_name_of fname).

Definition with_file (p c : string) (w : World) : World :=
  mkWorld (mkFS (<[ p := c ]> (files (fs w))) (dirs (fs w))) (entropy w) (calls w).

Definition model_path_of (model_name : string) : string :=
  WEIGHTS_DIR ++ "/" ++ model_name ++ ".pth".

Definition frame_files_of (names : list string) : list string :=
  sorted (filter (fun f => is_frame_file f = true) names).

(** The weights load, the working directory exists, and every frame entry
    of the working directory can be read and enhanced. *)
Definition frames_ready (E : Externals) (wd : string) (scale : float)
    (model_name : string) (w : World) : Prop :=
  wd ∈ dirs (fs w) /\
  exists c u,
    files (fs w) !! model_path_of model_name = Some c /\
    RealESRGANer E SRVGGNetCompact (mkEsrgan 4 512 10 0 true) c = Some u /\
    forall f, is_frame_file f = true ->
              is_Some (files (fs w) !! (wd ++ "/" ++ f)) \/ (wd ++ "/" ++ f) ∈ dirs (fs w) ->
              is_Some (frame_result E u wd scale f (fs w)).

(** ** The stages of handler *)

Definition has_source (j : job_input) : bool :=
  PyStr.truthy (inp_video_url j) || PyStr.truthy (inp_file_path j).

(** The world after line 223 and the temporary path drawn there. *)
Definition drawn (w : World) : World := mkWorld (fs w) (S (entropy w)) (calls w).

Definition tmp_of (E : Externals) (w : World) : string :=
  tmp_path_of (uuid4 E (entropy w)).

(** The [try] block together with its [except] clause. *)
Definition handler_guarded (E : Externals) (j : job_input) (tmp_path : string)
  : M response :=
  try_except (handler_try E j tmp_path)
    (except_CalledProcessError
       (fun rc cmd => ret (Failure ("Upscale failed: " ++ str_CalledProcessError E rc cmd)))).

(** The effect of the [finally] block. *)
Definition cleaned (j : job_input) (tmp_path : string) (w : World) : World :=
  if PyStr.truthy (inp_video_url j) then
    match files (fs w) !! tmp_path with
    | Some _ => mkWorld (mkFS (delete tmp_path (files (fs w))) (dirs (fs w)))
                        (entropy w) (calls w)
    | None => w
    end
  else w.

(** The world in which the [try] block of [handler] ended, by [return] or
    by an exception. *)
Definition stopped (E : Externals) (j : job_input) (w : World) : World :=
  (handler_guarded E j (tmp_of E w) (drawn w)).2.

(** ** Input acquisition *)

Definition url_of (j : job_input) : string := default "" (inp_video_url j).
Definition local_path_of (j : job_input) : string := default "" (inp_file_path j).

(** The world once curl has run (line 227). *)
Definition downloaded (E : Externals) (j : job_input) (w : World) : World :=
  after_spawn E CheckCall (download_cmd (url_of j) (tmp_of E w)) (drawn w).

Definition download_rc (E : Externals) (j : job_input) (w : World) : Z :=
  returncode (exec E (download_cmd (url_of j) (tmp_of E w)) (fs w)).1.

(** [not os.path.isfile(p) or os.path.getsize(p) == 0] *)
Definition unusable (f : FS) (p : string) : bool :=
  match files f !! p with
  | Some c => Nat.eqb (String.length c) 0
  | None => true
  end.

(** The three input errors: no source named, a download that left no
    usable file, a local path that names no file. *)
Definition bad_input (E : Externals) (j : job_input) (w : World) : Prop :=
  has_source j = false \/
  (PyStr.truthy (inp_video_url j) = true /\
   unusable (fs (downloaded E j w)) (tmp_of E w) = true) \/
  (PyStr.truthy (inp_video_url j) = false /\ PyStr.truthy (inp_file_path j) = true /\
   files (fs w) !! local_path_of j = None).

(** The world in which the pipeline would start. *)
Definition acquired (E : Externals) (j : job_input) (w : World) : World :=
  if PyStr.truthy (inp_video_url j) then downloaded E j w else w.

(** ** Directories *)

(** The external tools remove no directory. *)
Definition tools_keep_dirs (E : Externals) : Prop :=
  forall cmd f d, d ∈ dirs f -> d ∈ dirs (exec E cmd f).2.

(** [m] removes no directory. *)
Definition keeps_dirs {A} (m : M A) : Prop :=
  forall w d, d ∈ dirs (fs w) -> d ∈ dirs (fs (m w).2).

(** The working directory that [upscale_video] creates when started in [w]. *)
Definition job_work_dir (E : Externals) (w : World) : string :=
  work_dir_of (uuid_str (uuid4 E (entropy w))).

(** ** Further terms: the log and the stages of a job *)

(** Every child process that [m] starts satisfies [P]. *)
Definition emits (P : call -> Prop) {A} (m : M A) : Prop :=
  forall w, exists l, calls (m w).2 = (calls w ++ l)%list /\ Forall P l.

(** The executable of a logged command. *)
Definition call_program (c : call) : string := List.hd "" (call_cmd c).

(** The files of a job inside its working directory [wd] (lines 142-146). *)
Definition src_in (wd : string) : string := os.path_join wd "src.mp4".
Definition frame_pattern_in (wd : string) : string := os.path_join wd "frame_%08d.png".
Definition upscaled_pattern_in (wd : string) : string :=
  os.path_join wd "frames_upscaled_%08d.png".
Definition noaudio_in (wd : string) : string := os.path_join wd "upscaled_noaudio.mp4".
Definition final_in (wd : string) : string := os.path_join wd "upscaled_with_audio.mp4".

(** The world after lines 138-149 of [upscale_video] started in [w] on an
    existing [input_path]: a uuid is drawn, the working directory exists and
    the input lies at src.mp4 in it. *)
Definition staged (E : Externals) (input_path : string) (w : World) : World :=
  let wd := job_work_dir E w in
  let moved :=
    if String.eqb (abspath E input_path) (abspath E (src_in wd)) then files (fs w)
    else match files (fs w) !! input_path with
         | Some c => <[ src_in wd := c ]> (delete input_path (files (fs w)))
         | None => files (fs w)
         end in
  mkWorld (mkFS moved ({[ wd ]} ∪ dirs (fs w))) (S (entropy w)) (calls w).

(** The three ffmpeg stages of a job in [wd], each with exit status 0. *)
Definition stage_calls (E : Externals) (wd : string) (out_fps : float) (crf : Z)
    (preset : string) : list call :=
  [mkCall CheckCall (extract_cmd (src_in wd) (frame_pattern_in wd)) 0;
   mkCall CheckCall
     (encode_cmd E out_fps (upscaled_pattern_in wd) crf preset (noaudio_in wd)) 0;
   mkCall CheckCall (remux_cmd (noaudio_in wd) (src_in wd) (final_in wd)) 0].

(** The request [j] with its [file_path] left out. *)
Definition without_file_path (j : job_input) : job_input :=
  mkJob (inp_video_url j) None (inp_target_resolution j) (inp_scale j) (inp_model j)
        (inp_output_fps j) (inp_crf j) (inp_preset j).

(** The world in which [handler] enters [upscale_video], the path it hands
    over, and the download it has logged by then. *)
Definition pipeline_start (E : Externals) (j : job_input) (w : World) : World :=
  if PyStr.truthy (inp_video_url j) then downloaded E j w else drawn w.

Definition input_of (E : Externals) (j : job_input) (w : World) : string :=
  if PyStr.truthy (inp_video_url j) then tmp_of E w else local_path_of j.

Definition download_calls (E : Externals) (j : job_input) (w : World) : list call :=
  if PyStr.truthy (inp_video_url j)
  then [mkCall CheckCall (download_cmd (url_of j) (tmp_of E w)) 0]
  else [].

(** The parameters that [handler] resolves from the request (lines 207-214
    and 243). *)
Definition resolved_params (E : Externals) (j : job_input) : params :=
  mkParams (resolve_scale (inp_scale j) (inp_target_resolution j))
           (str_or_default (inp_model j) (DEFAULT_MODEL E))
           (inp_target_resolution j)
           (default DEFAULT_CRF (inp_crf j))
           (str_or_default (inp_preset j) DEFAULT_PRESET)
           (inp_output_fps j).

(** The frame files that [upscale_frames_cuda] finds in [wd], in the order
    in which it processes them (lines 116-120). *)
Definition frame_entries (wd : string) (f : FS) : list string :=
  frame_files_of
    (omap (os.entry_name wd) ((map_to_list (files f)).*1 ++ elements (dirs f))%list).

(** A worker on which the model weights are not installed. *)
Definition world_without_weights : World :=
  mkWorld (mkFS {[ "/data/in.mp4" := "VIDEO" ]} {[ "/tmp"; "/data" ]}) 0 [].

(** A working directory whose second frame entry is not a readable file. *)
Definition world_with_bad_frame : World :=
  mkWorld
    (mkFS {[ Machine.weights := "WEIGHTS";
             Machine.job_dir ++ "/frame_00000001.png" := "F1";
             Machine.job_dir ++ "/frame_00000003.png" := "F3" ]}
          {[ "/tmp"; Machine.job_dir; Machine.job_dir ++ "/frame_00000002.png" ]})
    1 [].

(** The five command lines of a job on request [j]: the download (only when
    [video_url] is set), the frame-rate probe (only when no positive
    [output_fps] is given), and the three ffmpeg stages. *)
Definition job_call (E : Externals) (j : job_input) (c : call) : Prop :=
  (PyStr.truthy (inp_video_url j) = true /\
   exists tmp rc, c = mkCall CheckCall (download_cmd (url_of j) tmp) rc) \/
  (scale_given (inp_output_fps j) = false /\
   exists src rc, c = mkCall CheckOutput (fps_probe_cmd src) rc) \/
  (exists src pattern rc, c = mkCall CheckCall (extract_cmd src pattern) rc) \/
  (exists out_fps pattern video rc,
     c = mkCall CheckCall
           (encode_cmd E out_fps pattern (default DEFAULT_CRF (inp_crf j))
              (str_or_default (inp_preset j) DEFAULT_PRESET) video) rc) \/
  (exists video src final rc, c = mkCall CheckCall (remux_cmd video src final) rc).

(** A horizontal tab, which [str.strip] removes at the ends of a text and
    [replace(" ", "")] leaves alone inside it. *)
Definition tab : string := String (ascii_of_nat 9) "".

(** ** Requests as they arrive *)

(** As [Machine.exec_ok], but curl exits with status 0 and leaves an empty
    file. *)
Definition exec_empty_download (cmd : list string) (f : FS) : proc_result * FS :=
  if String.eqb (Machine.program cmd) "curl"
  then (Machine.ok "", Machine.write (Machine.last_arg cmd) "" f)
  else Machine.exec_ok cmd f.

(** {"target_resolution": "1080p"} *)
Definition request_without_source : payload :=
  mkPayload None None (Some "1080p") VNone None VNone None None.

(** {"file_path": "/data/missing.mp4", "scale": 2, "crf": 18} *)
Definition request_missing_file : payload :=
  mkPayload None (Some "/data/missing.mp4") None (VInt 2) None VNone (Some (VInt 18)) None.

(** {"video_url": "https://example.org/in.mp4", "output_fps": "30"} *)
Definition request_url : payload :=
  mkPayload (Some "https://example.org/in.mp4") None None VNone None (VStr "30") None None.

(** {"crf": null} *)
Definition request_null_crf : payload :=
  mkPayload None None None VNone None VNone (Some VNone) None.

(** {"file_path": "/data/missing.mp4", "scale": "2x"} *)
Definition request_bad_scale : payload :=
  mkPayload None (Some "/data/missing.mp4") None (VStr "2x") None VNone None None.

(** * Facts and theorems *)

Example resolve_scale_2k : resolve_scale None (Some "2k") = 2.0%float.
Proof. vm_compute. reflexivity. Qed.

Example resolve_scale_pad : resolve_scale None (Some " 1440P ") = 2.0%float.
Proof. vm_compute. reflexivity. Qed.

Example replace_frame_name :
  PyStr.replace "frame_" "frames_upscaled_" "frame_00000001.png"
  = "frames_upscaled_00000001.png".
Proof. vm_compute. reflexivity. Qed.

Example strip_probe_output :
  PyStr.split "/" (PyStr.strip ("24000/1001" ++ Machine.newline)) = ["24000"; "1001"].
Proof. vm_compute. reflexivity. Qed.

Example split_keeps_empty_fields : PyStr.split "/" "a//b/" = ["a"; ""; "b"; ""].
Proof. vm_compute. reflexivity. Qed.

Example path_join_work_dir :
  os.path_join Machine.job_dir "src.mp4" = Machine.job_dir ++ "/src.mp4".
Proof. vm_compute. reflexivity. Qed.

Example handler_runs_on_url_job :
  (handler (Machine.externals Machine.exec_ok) Machine.url_job Machine.world0).1
  = Ok (Success "base64:MP4" "video/mp4" "upscaled.mp4"
          (mkParams 1.5%float "realesr-animevideov3" (Some "1080p") 20 "medium" None)).
Proof. vm_compute. reflexivity. Qed.

Example handler_without_source :
  handler (Machine.externals Machine.exec_ok) Machine.no_input Machine.world0
  = (Ok (Failure "Provide either 'video_url' or 'file_path' in input."), Machine.world0).
Proof. vm_compute. reflexivity. Qed.

(** ** Facts about the string methods *)

Section StringFacts.

Lemma append_cons (c : ascii) (a b : string) : String c a ++ b = String c (a ++ b).
Proof. reflexivity. Qed.

Lemma append_nil (b : string) : "" ++ b = b.
Proof. reflexivity. Qed.

Lemma append_inj_l (p a b : string) : p ++ a = p ++ b -> a = b.
Proof. apply String.app_inj. Qed.

Lemma append_assoc (a b c : string) : (a ++ b) ++ c = a ++ (b ++ c).
Proof.
  induction a as [|x a IH]; [reflexivity|].
  rewrite !append_cons. now rewrite IH.
Qed.

Lemma startswith_app (p r : string) : PyStr.startswith p (p ++ r) = true.
Proof.
  induction p as [|c p IH]; [now destruct r|].
  rewrite append_cons. simpl. now rewrite Ascii.eqb_refl.
Qed.

Lemma startswith_inv (p s : string) :
  PyStr.startswith p s = true -> exists r, s = p ++ r.
Proof.
  revert s. induction p as [|c p IH]; intros s H.
  - exists s. reflexivity.
  - destruct s as [|b s]; simpl in H; [discriminate|].
    destruct (Ascii.eqb c b) eqn:Hcb; [|discriminate].
    apply Ascii.eqb_eq in Hcb. subst b.
    destruct (IH s H) as [r ->]. now exists r.
Qed.

Lemma strip_prefix_app (p r : string) : PyStr.strip_prefix p (p ++ r) = Some r.
Proof.
  induction p as [|c p IH]; [now destruct r|].
  rewrite append_cons. simpl. now rewrite Ascii.eqb_refl.
Qed.

Lemma strip_prefix_inv (p s r : string) :
  PyStr.strip_prefix p s = Some r -> s = p ++ r.
Proof.
  revert s. induction p as [|c p IH]; intros s H.
  - destruct s; simpl in H; now inversion H.
  - destruct s as [|b s]; simpl in H; [discriminate|].
    destruct (Ascii.eqb c b) eqn:Hcb; [|discriminate].
    apply Ascii.eqb_eq in Hcb. subst b. rewrite append_cons. f_equal. now apply IH.
Qed.

(** Occurrences of a single character. *)
Lemma contains_char_cons (c a : ascii) (s : string) :
  PyStr.contains (String c "") (String a s) =
  Ascii.eqb c a || PyStr.contains (String c "") s.
Proof. simpl. destruct (Ascii.eqb c a); reflexivity. Qed.

Lemma contains_char_app (c : ascii) (a b : string) :
  PyStr.contains (String c "") (a ++ b) =
  PyStr.contains (String c "") a || PyStr.contains (String c "") b.
Proof.
  induction a as [|x a IH].
  - reflexivity.
  - rewrite append_cons, !contains_char_cons, IH. now rewrite orb_assoc.
Qed.

Lemma digits_no_char (c : ascii) (idx : string) :
  ((N_of_ascii c <? 48) || (57 <? N_of_ascii c))%N = true ->
  is_digits idx = true -> PyStr.contains (String c "") idx = false.
Proof.
  intros Hc. induction idx as [|a idx IH]; [reflexivity|].
  intros H. rewrite contains_char_cons.
  simpl in H. apply andb_prop in H as [Ha Hidx]. rewrite (IH Hidx), orb_false_r.
  apply Ascii.eqb_neq. intros ->.
  apply andb_prop in Ha as [H1 H2].
  apply N.leb_le in H1, H2.
  apply orb_prop in Hc as [Hc | Hc]; apply N.ltb_lt in Hc; lia.
Qed.

(** A text that does not contain the first character of [old] has no
    occurrence of [old]: [replace] leaves it as it is. *)
Lemma replace_from_unchanged (c : ascii) (old' new t : string) :
  PyStr.contains (String c "") t = false ->
  PyStr.replace_from (String c old') new 0 t = t.
Proof.
  induction t as [|a t IH]; [reflexivity|].
  rewrite contains_char_cons. intros H. apply orb_false_elim in H as [Hca Ht].
  cbn [PyStr.replace_from PyStr.startswith]. rewrite Hca. now rewrite IH.
Qed.

(** If the result of [replace] does not contain the first character of
    [new], nothing was replaced. *)
Lemma replace_from_inv (c : ascii) (old new' s t : string) :
  PyStr.contains (String c "") t = false ->
  PyStr.replace_from old (String c new') 0 s = t -> s = t.
Proof.
  revert t. induction s as [|a s IH]; intros t Ht H; [exact H|].
  cbn [PyStr.replace_from] in H.
  destruct (PyStr.startswith old (String a s)).
  - subst t. rewrite append_cons, contains_char_cons, Ascii.eqb_refl in Ht. discriminate.
  - destruct t as [|b t]; [discriminate|]. injection H as -> H.
    rewrite contains_char_cons in Ht. apply orb_false_elim in Ht as [_ Ht].
    f_equal. now apply IH.
Qed.

End StringFacts.

(** ** Frame names and directory listings *)

Section FrameNames.

Lemma endswith_app (p a : string) : PyStr.endswith p (a ++ p) = true.
Proof.
  induction a as [|c a IH].
  - rewrite append_nil. destruct p; cbn [PyStr.endswith]; now rewrite String.eqb_refl.
  - rewrite append_cons. cbn [PyStr.endswith].
    destruct (String.eqb p (String c (a ++ p))); [reflexivity | exact IH].
Qed.

Lemma out_name_of_frame (r : string) :
  out_name_of ("frame_" ++ r) =
  "frames_upscaled_" ++ PyStr.replace_from "frame_" "frames_upscaled_" 0 r.
Proof.
  unfold out_name_of, PyStr.replace.
  rewrite !append_cons, append_nil. reflexivity.
Qed.

Lemma is_frame_file_frame_name (idx : string) : is_frame_file (frame_name idx) = true.
Proof.
  unfold is_frame_file, frame_name.
  rewrite startswith_app. rewrite <- append_assoc. now rewrite endswith_app.
Qed.

Lemma png_no_char (c : ascii) (idx : string) :
  ((N_of_ascii c <? 46) || (N_of_ascii c =? 47)
   || (57 <? N_of_ascii c) && (N_of_ascii c <? 103)
   || (112 <? N_of_ascii c))%N = true ->
  is_digits idx = true -> PyStr.contains (String c "") (idx ++ ".png") = false.
Proof.
  intros Hc Hidx. rewrite contains_char_app.
  rewrite (digits_no_char c idx); [|
    apply orb_true_iff; repeat (apply orb_prop in Hc as [Hc|Hc]);
    [left | left | right | right]; try (apply andb_prop in Hc as [Hc _]);
    try apply N.eqb_eq in Hc; try apply N.ltb_lt in Hc; apply N.ltb_lt; lia
    | exact Hidx].
  cbn [orb]. rewrite !contains_char_cons, orb_false_r.
  repeat (apply orb_false_intro); apply Ascii.eqb_neq; intros ->;
    vm_compute in Hc; discriminate.
Qed.

(** The output name of the frame with index [idx] carries the same index. *)
Lemma out_name_of_frame_name (idx : string) :
  is_digits idx = true -> out_name_of (frame_name idx) = upscaled_name idx.
Proof.
  intros Hidx. unfold frame_name, upscaled_name. rewrite out_name_of_frame.
  f_equal. apply (replace_from_unchanged "f"). now apply png_no_char.
Qed.

(** Only the frame with index [idx] is written to the output name of [idx]. *)
Lemma out_name_of_inv (f idx : string) :
  is_frame_file f = true -> is_digits idx = true ->
  out_name_of f = upscaled_name idx -> f = frame_name idx.
Proof.
  intros Hf Hidx Hout. unfold is_frame_file in Hf.
  apply andb_prop in Hf as [Hstart _].
  apply startswith_inv in Hstart as [r ->].
  rewrite out_name_of_frame in Hout. unfold upscaled_name in Hout.
  apply append_inj_l in Hout. unfold frame_name. f_equal.
  apply (replace_from_inv "f") in Hout; [exact Hout|]. now apply png_no_char.
Qed.

(** An output name is never the name of an input frame. *)
Lemma out_name_not_frame (f g : string) :
  is_frame_file f = true -> is_frame_file g = true -> out_name_of g <> f.
Proof.
  intros Hf Hg Heq. unfold is_frame_file in Hf, Hg.
  apply andb_prop in Hf as [Hf _]. apply andb_prop in Hg as [Hg _].
  apply startswith_inv in Hf as [r ->]. apply startswith_inv in Hg as [r' ->].
  rewrite out_name_of_frame in Heq.
  rewrite !append_cons in Heq. discriminate.
Qed.

Lemma path_join_plain (d n : string) :
  d <> "" -> PyStr.endswith "/" d = false -> PyStr.startswith "/" n = false ->
  os.path_join d n = d ++ "/" ++ n.
Proof.
  intros Hd Hend Hn. unfold os.path_join. rewrite Hn, Hend.
  apply String.eqb_neq in Hd. now rewrite Hd.
Qed.

Lemma frame_file_relative (f : string) :
  is_frame_file f = true -> PyStr.startswith "/" f = false.
Proof.
  intros Hf. apply andb_prop in Hf as [Hf _].
  apply startswith_inv in Hf as [r ->]. reflexivity.
Qed.

Lemma out_name_relative (f : string) :
  is_frame_file f = true -> PyStr.startswith "/" (out_name_of f) = false.
Proof.
  intros Hf. apply andb_prop in Hf as [Hf _].
  apply startswith_inv in Hf as [r ->]. rewrite out_name_of_frame. reflexivity.
Qed.

Lemma entry_name_Some (d p n : string) :
  os.entry_name d p = Some n ->
  p = d ++ "/" ++ n /\ n <> "" /\ PyStr.contains "/" n = false.
Proof.
  unfold os.entry_name.
  destruct (PyStr.strip_prefix (d ++ "/") p) as [r|] eqn:Hr; [|discriminate].
  destruct (String.eqb r "") eqn:Hnil; [discriminate|].
  destruct (PyStr.contains "/" r) eqn:Hslash; [discriminate|].
  simpl. intros [= <-]. apply strip_prefix_inv in Hr.
  rewrite append_assoc in Hr. apply String.eqb_neq in Hnil. auto.
Qed.

Lemma entry_name_app (d n : string) :
  n <> "" -> PyStr.contains "/" n = false -> os.entry_name d (d ++ "/" ++ n) = Some n.
Proof.
  intros Hn Hslash. unfold os.entry_name.
  rewrite <- append_assoc, strip_prefix_app.
  apply String.eqb_neq in Hn. now rewrite Hn, Hslash.
Qed.

(** The entries that [os.listdir] reports are exactly the files and
    directories lying directly in the directory. *)
Lemma listdir_Ok (d : string) (w w' : World) (names : list string) :
  os.listdir d w = (Ok names, w') ->
  w' = w /\
  forall n, n ∈ names <->
            n <> "" /\ PyStr.contains "/" n = false /\
            (is_Some (files (fs w) !! (d ++ "/" ++ n)) \/ (d ++ "/" ++ n) ∈ dirs (fs w)).
Proof.
  unfold os.listdir, bind, get_fs, ret, raise.
  destruct (bool_decide (d ∈ dirs (fs w))); [|discriminate].
  intros [= <- <-]. split; [reflexivity|].
  intros n. rewrite list_elem_of_omap. split.
  - intros (p & Hp & Hname). apply entry_name_Some in Hname as (-> & Hn & Hslash).
    split; [exact Hn|]. split; [exact Hslash|].
    apply elem_of_app in Hp as [Hp | Hp].
    + left. apply list_elem_of_fmap in Hp as ([p c] & -> & Hpc).
      apply elem_of_map_to_list in Hpc. simpl. eauto.
    + right. now apply elem_of_elements in Hp.
  - intros (Hn & Hslash & Hin). exists (d ++ "/" ++ n).
    split; [|now apply entry_name_app].
    apply elem_of_app. destruct Hin as [[c Hc] | Hdir].
    + left. apply list_elem_of_fmap. exists (d ++ "/" ++ n, c).
      split; [reflexivity|]. now apply elem_of_map_to_list.
    + right. now apply elem_of_elements.
Qed.

Lemma sorted_elem_of (l : list string) (x : string) : x ∈ sorted l <-> x ∈ l.
Proof. unfold sorted. now rewrite merge_sort_Permutation. Qed.

End FrameNames.

(** ** The normalised preset key *)

Lemma lower_char_idem (c : ascii) :
  PyStr.lower_char (PyStr.lower_char c) = PyStr.lower_char c.
Proof. destruct c as [[] [] [] [] [] [] [] []]; reflexivity. Qed.

Lemma lower_idem (s : string) : PyStr.lower (PyStr.lower s) = PyStr.lower s.
Proof.
  induction s as [|c s IH]; [reflexivity|].
  cbn [PyStr.lower]. now rewrite lower_char_idem, IH.
Qed.

Lemma replace_space_no_space (t : string) :
  PyStr.contains " " (PyStr.replace_from " " "" 0 t) = false.
Proof.
  induction t as [|c t IH]; [reflexivity|].
  cbn [PyStr.replace_from PyStr.startswith String.length Nat.sub].
  destruct (Ascii.eqb " " c) eqn:Hc.
  - rewrite append_nil. exact IH.
  - now rewrite contains_char_cons, Hc, IH.
Qed.

Lemma replace_space_lowered (t : string) :
  PyStr.lower t = t ->
  PyStr.lower (PyStr.replace_from " " "" 0 t) = PyStr.replace_from " " "" 0 t.
Proof.
  induction t as [|c t IH]; [reflexivity|].
  cbn [PyStr.lower]. intros [= Hc Ht].
  cbn [PyStr.replace_from PyStr.startswith String.length Nat.sub].
  destruct (Ascii.eqb " " c).
  - rewrite append_nil. now apply IH.
  - cbn [PyStr.lower]. now rewrite Hc, IH.
Qed.

(** The key looked up holds no space and no upper-case letter. *)
Lemma preset_key_normal (tr : string) :
  PyStr.contains " " (preset_key tr) = false /\
  PyStr.lower (preset_key tr) = preset_key tr.
Proof.
  unfold preset_key, PyStr.replace. split.
  - apply replace_space_no_space.
  - apply replace_space_lowered, lower_idem.
Qed.

(** ** Properties of resolve_scale *)

Lemma preset_lookup_None (key : string) :
  key <> "1080p" -> key <> "2k" -> key <> "1440p" ->
  TARGET_RESOLUTION_SCALE !! key = None.
Proof.
  intros H1 H2 H3. unfold TARGET_RESOLUTION_SCALE.
  rewrite !lookup_insert_ne by congruence.
  apply lookup_singleton_ne. congruence.
Qed.

Lemma resolve_scale_fallthrough (scale : option float) (tr : option string) :
  scale_given scale = false -> resolve_scale scale tr = resolve_preset tr.
Proof.
  unfold resolve_scale, scale_given. destruct scale as [s|]; [|reflexivity].
  now intros ->.
Qed.

Lemma preset_key_nonempty (tr : string) :
  preset_key tr <> "" -> PyStr.truthy (Some tr) = true.
Proof. destruct tr; [intros H; now elim H | reflexivity]. Qed.

(** C3: an explicit positive [scale] wins over [target_resolution];
    otherwise "2k" and "1440p" give 2.0 and "1080p" gives 1.5; with both
    absent the result is the default 1.5. *)
Theorem resolve_scale_precedence (scale : option float) (target_resolution : option string) :
  (forall s, scale = Some s -> PrimFloat.ltb 0%float s = true ->
             resolve_scale scale target_resolution = s) /\
  (scale_given scale = false ->
     (target_resolution = Some "2k" \/ target_resolution = Some "1440p" ->
        resolve_scale scale target_resolution = 2.0%float) /\
     (target_resolution = Some "1080p" ->
        resolve_scale scale target_resolution = 1.5%float) /\
     (target_resolution = None ->
        resolve_scale scale target_resolution = 1.5%float)).
Proof.
  split.
  - intros s -> Hpos. unfold resolve_scale. now rewrite Hpos.
  - intros Hno. rewrite (resolve_scale_fallthrough _ _ Hno). repeat split.
    + intros [-> | ->]; vm_compute; reflexivity.
    + intros ->; vm_compute; reflexivity.
    + intros ->; reflexivity.
Qed.

Lemma resolve_scale_precedence_witness :
  resolve_scale (Some 3.0%float) (Some "1080p") = 3.0%float /\
  resolve_scale None (Some "2k") = 2.0%float /\
  resolve_scale None None = 1.5%float.
Proof.
  split; [|split].
  - apply (proj1 (resolve_scale_precedence (Some 3.0%float) (Some "1080p")) 3.0%float);
      [reflexivity | vm_compute; reflexivity].
  - apply (proj2 (resolve_scale_precedence None (Some "2k"))); [reflexivity | now left].
  - apply (proj2 (resolve_scale_precedence None None)); reflexivity.
Defined.

(** C10: for an ASCII [target_resolution], the preset lookup is made on the
    normalised key (stripped of white space at both ends, lower-cased,
    spaces removed: it holds no space and no upper-case letter), so "2K",
    " 1440P " and a "2K" between a tab and a newline give 2.0, while a tab
    inside the text is kept; and a string whose key is none of the presets
    gives the default 1.5. *)
Theorem resolve_scale_normalises (scale : option float) (tr : string) :
  scale_given scale = false ->
  PyStr.is_ascii tr = true ->
  (PyStr.contains " " (preset_key tr) = false /\
   PyStr.lower (preset_key tr) = preset_key tr) /\
  (resolve_scale scale (Some "2K") = 2.0%float /\
   resolve_scale scale (Some " 1440P ") = 2.0%float /\
   resolve_scale scale (Some (tab ++ "2K" ++ Machine.newline)) = 2.0%float /\
   resolve_scale scale (Some ("2" ++ tab ++ "k")) = 1.5%float) /\
  (preset_key tr = "2k" \/ preset_key tr = "1440p" ->
     resolve_scale scale (Some tr) = 2.0%float) /\
  (preset_key tr = "1080p" -> resolve_scale scale (Some tr) = 1.5%float) /\
  (preset_key tr <> "1080p" -> preset_key tr <> "2k" -> preset_key tr <> "1440p" ->
     resolve_scale scale (Some tr) = 1.5%float).
Proof.
  intros Hno _. split; [apply preset_key_normal|].
  rewrite !(resolve_scale_fallthrough _ _ Hno).
  split; [repeat split; vm_compute; reflexivity|].
  unfold resolve_preset. simpl default.
  split; [|split].
  - intros Hk. rewrite preset_key_nonempty by (destruct Hk as [-> | ->]; discriminate).
    destruct Hk as [-> | ->]; vm_compute; reflexivity.
  - intros Hk. rewrite preset_key_nonempty by (rewrite Hk; discriminate).
    rewrite Hk. vm_compute. reflexivity.
  - intros H1 H2 H3. destruct (PyStr.truthy (Some tr)); [|reflexivity].
    rewrite preset_lookup_None by assumption.
    apply String.eqb_neq in H1, H2, H3. now rewrite H1, H2, H3.
Qed.

Lemma resolve_scale_normalises_witness :
  resolve_scale (Some (-1)%float) (Some (tab ++ " 2 K" ++ Machine.newline)) = 2.0%float /\
  resolve_scale (Some (-1)%float) (Some ("1080" ++ tab ++ "P")) = 1.5%float /\
  resolve_scale (Some (-1)%float) (Some "4k") = 1.5%float.
Proof.
  destruct (resolve_scale_normalises (Some (-1)%float)
              (tab ++ " 2 K" ++ Machine.newline) eq_refl eq_refl)
    as (_ & _ & H2k & _).
  destruct (resolve_scale_normalises (Some (-1)%float) ("1080" ++ tab ++ "P")
              eq_refl eq_refl)
    as (_ & _ & _ & _ & Htab).
  destruct (resolve_scale_normalises (Some (-1)%float) "4k" eq_refl eq_refl)
    as (_ & _ & _ & _ & Hother).
  split; [apply H2k; now left|].
  split; [apply Htab; vm_compute; discriminate | apply Hother; discriminate].
Defined.

(** ** Reasoning about the monad and the child processes *)

Section MonadFacts.

Context (E : Externals).

Lemma bind_Ok {A B} (m : M A) (k : A -> M B) w a w1 :
  m w = (Ok a, w1) -> bind m k w = k a w1.
Proof. unfold bind. now intros ->. Qed.

Lemma bind_Raise {A B} (m : M A) (k : A -> M B) w e w1 :
  m w = (Raise e, w1) -> bind m k w = (Raise e, w1).
Proof. unfold bind. now intros ->. Qed.

Lemma spawn_zero k cmd w :
  returncode (exec E cmd (fs w)).1 = 0%Z ->
  spawn E k cmd w = (Ok (exec E cmd (fs w)).1, after_spawn E k cmd w).
Proof.
  intros H. unfold spawn, after_spawn.
  destruct (exec E cmd (fs w)) as [r f']. simpl in *. now rewrite H.
Qed.

Lemma spawn_nonzero k cmd w :
  returncode (exec E cmd (fs w)).1 <> 0%Z ->
  spawn E k cmd w =
    (Raise (CalledProcessError (returncode (exec E cmd (fs w)).1) cmd),
     after_spawn E k cmd w).
Proof.
  intros H. unfold spawn, after_spawn.
  destruct (exec E cmd (fs w)) as [r f']. simpl in *.
  apply Z.eqb_neq in H. now rewrite H.
Qed.

Lemma check_output_zero cmd w :
  returncode (exec E cmd (fs w)).1 = 0%Z ->
  check_output E cmd w = (Ok (stdout (exec E cmd (fs w)).1), after_spawn E CheckOutput cmd w).
Proof.
  intros H. unfold check_output. now rewrite (bind_Ok _ _ _ _ _ (spawn_zero _ _ _ H)).
Qed.

Lemma check_output_nonzero cmd w :
  returncode (exec E cmd (fs w)).1 <> 0%Z ->
  check_output E cmd w =
    (Raise (CalledProcessError (returncode (exec E cmd (fs w)).1) cmd),
     after_spawn E CheckOutput cmd w).
Proof.
  intros H. unfold check_output. now rewrite (bind_Raise _ _ _ _ _ (spawn_nonzero _ _ _ H)).
Qed.

Lemma run_zero cmd w :
  returncode (exec E cmd (fs w)).1 = 0%Z ->
  run E cmd w = (Ok tt, after_spawn E CheckCall cmd w).
Proof.
  intros H. unfold run. now rewrite (bind_Ok _ _ _ _ _ (spawn_zero _ _ _ H)).
Qed.

Lemma run_nonzero cmd w :
  returncode (exec E cmd (fs w)).1 <> 0%Z ->
  run E cmd w =
    (Raise (CalledProcessError (returncode (exec E cmd (fs w)).1) cmd),
     after_spawn E CheckCall cmd w).
Proof.
  intros H. unfold run. now rewrite (bind_Raise _ _ _ _ _ (spawn_nonzero _ _ _ H)).
Qed.

(** A block guarded by [except Exception] with a handler that returns
    always returns. *)
Lemma try_except_Exception_returns {A} (m : M A) (a0 : A) w :
  exists a w', try_except m (except_Exception (ret a0)) w = (Ok a, w').
Proof.
  unfold try_except, except_Exception, ret.
  destruct (m w) as [[a|e] w1]; eauto.
Qed.

Lemma try_except_Ok {A} (m : M A) h w a w1 :
  m w = (Ok a, w1) -> try_except m h w = (Ok a, w1).
Proof. unfold try_except. now intros ->. Qed.

Lemma try_except_Raise {A} (m : M A) h w e w1 :
  m w = (Raise e, w1) ->
  try_except m h w = match h e with Some k => k w1 | None => (Raise e, w1) end.
Proof. unfold try_except. now intros ->. Qed.

End MonadFacts.

(** ** The media prober *)

Section Prober.

Context (E : Externals) (path : string) (w : World).

Lemma get_video_fps_returns : exists f w', get_video_fps E path w = (Ok f, w').
Proof. apply try_except_Exception_returns. Qed.

Lemma get_video_size_returns : exists r w', get_video_size E path w = (Ok r, w').
Proof. apply try_except_Exception_returns. Qed.

Lemma get_video_fps_probe_failed :
  returncode (fps_probe E path w) <> 0%Z -> (get_video_fps E path w).1 = Ok 30.0%float.
Proof.
  intros H. unfold get_video_fps.
  erewrite try_except_Raise;
    [|apply bind_Raise; apply (check_output_nonzero E (fps_probe_cmd path) w H)].
  reflexivity.
Qed.

Lemma get_video_fps_parsed num den :
  returncode (fps_probe E path w) = 0%Z ->
  PyStr.split "/" (PyStr.strip (stdout (fps_probe E path w))) = [num; den] ->
  (get_video_fps E path w).1 =
    if String.eqb den "0" then Ok 30.0%float
    else match py_float E num, py_float E den with
         | Some n, Some d =>
             if PrimFloat.eqb d 0%float then Ok 30.0%float else Ok (PrimFloat.div n d)
         | _, _ => Ok 30.0%float
         end.
Proof.
  intros Hrc Hsplit. unfold get_video_fps, try_except.
  rewrite (bind_Ok _ _ _ _ _ (check_output_zero E (fps_probe_cmd path) w Hrc)).
  fold (fps_probe E path w). rewrite Hsplit. cbn [unpack2].
  unfold bind at 1. unfold ret at 1.
  destruct (String.eqb den "0"); cbn [negb]; [reflexivity|].
  unfold bind, float_of_str, float_div, ret, raise, except_Exception.
  destruct (py_float E num) as [n|]; [|reflexivity].
  destruct (py_float E den) as [d|]; [|reflexivity].
  destruct (PrimFloat.eqb d 0%float); reflexivity.
Qed.

Lemma get_video_fps_malformed :
  returncode (fps_probe E path w) = 0%Z ->
  (forall num den,
     PyStr.split "/" (PyStr.strip (stdout (fps_probe E path w))) <> [num; den]) ->
  (get_video_fps E path w).1 = Ok 30.0%float.
Proof.
  intros Hrc Hsplit. unfold get_video_fps, try_except.
  rewrite (bind_Ok _ _ _ _ _ (check_output_zero E (fps_probe_cmd path) w Hrc)).
  fold (fps_probe E path w).
  destruct (PyStr.split "/" (PyStr.strip (stdout (fps_probe E path w))))
    as [|a [|b [|c l]]]; try reflexivity.
  now elim (Hsplit a b).
Qed.

Lemma get_video_size_probe_failed :
  returncode (size_probe E path w) <> 0%Z -> (get_video_size E path w).1 = Ok None.
Proof.
  intros H. unfold get_video_size.
  erewrite try_except_Raise;
    [|apply bind_Raise; apply (check_output_nonzero E (size_probe_cmd path) w H)].
  reflexivity.
Qed.

Lemma get_video_size_parsed ws hs wi hi :
  returncode (size_probe E path w) = 0%Z ->
  PyStr.split "," (PyStr.strip (stdout (size_probe E path w))) = [ws; hs] ->
  py_int E ws = Some wi -> py_int E hs = Some hi ->
  (get_video_size E path w).1 = Ok (Some (wi, hi)).
Proof.
  intros Hrc Hsplit Hw Hh. unfold get_video_size, try_except.
  rewrite (bind_Ok _ _ _ _ _ (check_output_zero E (size_probe_cmd path) w Hrc)).
  fold (size_probe E path w). rewrite Hsplit. cbn [unpack2].
  unfold bind, int_of_str, ret. now rewrite Hw, Hh.
Qed.

End Prober.

(** C5: the prober never raises.  [get_video_fps] returns 30.0 when ffprobe
    fails, when its output is not of the form num/den, when the denominator
    is zero; otherwise it returns the float quotient, which for 24000/1001
    lies between 23.9760 and 23.9761.  [get_video_size] returns [None] on a
    failed probe and the parsed pair otherwise. *)
Theorem prober_never_raises (E : Externals) (path : string) (w : World) :
  (exists f w', get_video_fps E path w = (Ok f, w')) /\
  (exists r w', get_video_size E path w = (Ok r, w')) /\
  (returncode (fps_probe E path w) <> 0%Z ->
     (get_video_fps E path w).1 = Ok 30.0%float) /\
  (returncode (fps_probe E path w) = 0%Z ->
   (forall num den,
      PyStr.split "/" (PyStr.strip (stdout (fps_probe E path w))) <> [num; den]) ->
     (get_video_fps E path w).1 = Ok 30.0%float) /\
  (forall num den,
     returncode (fps_probe E path w) = 0%Z ->
     PyStr.split "/" (PyStr.strip (stdout (fps_probe E path w))) = [num; den] ->
     py_float E num = None \/ py_float E den = None ->
     (get_video_fps E path w).1 = Ok 30.0%float) /\
  (forall num den n d,
     returncode (fps_probe E path w) = 0%Z ->
     PyStr.split "/" (PyStr.strip (stdout (fps_probe E path w))) = [num; den] ->
     py_float E num = Some n -> py_float E den = Some d ->
     (den = "0" \/ PrimFloat.eqb d 0%float = true ->
        (get_video_fps E path w).1 = Ok 30.0%float) /\
     (den <> "0" -> PrimFloat.eqb d 0%float = false ->
        (get_video_fps E path w).1 = Ok (PrimFloat.div n d)) /\
     (den <> "0" -> n = 24000%float -> d = 1001%float ->
        exists r, (get_video_fps E path w).1 = Ok r /\
                  PrimFloat.ltb 23.9760%float r = true /\
                  PrimFloat.ltb r 23.9761%float = true)) /\
  (returncode (size_probe E path w) <> 0%Z ->
     (get_video_size E path w).1 = Ok None) /\
  (forall ws hs wi hi,
     returncode (size_probe E path w) = 0%Z ->
     PyStr.split "," (PyStr.strip (stdout (size_probe E path w))) = [ws; hs] ->
     py_int E ws = Some wi -> py_int E hs = Some hi ->
     (get_video_size E path w).1 = Ok (Some (wi, hi))).
Proof.
  split; [apply get_video_fps_returns|].
  split; [apply get_video_size_returns|].
  split; [apply get_video_fps_probe_failed|].
  split; [apply get_video_fps_malformed|].
  split.
  { intros num den Hrc Hsplit Hnone.
    rewrite (get_video_fps_parsed E path w num den Hrc Hsplit).
    destruct (String.eqb den "0"); [reflexivity|].
    destruct Hnone as [-> | ->]; [reflexivity|].
    now destruct (py_float E num). }
  split; [|split; [apply get_video_size_probe_failed | apply get_video_size_parsed]].
  intros num den n d Hrc Hsplit Hn Hd.
  pose proof (get_video_fps_parsed E path w num den Hrc Hsplit) as Hfps.
  rewrite Hn, Hd in Hfps.
  split; [|split].
  - intros [-> | Hz]; [exact Hfps|].
    rewrite Hz in Hfps. now destruct (String.eqb den "0").
  - intros Hden Hnz. apply String.eqb_neq in Hden. now rewrite Hden, Hnz in Hfps.
  - intros Hden -> ->. apply String.eqb_neq in Hden. rewrite Hden in Hfps.
    exists (PrimFloat.div 24000 1001). split; [exact Hfps|].
    split; vm_compute; reflexivity.
Qed.

Lemma prober_never_raises_witness :
  exists r, (get_video_fps (Machine.externals Machine.exec_ntsc) "/data/in.mp4"
               Machine.world0).1 = Ok r /\
            PrimFloat.ltb 23.9760%float r = true /\
            PrimFloat.ltb r 23.9761%float = true.
Proof.
  destruct (prober_never_raises (Machine.externals Machine.exec_ntsc) "/data/in.mp4"
              Machine.world0) as (_ & _ & _ & _ & _ & H & _).
  destruct (H "24000" "1001" 24000%float 1001%float) as (_ & _ & H3);
    try (vm_compute; reflexivity).
  apply H3; [discriminate | reflexivity | reflexivity].
Defined.

(** ** The frame loop of upscale_frames_cuda *)

Section FrameLoop.

Context (E : Externals) (u : upsampler E) (wd : string) (scale : float).

Lemma upscale_frame_eq (fname : string) (w : World) :
  upscale_frame E u wd scale fname w =
  match frame_result E u wd scale fname (fs w) with
  | Some out => (Ok tt, with_file (out_path wd fname) (imencode E out) w)
  | None => (Raise LibraryError, w)
  end.
Proof.
  unfold upscale_frame, frame_result, imread, enhance_frame, imwrite, os.write_file,
    bind, get_fs, put_fs, ret, raise. cbn [fs].
  destruct (files (fs w) !! os.path_join wd fname ≫= imdecode E) as [i|]; cbn;
    [|reflexivity].
  destruct (enhance E u i scale); reflexivity.
Qed.

Lemma for_each_frames_Ok (l : list string) (w w' : World) :
  for_each l (upscale_frame E u wd scale) w = (Ok tt, w') ->
  dirs (fs w') = dirs (fs w) /\ entropy w' = entropy w /\ calls w' = calls w /\
  (forall p, is_Some (files (fs w) !! p) -> is_Some (files (fs w') !! p)) /\
  (forall p, (forall f, f ∈ l -> p <> out_path wd f) ->
             files (fs w') !! p = files (fs w) !! p) /\
  (forall f, f ∈ l -> is_Some (files (fs w') !! out_path wd f)) /\
  (forall f, f ∈ l ->
     is_Some (files (fs w) !! os.path_join wd f) \/
     exists g, g ∈ l /\ os.path_join wd f = out_path wd g).
Proof.
  revert w. induction l as [|x l IH]; intros w H.
  - injection H as <-. repeat split; try tauto; intros f Hf; inversion Hf.
  - cbn [for_each] in H. unfold bind in H. rewrite upscale_frame_eq in H.
    destruct (frame_result E u wd scale x (fs w)) as [out|] eqn:Hres; [|discriminate].
    apply IH in H as (Hd & He & Hc & Hmono & Hsame & Hout & Hin).
    cbn in Hd, He, Hc, Hmono, Hsame, Hin.
    split; [exact Hd|]. split; [exact He|]. split; [exact Hc|].
    assert (Hmono' : forall p, is_Some (files (fs w) !! p) -> is_Some (files (fs w') !! p)).
    { intros p Hp. apply Hmono.
      destruct (decide (out_path wd x = p)) as [->|Hne].
      - rewrite lookup_insert_eq. eauto.
      - now rewrite lookup_insert_ne. }
    split; [exact Hmono'|]. split; [|split].
    + intros p Hp. rewrite Hsame.
      * apply lookup_insert_ne. intros Heq. apply (Hp x); [left | now symmetry].
      * intros f Hf. apply Hp. now right.
    + intros f Hf. apply elem_of_cons in Hf as [-> | Hf]; [|now apply Hout].
      apply Hmono. rewrite lookup_insert_eq. eauto.
    + intros f Hf. apply elem_of_cons in Hf as [-> | Hf].
      * left. unfold frame_result in Hres.
        destruct (files (fs w) !! os.path_join wd x); [eauto | discriminate].
      * destruct (Hin f Hf) as [Hsome | (g & Hg & Heq)].
        -- destruct (decide (out_path wd x = os.path_join wd f)) as [Heq|Hne].
           ++ right. exists x. split; [left | now symmetry].
           ++ left. now rewrite lookup_insert_ne in Hsome.
        -- right. exists g. split; [now right | exact Heq].
Qed.

Lemma for_each_frames_returns (l : list string) (w : World) :
  (forall f, f ∈ l -> is_Some (frame_result E u wd scale f (fs w))) ->
  (forall f g, f ∈ l -> g ∈ l -> os.path_join wd f <> out_path wd g) ->
  exists w', for_each l (upscale_frame E u wd scale) w = (Ok tt, w').
Proof.
  revert w. induction l as [|x l IH]; intros w Hready Hdisj.
  - eexists. reflexivity.
  - cbn [for_each]. unfold bind. rewrite upscale_frame_eq.
    destruct (Hready x) as [out Hout]; [left|]. rewrite Hout.
    apply IH.
    + intros f Hf. unfold frame_result. cbn.
      rewrite lookup_insert_ne.
      * apply Hready. now right.
      * intros Heq. apply (Hdisj f x); [now right | left | now symmetry].
    + intros f g Hf Hg. apply Hdisj; now right.
Qed.

End FrameLoop.

(** ** upscale_frames_cuda: one upscaled frame per extracted frame *)

Section UpscaleFrames.

Context (E : Externals) (wd : string) (scale : float) (model_name : string).

Lemma upscale_frames_cuda_inv (w w' : World) :
  upscale_frames_cuda E wd scale model_name w = (Ok tt, w') ->
  exists u names,
    os.listdir wd w = (Ok names, w) /\
    for_each (frame_files_of names) (upscale_frame E u wd scale) w = (Ok tt, w').
Proof.
  unfold upscale_frames_cuda, make_upsampler, os.read_file, bind, get_fs, ret, raise.
  destruct (files (fs w) !! _) as [c|]; [|discriminate].
  destruct (RealESRGANer E _ _ c) as [u|]; [|discriminate].
  destruct (os.listdir wd w) as [[names|e] w1] eqn:Hls; [|discriminate].
  destruct (listdir_Ok _ _ _ _ Hls) as [-> _].
  intros H. exists u, names. split; [reflexivity | exact H].
Qed.

Lemma frame_files_of_spec (w : World) (names : list string) (f : string) :
  os.listdir wd w = (Ok names, w) ->
  f ∈ frame_files_of names <->
  is_frame_file f = true /\ PyStr.contains "/" f = false /\
  (is_Some (files (fs w) !! (wd ++ "/" ++ f)) \/ (wd ++ "/" ++ f) ∈ dirs (fs w)).
Proof.
  intros Hls. destruct (listdir_Ok _ _ _ _ Hls) as [_ Hnames].
  unfold frame_files_of. rewrite sorted_elem_of, list_elem_of_filter, Hnames.
  split; [tauto|]. intros (Hf & Hslash & Hin). repeat split; try assumption.
  intros ->. discriminate.
Qed.

Hypothesis wd_nonempty : wd <> "".
Hypothesis wd_no_slash : PyStr.endswith "/" wd = false.

Lemma in_path_plain (f : string) :
  is_frame_file f = true -> os.path_join wd f = wd ++ "/" ++ f.
Proof. intros Hf. apply path_join_plain; auto using frame_file_relative. Qed.

Lemma out_path_plain (f : string) :
  is_frame_file f = true -> out_path wd f = wd ++ "/" ++ out_name_of f.
Proof. intros Hf. apply path_join_plain; auto using out_name_relative. Qed.

Lemma in_path_not_out_path (f g : string) :
  is_frame_file f = true -> is_frame_file g = true ->
  os.path_join wd f <> out_path wd g.
Proof.
  intros Hf Hg Heq. rewrite in_path_plain, out_path_plain in Heq by assumption.
  do 2 apply append_inj_l in Heq. symmetry in Heq.
  now apply (out_name_not_frame f g).
Qed.

Lemma upscale_frames_cuda_returns (w : World) :
  frames_ready E wd scale model_name w ->
  exists w', upscale_frames_cuda E wd scale model_name w = (Ok tt, w').
Proof.
  intros (Hwd & c & u & Hc & Hu & Hframes).
  unfold upscale_frames_cuda, make_upsampler, os.read_file, bind at 1 2 3, get_fs at 1.
  fold (model_path_of model_name). rewrite Hc. cbn [ret]. rewrite Hu. cbn [ret].
  assert (Hls : os.listdir wd w =
                (Ok (omap (os.entry_name wd)
                       ((map_to_list (files (fs w))).*1 ++ elements (dirs (fs w)))%list), w)).
  { unfold os.listdir, bind, get_fs, ret. now rewrite bool_decide_eq_true_2. }
  rewrite (bind_Ok _ _ _ _ _ Hls). apply for_each_frames_returns.
  - intros f Hf. apply (frame_files_of_spec w _ f Hls) in Hf as (Hf & _ & Hin). auto.
  - intros f g Hf Hg.
    apply (frame_files_of_spec w _ f Hls) in Hf as (Hf & _).
    apply (frame_files_of_spec w _ g Hls) in Hg as (Hg & _).
    now apply in_path_not_out_path.
Qed.

Lemma upscaled_iff_frame (w w' : World) (idx : string) :
  (forall i, is_digits i = true ->
             files (fs w) !! os.path_join wd (upscaled_name i) = None) ->
  upscale_frames_cuda E wd scale model_name w = (Ok tt, w') ->
  is_digits idx = true ->
  (is_Some (files (fs w') !! os.path_join wd (upscaled_name idx)) <->
   is_Some (files (fs w) !! os.path_join wd (frame_name idx))) /\
  files (fs w') !! os.path_join wd (frame_name idx) =
  files (fs w) !! os.path_join wd (frame_name idx).
Proof.
  intros Hfresh Hrun Hidx.
  apply upscale_frames_cuda_inv in Hrun as (u & names & Hls & Hloop).
  apply for_each_frames_Ok in Hloop as (_ & _ & _ & _ & Hsame & Hout & Hin).
  pose proof (is_frame_file_frame_name idx) as Hframe.
  pose proof (png_no_char "/" idx eq_refl Hidx) as Hslash.
  assert (Hname : out_path wd (frame_name idx) = os.path_join wd (upscaled_name idx)).
  { unfold out_path. now rewrite out_name_of_frame_name. }
  split; [split|].
  - intros Hup.
    destruct (decide (Exists (fun f => os.path_join wd (upscaled_name idx) = out_path wd f)
                             (frame_files_of names))) as [Hex | Hnex].
    + apply Exists_exists in Hex as (f & Hf & Heq).
      pose proof Hf as Hf'. apply (frame_files_of_spec w _ f Hls) in Hf' as (Hff & _).
      rewrite <- Hname, !out_path_plain in Heq by assumption.
      do 2 apply append_inj_l in Heq.
      rewrite out_name_of_frame_name in Heq by assumption. symmetry in Heq.
      apply out_name_of_inv in Heq; [subst f | assumption ..].
      destruct (Hin _ Hf) as [Hsome | (g & Hg & Heq)]; [exact Hsome|].
      apply (frame_files_of_spec w _ g Hls) in Hg as (Hg & _).
      now apply in_path_not_out_path in Heq.
    + rewrite Hsame, Hfresh in Hup by
        (try assumption; intros f Hf Heq; apply Hnex, Exists_exists; eauto).
      now destruct Hup.
  - intros Hsome. rewrite <- Hname. apply Hout.
    apply (frame_files_of_spec w _ _ Hls).
    split; [exact Hframe|]. split; [exact Hslash|].
    left. now rewrite <- in_path_plain.
  - apply Hsame. intros f Hf.
    apply (frame_files_of_spec w _ f Hls) in Hf as (Hf & _).
    now apply in_path_not_out_path.
Qed.

End UpscaleFrames.

(** C2: when [upscale_frames_cuda] returns, the working directory holds an
    upscaled frame for index [idx] exactly when it held an extracted frame
    for [idx], and the extracted frames are still there; and it does return
    when the weights load and every frame can be read and enhanced. *)
Theorem upscaled_frames_match_extracted (E : Externals) (wd : string) (scale : float)
    (model_name : string) (w : World) :
  wd <> "" -> PyStr.endswith "/" wd = false ->
  (forall i, is_digits i = true ->
             files (fs w) !! os.path_join wd (upscaled_name i) = None) ->
  (frames_ready E wd scale model_name w ->
     exists w', upscale_frames_cuda E wd scale model_name w = (Ok tt, w')) /\
  (forall w', upscale_frames_cuda E wd scale model_name w = (Ok tt, w') ->
     forall idx, is_digits idx = true ->
       (is_Some (files (fs w') !! os.path_join wd (upscaled_name idx)) <->
        is_Some (files (fs w) !! os.path_join wd (frame_name idx))) /\
       files (fs w') !! os.path_join wd (frame_name idx) =
       files (fs w) !! os.path_join wd (frame_name idx)).
Proof.
  intros Hne Hslash Hfresh. split.
  - now apply upscale_frames_cuda_returns.
  - intros w' Hrun idx Hidx. now apply (upscaled_iff_frame E wd scale model_name).
Qed.

Lemma extracted_fresh (i : string) :
  files (fs Machine.extracted) !! os.path_join Machine.job_dir (upscaled_name i) = None.
Proof.
  cbv [Machine.extracted fs files Machine.job_dir Machine.weights].
  repeat (rewrite lookup_insert_ne; [|cbv; discriminate]).
  apply lookup_singleton_ne. cbv. discriminate.
Qed.

Lemma upscaled_frames_match_extracted_witness :
  exists w',
    upscale_frames_cuda (Machine.externals Machine.exec_ok) Machine.job_dir 1.5%float
      "realesr-animevideov3" Machine.extracted = (Ok tt, w') /\
    (is_Some (files (fs w') !! os.path_join Machine.job_dir (upscaled_name "00000002")) <->
     is_Some (files (fs Machine.extracted)
                !! os.path_join Machine.job_dir (frame_name "00000002"))).
Proof.
  eexists. split; [vm_compute; reflexivity|].
  apply (upscaled_frames_match_extracted (Machine.externals Machine.exec_ok)
           Machine.job_dir 1.5%float "realesr-animevideov3" Machine.extracted);
    [discriminate | reflexivity | intros i _; apply extracted_fresh
     | vm_compute; reflexivity | reflexivity].
Defined.

(** ** The structure of handler *)

Section HandlerFacts.

Context (E : Externals) (j : job_input).

Lemma handler_finally_eq (tmp_path : string) (w : World) :
  handler_finally j tmp_path w = (Ok tt, cleaned j tmp_path w).
Proof.
  unfold handler_finally, cleaned.
  destruct (PyStr.truthy (inp_video_url j)); [|reflexivity].
  cbv [bind os.isfile get_fs ret try_except os.remove put_fs].
  destruct (files (fs w) !! tmp_path) as [c|] eqn:Hc.
  - rewrite bool_decide_eq_true_2 by eauto. rewrite Hc. reflexivity.
  - rewrite bool_decide_eq_false_2; [reflexivity|]. intros [? ?]. discriminate.
Qed.

Lemma handler_no_source (w : World) :
  has_source j = false ->
  handler E j w = (Ok (Failure "Provide either 'video_url' or 'file_path' in input."), w).
Proof.
  unfold has_source, handler. intros H. apply orb_false_elim in H as [-> ->]. reflexivity.
Qed.

Lemma handler_with_source (w : World) :
  has_source j = true ->
  handler E j w =
  ((handler_guarded E j (tmp_of E w) (drawn w)).1,
   cleaned j (tmp_of E w) (handler_guarded E j (tmp_of E w) (drawn w)).2).
Proof.
  unfold has_source, handler. intros H.
  destruct (negb (PyStr.truthy (inp_video_url j)) && negb (PyStr.truthy (inp_file_path j)))
    eqn:Hno.
  { apply andb_prop in Hno as [H1 H2]. apply negb_true_iff in H1, H2.
    rewrite H1, H2 in H. discriminate. }
  unfold bind at 1, draw_uuid, try_finally.
  fold (tmp_of E w) (drawn w) (handler_guarded E j (tmp_of E w)).
  destruct (handler_guarded E j (tmp_of E w) (drawn w)) as [r w1].
  now rewrite handler_finally_eq.
Qed.

(** The [finally] block leaves every directory in place and every file
    other than the temporary download. *)
Lemma cleaned_dirs (tmp_path : string) (w : World) :
  dirs (fs (cleaned j tmp_path w)) = dirs (fs w).
Proof.
  unfold cleaned. destruct (PyStr.truthy _); [|reflexivity].
  now destruct (files (fs w) !! tmp_path).
Qed.

Lemma cleaned_files (tmp_path p : string) (w : World) :
  p <> tmp_path -> files (fs (cleaned j tmp_path w)) !! p = files (fs w) !! p.
Proof.
  intros Hp. unfold cleaned. destruct (PyStr.truthy _); [|reflexivity].
  destruct (files (fs w) !! tmp_path); [|reflexivity].
  cbn. now apply lookup_delete_ne.
Qed.

Lemma cleaned_local (tmp_path : string) (w : World) :
  PyStr.truthy (inp_video_url j) = false -> cleaned j tmp_path w = w.
Proof. unfold cleaned. now intros ->. Qed.

Lemma cleaned_calls (tmp_path : string) (w : World) :
  calls (cleaned j tmp_path w) = calls w.
Proof.
  unfold cleaned. destruct (PyStr.truthy _); [|reflexivity].
  now destruct (files (fs w) !! tmp_path).
Qed.

End HandlerFacts.

(** ** Input errors *)

Section InputErrors.

Context (E : Externals) (j : job_input) (w : World).

Lemma acquire_download_failed :
  PyStr.truthy (inp_video_url j) = true -> download_rc E j w <> 0%Z ->
  acquire_input E (inp_video_url j) (inp_file_path j) (tmp_of E w) (drawn w) =
    (Raise (CalledProcessError (download_rc E j w)
              (download_cmd (url_of j) (tmp_of E w))),
     downloaded E j w).
Proof.
  intros Hurl Hrc. unfold acquire_input. rewrite Hurl. fold (url_of j).
  apply bind_Raise. exact (run_nonzero E _ (drawn w) Hrc).
Qed.

Lemma acquire_download_done :
  PyStr.truthy (inp_video_url j) = true -> download_rc E j w = 0%Z ->
  acquire_input E (inp_video_url j) (inp_file_path j) (tmp_of E w) (drawn w) =
    (Ok (if unusable (fs (downloaded E j w)) (tmp_of E w)
         then inl (Failure "Download failed or empty file.")
         else inr (tmp_of E w)), downloaded E j w).
Proof.
  intros Hurl Hrc. unfold acquire_input. rewrite Hurl. fold (url_of j).
  rewrite (bind_Ok _ _ _ _ _ (run_zero E _ (drawn w) Hrc)). fold (downloaded E j w).
  cbv [bind os.isfile os.getsize get_fs ret raise unusable].
  destruct (files (fs (downloaded E j w)) !! tmp_of E w) as [c|] eqn:Hc.
  - rewrite bool_decide_eq_true_2 by eauto. cbn [negb]. rewrite Hc.
    now destruct (Nat.eqb (String.length c) 0).
  - rewrite bool_decide_eq_false_2 by (intros [? ?]; discriminate). reflexivity.
Qed.

Lemma acquire_local :
  PyStr.truthy (inp_video_url j) = false ->
  acquire_input E (inp_video_url j) (inp_file_path j) (tmp_of E w) (drawn w) =
    (Ok (match files (fs w) !! local_path_of j with
         | Some _ => inr (local_path_of j)
         | None => inl (Failure ("File not found: " ++ local_path_of j))
         end), drawn w).
Proof.
  intros Hurl. unfold acquire_input. rewrite Hurl. fold (local_path_of j).
  cbv [bind os.isfile get_fs ret]. change (fs (drawn w)) with (fs w).
  destruct (files (fs w) !! local_path_of j) as [c|] eqn:Hc.
  - rewrite bool_decide_eq_true_2 by eauto. reflexivity.
  - rewrite bool_decide_eq_false_2 by (intros [? ?]; discriminate). reflexivity.
Qed.

Lemma guarded_download_unusable :
  PyStr.truthy (inp_video_url j) = true ->
  unusable (fs (downloaded E j w)) (tmp_of E w) = true ->
  exists msg,
    handler_guarded E j (tmp_of E w) (drawn w) = (Ok (Failure msg), downloaded E j w).
Proof.
  intros Hurl Hbad. unfold handler_guarded, handler_try.
  destruct (Z.eq_dec (download_rc E j w) 0%Z) as [Hrc | Hrc].
  - eexists. apply try_except_Ok.
    rewrite (bind_Ok _ _ _ _ _ (acquire_download_done Hurl Hrc)), Hbad. reflexivity.
  - eexists.
    rewrite (try_except_Raise _ _ _ _ _
               (bind_Raise _ _ _ _ _ (acquire_download_failed Hurl Hrc))).
    reflexivity.
Qed.

Lemma guarded_file_missing :
  PyStr.truthy (inp_video_url j) = false ->
  files (fs w) !! local_path_of j = None ->
  handler_guarded E j (tmp_of E w) (drawn w) =
    (Ok (Failure ("File not found: " ++ local_path_of j)), drawn w).
Proof.
  intros Hurl Hnone. unfold handler_guarded, handler_try.
  apply try_except_Ok.
  rewrite (bind_Ok _ _ _ _ _ (acquire_local Hurl)), Hnone. reflexivity.
Qed.

Lemma calls_downloaded :
  calls (downloaded E j w) =
  (calls w ++
   [mkCall CheckCall (download_cmd (url_of j) (tmp_of E w)) (download_rc E j w)])%list.
Proof. reflexivity. Qed.

End InputErrors.

(** ** The conversions, and the whole handler *)

Section Conversions.

Context (E : Externals).

Lemma float_of_value_world (v : value) (w : World) : (float_of_value E v w).2 = w.
Proof.
  destruct v as [|b|n|x|s|]; cbn; try reflexivity.
  - unfold float_of_int. now destruct (PrimFloat.is_infinity _).
  - unfold float_of_str. now destruct (py_float E s).
Qed.

Lemma optional_float_world (v : value) (w : World) : (optional_float E v w).2 = w.
Proof.
  pose proof (float_of_value_world v w) as H.
  destruct v; try reflexivity; unfold optional_float, bind;
    match goal with
    | |- context [float_of_value E ?v w] =>
        destruct (float_of_value E v w) as [[x|e] w1]
    end; cbn in *; congruence.
Qed.

Lemma int_of_value_world (v : value) (w : World) : (int_of_value E v w).2 = w.
Proof.
  destruct v as [|b|n|x|s|]; cbn; try reflexivity.
  - unfold int_of_float. now destruct (FloatOps.Prim2SF x).
  - unfold int_of_str. now destruct (py_int E s).
Qed.

Lemma job_input_of_world (p : payload) (w : World) : (job_input_of E p w).2 = w.
Proof.
  unfold job_input_of. cbv zeta. unfold bind.
  pose proof (optional_float_world (raw_scale p) w) as H1.
  destruct (optional_float E (raw_scale p) w) as [[scale|e] w1]; cbn in H1; subst w1;
    [|reflexivity].
  pose proof (optional_float_world (raw_output_fps p) w) as H2.
  destruct (optional_float E (raw_output_fps p) w) as [[fps|e] w2]; cbn in H2; subst w2;
    [|reflexivity].
  destruct (raw_crf p) as [v|]; [|reflexivity].
  pose proof (int_of_value_world v w) as H3.
  destruct (int_of_value E v w) as [[n|e] w3]; cbn in H3; subst w3; reflexivity.
Qed.

(** The converted parameters carry the texts of the payload as they are. *)
Lemma job_input_of_texts (p : payload) (w : World) (j : job_input) :
  (job_input_of E p w).1 = Ok j ->
  inp_video_url j = raw_video_url p /\ inp_file_path j = raw_file_path p /\
  inp_target_resolution j = raw_target_resolution p /\
  inp_model j = raw_model p /\ inp_preset j = raw_preset p.
Proof.
  unfold job_input_of. cbv zeta. unfold bind.
  destruct (optional_float E (raw_scale p) w) as [[scale|e] w1]; [|discriminate].
  destruct (optional_float E (raw_output_fps p) w1) as [[fps|e] w2]; [|discriminate].
  destruct (raw_crf p) as [v|].
  - destruct (int_of_value E v w2) as [[n|e] w3]; [|discriminate].
    cbn. intros [= <-]. cbn. auto.
  - cbn. intros [= <-]. cbn. auto.
Qed.

(** Once the parameters convert, the handler is [handler] on them. *)
Lemma handler_event_converted (p : payload) (w : World) (j : job_input) :
  (job_input_of E p w).1 = Ok j -> handler_event E p w = handler E j w.
Proof.
  intros Hj. unfold handler_event, bind.
  pose proof (job_input_of_world p w) as Hw.
  destruct (job_input_of E p w) as [[j'|e] w']; cbn in Hj, Hw; [|discriminate].
  injection Hj as ->. now subst w'.
Qed.

(** A conversion that raises ends the handler there: nothing has been done. *)
Lemma handler_event_not_converted (p : payload) (w : World) (e : exn) :
  (job_input_of E p w).1 = Raise e -> handler_event E p w = (Raise e, w).
Proof.
  intros Hj. unfold handler_event, bind.
  pose proof (job_input_of_world p w) as Hw.
  destruct (job_input_of E p w) as [[j'|e'] w']; cbn in Hj, Hw; [discriminate|].
  injection Hj as ->. now subst w'.
Qed.

End Conversions.

Section InputErrorMessages.

Context (E : Externals) (j : job_input) (w : World).

Lemma guarded_download_empty :
  PyStr.truthy (inp_video_url j) = true -> download_rc E j w = 0%Z ->
  unusable (fs (downloaded E j w)) (tmp_of E w) = true ->
  handler_guarded E j (tmp_of E w) (drawn w) =
    (Ok (Failure "Download failed or empty file."), downloaded E j w).
Proof.
  intros Hurl Hrc Hbad. unfold handler_guarded, handler_try.
  apply try_except_Ok.
  rewrite (bind_Ok _ _ _ _ _ (acquire_download_done E j w Hurl Hrc)), Hbad. reflexivity.
Qed.

Lemma guarded_download_failed :
  PyStr.truthy (inp_video_url j) = true -> download_rc E j w <> 0%Z ->
  handler_guarded E j (tmp_of E w) (drawn w) =
    (Ok (Failure ("Upscale failed: " ++
                  str_CalledProcessError E (download_rc E j w)
                    (download_cmd (url_of j) (tmp_of E w)))),
     downloaded E j w).
Proof.
  intros Hurl Hrc. unfold handler_guarded, handler_try.
  rewrite (try_except_Raise _ _ _ _ _
             (bind_Raise _ _ _ _ _ (acquire_download_failed E j w Hurl Hrc))).
  reflexivity.
Qed.

(** The three input errors on converted parameters. *)
Lemma handler_bad_source :
  bad_input E j w ->
  exists msg,
    (handler E j w).1 = Ok (Failure msg) /\
    (has_source j = false ->
       msg = "Provide either 'video_url' or 'file_path' in input.") /\
    (PyStr.truthy (inp_video_url j) = true -> download_rc E j w = 0%Z ->
       msg = "Download failed or empty file.") /\
    (PyStr.truthy (inp_video_url j) = true -> download_rc E j w <> 0%Z ->
       msg = "Upscale failed: " ++
             str_CalledProcessError E (download_rc E j w)
               (download_cmd (url_of j) (tmp_of E w))) /\
    (PyStr.truthy (inp_video_url j) = false -> has_source j = true ->
       msg = "File not found: " ++ local_path_of j) /\
    calls (handler E j w).2 = calls (acquired E j w) /\
    (forall c, c ∈ calls (acquired E j w) ->
               c ∈ calls w \/ call_cmd c = download_cmd (url_of j) (tmp_of E w)) /\
    dirs (fs (handler E j w).2) = dirs (fs (acquired E j w)) /\
    (forall p, p <> tmp_of E w ->
               files (fs (handler E j w).2) !! p = files (fs (acquired E j w)) !! p).
Proof.
  intros Hbad.
  assert (Hlog : forall c, c ∈ calls (acquired E j w) ->
                   c ∈ calls w \/ call_cmd c = download_cmd (url_of j) (tmp_of E w)).
  { intros c. unfold acquired. destruct (PyStr.truthy (inp_video_url j)); [|tauto].
    rewrite calls_downloaded. intros Hc. apply elem_of_app in Hc as [Hc | Hc]; [tauto|].
    apply list_elem_of_singleton in Hc as ->. now right. }
  destruct Hbad as [Hno | [(Hurl & Hbad) | (Hurl & Hfp & Hnone)]].
  - rewrite (handler_no_source E j w Hno). eexists. split; [reflexivity|].
    pose proof Hno as Hsrc.
    unfold has_source in Hno. apply orb_false_elim in Hno as [Hurl _].
    unfold acquired. rewrite Hurl. cbn.
    repeat split; auto; try (intros; congruence).
  - assert (Hsrc : has_source j = true) by (unfold has_source; now rewrite Hurl).
    rewrite (handler_with_source E j w Hsrc).
    assert (Hrest : forall msg,
              handler_guarded E j (tmp_of E w) (drawn w) =
                (Ok (Failure msg), downloaded E j w) ->
              calls (cleaned j (tmp_of E w) (handler_guarded E j (tmp_of E w) (drawn w)).2)
                = calls (acquired E j w) /\
              (forall c, c ∈ calls (acquired E j w) ->
                 c ∈ calls w \/ call_cmd c = download_cmd (url_of j) (tmp_of E w)) /\
              dirs (fs (cleaned j (tmp_of E w)
                          (handler_guarded E j (tmp_of E w) (drawn w)).2))
                = dirs (fs (acquired E j w)) /\
              (forall p, p <> tmp_of E w ->
                 files (fs (cleaned j (tmp_of E w)
                              (handler_guarded E j (tmp_of E w) (drawn w)).2)) !! p
                 = files (fs (acquired E j w)) !! p)).
    { intros msg ->. cbn [snd]. unfold acquired in *. rewrite Hurl in *.
      rewrite cleaned_calls, cleaned_dirs. repeat split; auto.
      intros p Hp. now apply cleaned_files. }
    destruct (Z.eq_dec (download_rc E j w) 0%Z) as [Hrc | Hrc].
    + pose proof (guarded_download_empty Hurl Hrc Hbad) as Hg.
      eexists. cbn [fst snd]. split; [now rewrite Hg|].
      split; [congruence|]. split; [reflexivity|]. split; [congruence|].
      split; [congruence|]. exact (Hrest _ Hg).
    + pose proof (guarded_download_failed Hurl Hrc) as Hg.
      eexists. cbn [fst snd]. split; [now rewrite Hg|].
      split; [congruence|]. split; [congruence|]. split; [reflexivity|].
      split; [congruence|]. exact (Hrest _ Hg).
  - assert (Hsrc : has_source j = true)
      by (unfold has_source; now rewrite Hfp, orb_true_r).
    rewrite (handler_with_source E j w Hsrc).
    rewrite (guarded_file_missing E j w Hurl Hnone).
    eexists. cbn [fst snd]. rewrite (cleaned_local j _ _ Hurl).
    unfold acquired. rewrite Hurl. cbn.
    split; [reflexivity|]. split; [congruence|]. split; [congruence|].
    split; [congruence|]. auto.
Qed.

End InputErrorMessages.

(** C8, as the code has it: for a request whose "scale", "output_fps" and
    "crf" convert (lines 204-214), if no source is named, or curl has run
    and left no file or an empty one, or [file_path] names no file, then
    [handler] returns an error response: the message of line 218, of line
    230 (curl exited with status 0) or of line 274 (curl failed), or of
    line 237.  No child process other than the download has run, no
    directory was created and no file other than the temporary download
    was touched. *)
Theorem handler_rejects_bad_input (E : Externals) (p : payload) (j : job_input)
    (w : World) :
  (job_input_of E p w).1 = Ok j ->
  bad_input E j w ->
  exists msg,
    (handler_event E p w).1 = Ok (Failure msg) /\
    (has_source j = false ->
       msg = "Provide either 'video_url' or 'file_path' in input.") /\
    (PyStr.truthy (inp_video_url j) = true -> download_rc E j w = 0%Z ->
       msg = "Download failed or empty file.") /\
    (PyStr.truthy (inp_video_url j) = true -> download_rc E j w <> 0%Z ->
       msg = "Upscale failed: " ++
             str_CalledProcessError E (download_rc E j w)
               (download_cmd (url_of j) (tmp_of E w))) /\
    (PyStr.truthy (inp_video_url j) = false -> has_source j = true ->
       msg = "File not found: " ++ local_path_of j) /\
    calls (handler_event E p w).2 = calls (acquired E j w) /\
    (forall c, c ∈ calls (acquired E j w) ->
               c ∈ calls w \/ call_cmd c = download_cmd (url_of j) (tmp_of E w)) /\
    dirs (fs (handler_event E p w).2) = dirs (fs (acquired E j w)) /\
    (forall q, q <> tmp_of E w ->
               files (fs (handler_event E p w).2) !! q = files (fs (acquired E j w)) !! q).
Proof.
  intros Hj Hbad. rewrite (handler_event_converted E p w j Hj).
  exact (handler_bad_source E j w Hbad).
Qed.

(** The three error returns, each at a request that reaches it: no source
    (line 218), a local path that names no file (line 237), and a download
    that ends with status 0 and an empty file (line 230). *)
Lemma handler_rejects_bad_input_witness :
  (handler_event (Machine.externals Machine.exec_ok) request_without_source
     Machine.world0).1
    = Ok (Failure "Provide either 'video_url' or 'file_path' in input.") /\
  (handler_event (Machine.externals Machine.exec_ok) request_missing_file
     Machine.world0).1
    = Ok (Failure "File not found: /data/missing.mp4") /\
  (handler_event (Machine.externals exec_empty_download) request_url Machine.world0).1
    = Ok (Failure "Download failed or empty file.").
Proof.
  split; [|split].
  - destruct (handler_rejects_bad_input (Machine.externals Machine.exec_ok)
                request_without_source
                (mkJob None None (Some "1080p") None None None None None)
                Machine.world0)
      as (msg & Hres & Hmsg & _).
    + reflexivity.
    + left. reflexivity.
    + rewrite Hres, Hmsg; reflexivity.
  - destruct (handler_rejects_bad_input (Machine.externals Machine.exec_ok)
                request_missing_file
                (mkJob None (Some "/data/missing.mp4") None (Some 2%float) None None
                   (Some 18%Z) None)
                Machine.world0)
      as (msg & Hres & _ & _ & _ & Hmsg & _).
    + vm_compute. reflexivity.
    + right. right. repeat split; vm_compute; reflexivity.
    + rewrite Hres, Hmsg; reflexivity.
  - destruct (handler_rejects_bad_input (Machine.externals exec_empty_download)
                request_url
                (mkJob (Some "https://example.org/in.mp4") None None None None
                   (Some 30%float) None None)
                Machine.world0)
      as (msg & Hres & _ & Hmsg & _).
    + vm_compute. reflexivity.
    + right. left. split; vm_compute; reflexivity.
    + rewrite Hres, Hmsg; reflexivity.
Defined.

(** C8, as the claim states it, fails: the conversions of lines 204-214 run
    before the source check and outside the [try] block.  A request that
    names no source and carries a null "crf" raises [TypeError], and a
    request whose [file_path] names no file and whose "scale" is the text
    2x raises [ValueError]; neither returns an error response, and nothing
    has been done by then. *)
Lemma malformed_number_is_raised :
  raw_video_url request_null_crf = None /\ raw_file_path request_null_crf = None /\
  handler_event (Machine.externals Machine.exec_ok) request_null_crf Machine.world0
    = (Raise TypeError, Machine.world0) /\
  raw_video_url request_bad_scale = None /\
  files (fs Machine.world0) !! "/data/missing.mp4" = None /\
  handler_event (Machine.externals Machine.exec_ok) request_bad_scale Machine.world0
    = (Raise ValueError, Machine.world0).
Proof.
  split; [reflexivity|]. split; [reflexivity|].
  split; [apply handler_event_not_converted; reflexivity|].
  split; [reflexivity|]. split; [vm_compute; reflexivity|].
  apply handler_event_not_converted. vm_compute. reflexivity.
Qed.

(** ** The log of child processes *)

Create HintDb calls discriminated.

Section CallLog.

Context (E : Externals).

Lemma silent_ret {A} (a : A) : silent (ret a).
Proof. intros w. reflexivity. Qed.

Lemma silent_raise {A} (e : exn) : silent (@raise A e).
Proof. intros w. reflexivity. Qed.

Lemma silent_get_fs : silent get_fs.
Proof. intros w. reflexivity. Qed.

Lemma silent_put_fs (f : FS) : silent (put_fs f).
Proof. intros w. reflexivity. Qed.

Lemma silent_draw_uuid : silent (draw_uuid E).
Proof. intros w. reflexivity. Qed.

Lemma silent_bind {A B} (m : M A) (k : A -> M B) :
  silent m -> (forall a, silent (k a)) -> silent (bind m k).
Proof.
  intros Hm Hk w. unfold bind. specialize (Hm w).
  destruct (m w) as [[a|e] w1]; cbn in *; [|exact Hm].
  now rewrite Hk.
Qed.

Lemma silent_try_except {A} (m : M A) (h : exn -> option (M A)) :
  silent m -> (forall e k, h e = Some k -> silent k) -> silent (try_except m h).
Proof.
  intros Hm Hh w. unfold try_except. specialize (Hm w).
  destruct (m w) as [[a|e] w1]; cbn in *; [exact Hm|].
  destruct (h e) as [k|] eqn:Hk; [|exact Hm].
  now rewrite (Hh e k Hk).
Qed.

Lemma silent_for_each {A} (l : list A) (body : A -> M unit) :
  (forall x, silent (body x)) -> silent (for_each l body).
Proof.
  intros Hbody. induction l as [|x l IH]; [apply silent_ret|].
  apply silent_bind; auto.
Qed.

Lemma silent_stops_at {A} (on_fail : Z -> list string -> result A) (m : M A) :
  silent m -> stops_at on_fail m.
Proof.
  intros Hm w. exists []. rewrite Hm, app_nil_r. split; [reflexivity|].
  left. constructor.
Qed.

Lemma fail_fast_spawn (k : call_kind) (cmd : list string) : fail_fast (spawn E k cmd).
Proof.
  intros w. unfold spawn.
  destruct (exec E cmd (fs w)) as [r f'].
  exists [mkCall k cmd (returncode r)].
  destruct (Z.eqb_spec (returncode r) 0) as [Hz | Hnz]; cbn; (split; [reflexivity|]).
  - left. constructor; [|constructor]. intros [_ H]. now apply H.
  - destruct k.
    + right. exists [], cmd, (returncode r). repeat split; [constructor | exact Hnz].
    + left. constructor; [|constructor]. intros [H _]. discriminate.
Qed.

Lemma all_ok_app (l1 l2 : list call) : all_ok l1 -> all_ok l2 -> all_ok (l1 ++ l2).
Proof. unfold all_ok. rewrite Forall_app. tauto. Qed.

Lemma fail_fast_bind {A B} (m : M A) (k : A -> M B) :
  fail_fast m -> (forall a, fail_fast (k a)) -> fail_fast (bind m k).
Proof.
  intros Hm Hk w. unfold bind.
  destruct (Hm w) as (l1 & Hl1 & H1).
  destruct (m w) as [[a|e] w1] eqn:Hmw; cbn in *.
  - destruct (Hk a w1) as (l2 & Hl2 & H2).
    exists (l1 ++ l2)%list. rewrite Hl2, Hl1, app_assoc. split; [reflexivity|].
    destruct H1 as [Hok1 | (pre & cmd & rc & _ & _ & _ & Habs)]; [|discriminate].
    destruct H2 as [Hok2 | (pre & cmd & rc & -> & Hpre & Hrc & Hres)].
    + left. now apply all_ok_app.
    + right. exists (l1 ++ pre)%list, cmd, rc. rewrite app_assoc.
      repeat split; auto using all_ok_app.
  - exists l1. split; [exact Hl1|].
    destruct H1 as [Hok1 | (pre & cmd & rc & Hl & Hpre & Hrc & [= ->])]; [now left|].
    right. exists pre, cmd, rc. auto.
Qed.

End CallLog.

#[global] Hint Resolve silent_ret silent_raise silent_get_fs silent_put_fs
  silent_draw_uuid : calls.

Ltac silent_step :=
  match goal with
  | |- silent (bind _ _) => apply silent_bind; [|intros ?]
  | |- silent (try_except _ _) => apply silent_try_except; [|intros ? ? ?]
  | |- silent (for_each _ _) => apply silent_for_each; intros ?
  | |- silent (if ?b then _ else _) => destruct b
  | |- silent (match ?x with _ => _ end) => destruct x
  | |- silent _ => solve [auto with calls]
  end.

Ltac silent_tac := cbv zeta; repeat silent_step.

Section SilentSteps.

Context (E : Externals).

Lemma silent_isfile (p : string) : silent (os.isfile p).
Proof. unfold os.isfile. silent_tac. Qed.

Lemma silent_getsize (p : string) : silent (os.getsize p).
Proof. unfold os.getsize. silent_tac. Qed.

Lemma silent_makedirs (p : string) : silent (os.makedirs p).
Proof. unfold os.makedirs. silent_tac. Qed.

Lemma silent_rename (a b : string) : silent (os.rename a b).
Proof. unfold os.rename. silent_tac. Qed.

Lemma silent_remove (p : string) : silent (os.remove p).
Proof. unfold os.remove. silent_tac. Qed.

Lemma silent_listdir (d : string) : silent (os.listdir d).
Proof. unfold os.listdir. silent_tac. Qed.

Lemma silent_read_file (p : string) : silent (os.read_file p).
Proof. unfold os.read_file. silent_tac. Qed.

Lemma silent_write_file (p c : string) : silent (os.write_file p c).
Proof. unfold os.write_file. silent_tac. Qed.

Hint Resolve silent_isfile silent_getsize silent_makedirs silent_rename silent_remove
  silent_listdir silent_read_file silent_write_file : calls.

Lemma silent_upscale_frames_cuda (wd : string) (scale : float) (model_name : string) :
  silent (upscale_frames_cuda E wd scale model_name).
Proof.
  unfold upscale_frames_cuda, make_upsampler, upscale_frame, imread, enhance_frame, imwrite.
  silent_tac.
Qed.

Lemma silent_handler_finally (j : job_input) (tmp_path : string) :
  silent (handler_finally j tmp_path).
Proof.
  unfold handler_finally, except_OSError. silent_tac.
  match goal with H : _ = Some _ |- _ => destruct e; inversion H; subst end.
  auto with calls.
Qed.

End SilentSteps.

#[global] Hint Resolve silent_isfile silent_getsize silent_makedirs silent_rename
  silent_remove silent_listdir silent_read_file silent_write_file
  silent_upscale_frames_cuda silent_handler_finally : calls.

Section Stages.

Context (E : Externals).

Lemma silent_probing {A} (m : M A) : silent m -> probing m.
Proof. intros Hm w. exists []. rewrite Hm, app_nil_r. split; [reflexivity | constructor]. Qed.

Lemma probing_bind {A B} (m : M A) (k : A -> M B) :
  probing m -> (forall a, probing (k a)) -> probing (bind m k).
Proof.
  intros Hm Hk w. unfold bind. destruct (Hm w) as (l1 & Hl1 & H1).
  destruct (m w) as [[a|e] w1]; cbn in *; [|eauto].
  destruct (Hk a w1) as (l2 & Hl2 & H2).
  exists (l1 ++ l2)%list. rewrite Hl2, Hl1, app_assoc. split; [reflexivity|].
  apply Forall_app; auto.
Qed.

Lemma probing_try_except {A} (m : M A) (h : exn -> option (M A)) :
  probing m -> (forall e k, h e = Some k -> probing k) -> probing (try_except m h).
Proof.
  intros Hm Hh w. unfold try_except. destruct (Hm w) as (l1 & Hl1 & H1).
  destruct (m w) as [[a|e] w1]; cbn in *; [eauto|].
  destruct (h e) as [k|] eqn:Hk; [|eauto].
  destruct (Hh e k Hk w1) as (l2 & Hl2 & H2).
  exists (l1 ++ l2)%list. rewrite Hl2, Hl1, app_assoc. split; [reflexivity|].
  apply Forall_app; auto.
Qed.

Lemma probing_check_output (cmd : list string) : probing (check_output E cmd).
Proof.
  intros w. unfold check_output, bind, spawn.
  destruct (exec E cmd (fs w)) as [r f'].
  exists [mkCall CheckOutput cmd (returncode r)].
  destruct (returncode r =? 0)%Z; cbn; (split; [reflexivity|]);
    constructor; (reflexivity || constructor).
Qed.

Lemma probing_get_video_fps (path : string) : probing (get_video_fps E path).
Proof.
  unfold get_video_fps. apply probing_try_except.
  - apply probing_bind; [apply probing_check_output|]. intros out.
    apply silent_probing. unfold unpack2, float_of_str, float_div. silent_tac.
  - intros e k [= <-]. apply silent_probing. auto with calls.
Qed.

Lemma probing_stops_at {A} (on_fail : Z -> list string -> result A) (m : M A) :
  probing m -> stops_at on_fail m.
Proof.
  intros Hm w. destruct (Hm w) as (l & Hl & Hprobe). exists l. split; [exact Hl|].
  left. eapply Forall_impl; [exact Hprobe|]. intros c Hc [Hk _]. congruence.
Qed.

Lemma fail_fast_run (cmd : list string) : fail_fast (run E cmd).
Proof.
  unfold run. apply fail_fast_bind; [apply fail_fast_spawn|].
  intros _. apply silent_stops_at, silent_ret.
Qed.

Lemma fail_fast_silent {A} (m : M A) : silent m -> fail_fast m.
Proof. apply silent_stops_at. Qed.

Lemma fail_fast_get_video_fps (path : string) : fail_fast (get_video_fps E path).
Proof. apply probing_stops_at, probing_get_video_fps. Qed.

End Stages.

Ltac fail_fast_step :=
  match goal with
  | |- fail_fast (bind _ _) => apply fail_fast_bind; [|intros ?]
  | |- fail_fast (run _ _) => apply fail_fast_run
  | |- fail_fast (get_video_fps _ _) => apply fail_fast_get_video_fps
  | |- fail_fast (if ?b then _ else _) => destruct b
  | |- fail_fast (match ?x with _ => _ end) => destruct x
  | |- fail_fast _ => solve [apply fail_fast_silent; silent_tac]
  end.

Ltac fail_fast_tac := cbv zeta; repeat fail_fast_step.

Section Pipeline.

Context (E : Externals).

Lemma fail_fast_upscale_video (input_path : string) (scale : float) (model : string)
    (fps : option float) (crf : Z) (preset : string) :
  fail_fast (upscale_video E input_path scale model fps crf preset).
Proof. unfold upscale_video. fail_fast_tac. Qed.

Lemma fail_fast_acquire_input (video_url file_path : option string) (tmp_path : string) :
  fail_fast (acquire_input E video_url file_path tmp_path).
Proof. unfold acquire_input. fail_fast_tac. Qed.

Lemma fail_fast_handler_try (j : job_input) (tmp_path : string) :
  fail_fast (handler_try E j tmp_path).
Proof.
  unfold handler_try. cbv zeta.
  apply fail_fast_bind; [apply fail_fast_acquire_input|]. intros [early | input_path].
  - apply fail_fast_silent. silent_tac.
  - apply fail_fast_bind; [apply fail_fast_upscale_video|]. intros out_path.
    apply fail_fast_silent. silent_tac.
Qed.

Lemma stops_at_handler_guarded (j : job_input) (tmp_path : string) :
  stops_at (failure_of E) (handler_guarded E j tmp_path).
Proof.
  intros w. unfold handler_guarded, try_except.
  destruct (fail_fast_handler_try j tmp_path w) as (l & Hl & H).
  destruct (handler_try E j tmp_path w) as [[a|e] w1]; cbn in *.
  - exists l. split; [exact Hl|].
    destruct H as [Hok | (pre & cmd & rc & _ & _ & _ & Habs)]; [now left | discriminate].
  - exists l. split; [destruct e; exact Hl|].
    destruct H as [Hok | (pre & cmd & rc & Hpre & Hall & Hrc & Heq)]; [now left|].
    injection Heq as ->. right. exists pre, cmd, rc. auto.
Qed.

Lemma stops_at_handler (j : job_input) : stops_at (failure_of E) (handler E j).
Proof.
  intros w. destruct (has_source j) eqn:Hsrc.
  - rewrite (handler_with_source E j w Hsrc). cbn [fst snd]. rewrite cleaned_calls.
    destruct (stops_at_handler_guarded j (tmp_of E w) (drawn w)) as (l & Hl & H).
    exists l. split; [exact Hl | exact H].
  - rewrite (handler_no_source E j w Hsrc). exists []. cbn. rewrite app_nil_r.
    split; [reflexivity|]. left. constructor.
Qed.

End Pipeline.

Lemma failed_call_is_last (pre post pre' : list call) (c c' : call) :
  (pre ++ c :: post = pre' ++ [c'])%list -> all_ok pre' -> failed c ->
  post = [] /\ pre = pre' /\ c = c'.
Proof.
  intros Heq Hok Hc.
  destruct post as [|x post _] using rev_ind.
  - apply app_inj_tail in Heq as [-> ->]. auto.
  - change (pre ++ c :: post ++ [x])%list with (pre ++ (c :: post) ++ [x])%list in Heq.
    rewrite app_assoc in Heq. apply app_inj_tail in Heq as [<- _].
    exfalso. unfold all_ok in Hok. rewrite Forall_app, Forall_cons in Hok.
    tauto.
Qed.

(** C6, as the code has it: when a stage run through [run] (download,
    frame extraction, encoding, remux) exits non-zero, it is the last child
    process of the job, every stage before it succeeded, and [handler]
    returns the error response "Upscale failed: " followed by the text of
    the [CalledProcessError] made of that stage's exit status and command
    line. *)
Theorem failed_stage_is_reported (E : Externals) (j : job_input) (w : World)
    (pre post : list call) (c : call) :
  calls (handler E j w).2 = (calls w ++ pre ++ c :: post)%list ->
  call_kind_of c = CheckCall -> call_rc c <> 0%Z ->
  post = [] /\ all_ok pre /\
  (handler E j w).1 =
    Ok (Failure ("Upscale failed: " ++ str_CalledProcessError E (call_rc c) (call_cmd c))).
Proof.
  intros Hlog Hkind Hrc.
  destruct (stops_at_handler E j w) as (l & Hl & H).
  rewrite Hl in Hlog. apply app_inv_head in Hlog. subst l.
  assert (Hc : failed c) by (split; assumption).
  destruct H as [Hok | (pre' & cmd & rc & Heq & Hpre & _ & Hres)].
  - exfalso. unfold all_ok in Hok. rewrite Forall_app, Forall_cons in Hok. tauto.
  - destruct (failed_call_is_last _ _ _ _ _ Heq Hpre Hc) as (-> & -> & ->).
    repeat split; [exact Hpre | exact Hres].
Qed.

Lemma failed_stage_is_reported_witness :
  (handler (Machine.externals Machine.exec_ffmpeg_fails) Machine.url_job Machine.world0).1 =
  Ok (Failure
        ("Upscale failed: " ++
         Machine.str_cpe 1
           (extract_cmd (Machine.job_dir ++ "/src.mp4")
                        (Machine.job_dir ++ "/frame_%08d.png")))).
Proof.
  pose (E := Machine.externals Machine.exec_ffmpeg_fails).
  pose (src := Machine.job_dir ++ "/src.mp4").
  apply (failed_stage_is_reported E Machine.url_job Machine.world0
           [mkCall CheckCall
              (download_cmd "https://example.org/in.mp4"
                 "/tmp/input_00000000000040008000000000000000.mp4") 0;
            mkCall CheckOutput (fps_probe_cmd src) 0]
           []
           (mkCall CheckCall (extract_cmd src (Machine.job_dir ++ "/frame_%08d.png")) 1)).
  - vm_compute. reflexivity.
  - reflexivity.
  - discriminate.
Defined.

(** C6, as the claim states it, fails: ffmpeg exits with status 1 and the
    diagnostic "Invalid data found when processing input"; the error
    response names the command and its exit status and does not contain
    the diagnostic. *)
Lemma error_message_lacks_tool_text :
  let E := Machine.externals Machine.exec_ffmpeg_fails in
  let cmd := extract_cmd (Machine.job_dir ++ "/src.mp4")
                         (Machine.job_dir ++ "/frame_%08d.png") in
  exists msg,
    List.last (calls (handler E Machine.url_job Machine.world0).2)
              (mkCall CheckOutput [] 0) = mkCall CheckCall cmd 1 /\
    (forall f, stderr (exec E cmd f).1 = "Invalid data found when processing input") /\
    (handler E Machine.url_job Machine.world0).1 = Ok (Failure msg) /\
    PyStr.contains "Invalid data found when processing input" msg = false.
Proof.
  eexists. split; [vm_compute; reflexivity|].
  split; [intros f; reflexivity|].
  split; vm_compute; reflexivity.
Qed.

(** ** Directories are never removed *)

Section KeepsDirs.

Context (E : Externals) (Htools : tools_keep_dirs E).

Lemma keeps_ret {A} (a : A) : keeps_dirs (ret a).
Proof. intros w d H. exact H. Qed.

Lemma keeps_raise {A} (e : exn) : keeps_dirs (@raise A e).
Proof. intros w d H. exact H. Qed.

Lemma keeps_get_fs : keeps_dirs get_fs.
Proof. intros w d H. exact H. Qed.

Lemma keeps_draw_uuid : keeps_dirs (draw_uuid E).
Proof. intros w d H. exact H. Qed.

Lemma keeps_bind {A B} (m : M A) (k : A -> M B) :
  keeps_dirs m -> (forall a, keeps_dirs (k a)) -> keeps_dirs (bind m k).
Proof.
  intros Hm Hk w d Hd. unfold bind. specialize (Hm w d Hd).
  destruct (m w) as [[a|e] w1]; cbn in *; [|exact Hm].
  now apply Hk.
Qed.

Lemma keeps_try_except {A} (m : M A) (h : exn -> option (M A)) :
  keeps_dirs m -> (forall e k, h e = Some k -> keeps_dirs k) -> keeps_dirs (try_except m h).
Proof.
  intros Hm Hh w d Hd. unfold try_except. specialize (Hm w d Hd).
  destruct (m w) as [[a|e] w1]; cbn in *; [exact Hm|].
  destruct (h e) as [k|] eqn:Hk; [|exact Hm].
  now apply (Hh e k Hk).
Qed.

Lemma keeps_for_each {A} (l : list A) (body : A -> M unit) :
  (forall x, keeps_dirs (body x)) -> keeps_dirs (for_each l body).
Proof.
  intros Hbody. induction l as [|x l IH]; [apply keeps_ret|].
  apply keeps_bind; auto.
Qed.

Lemma keeps_spawn (k : call_kind) (cmd : list string) : keeps_dirs (spawn E k cmd).
Proof.
  intros w d Hd. unfold spawn. specialize (Htools cmd (fs w) d Hd).
  destruct (exec E cmd (fs w)) as [r f']. cbn in Htools.
  now destruct (returncode r =? 0)%Z.
Qed.

Lemma keeps_makedirs (p : string) : keeps_dirs (os.makedirs p).
Proof using.
  intros w d Hd. cbv [os.makedirs bind get_fs put_fs ret raise].
  destruct (files (fs w) !! p); cbn; [exact Hd|].
  apply elem_of_union. now right.
Qed.

Lemma keeps_rename (a b : string) : keeps_dirs (os.rename a b).
Proof.
  intros w d Hd. cbv [os.rename bind get_fs put_fs ret raise].
  now destruct (files (fs w) !! a).
Qed.

Lemma keeps_write_file (p c : string) : keeps_dirs (os.write_file p c).
Proof. intros w d Hd. exact Hd. Qed.

Lemma keeps_read_file (p : string) : keeps_dirs (os.read_file p).
Proof.
  intros w d Hd. cbv [os.read_file bind get_fs ret raise].
  now destruct (files (fs w) !! p).
Qed.

Lemma keeps_listdir (p : string) : keeps_dirs (os.listdir p).
Proof.
  intros w d Hd. cbv [os.listdir bind get_fs ret raise].
  now destruct (bool_decide (p ∈ dirs (fs w))).
Qed.

End KeepsDirs.

#[global] Hint Resolve keeps_ret keeps_raise keeps_get_fs keeps_draw_uuid keeps_spawn
  keeps_makedirs keeps_rename keeps_write_file keeps_read_file keeps_listdir : calls.

Ltac keeps_step :=
  match goal with
  | |- keeps_dirs (bind _ _) => apply keeps_bind; [|intros ?]
  | |- keeps_dirs (try_except _ _) => apply keeps_try_except; [|intros ? ? [= <-]]
  | |- keeps_dirs (for_each _ _) => apply keeps_for_each; intros ?
  | |- keeps_dirs (if ?b then _ else _) => destruct b
  | |- keeps_dirs (match ?x with _ => _ end) => destruct x
  | |- keeps_dirs _ => solve [auto with calls]
  end.

Ltac keeps_tac := cbv zeta; repeat keeps_step.

Section WorkingDirectory.

Context (E : Externals) (Htools : tools_keep_dirs E).

Lemma keeps_get_video_fps (path : string) : keeps_dirs (get_video_fps E path).
Proof.
  unfold get_video_fps, check_output, except_Exception, unpack2, float_of_str, float_div.
  keeps_tac.
Qed.

Lemma keeps_upscale_frames_cuda (wd : string) (scale : float) (model_name : string) :
  keeps_dirs (upscale_frames_cuda E wd scale model_name).
Proof.
  unfold upscale_frames_cuda, make_upsampler, upscale_frame, imread, enhance_frame, imwrite.
  keeps_tac.
Qed.

Lemma keeps_upscale_video (input_path : string) (scale : float) (model : string)
    (fps : option float) (crf : Z) (preset : string) :
  keeps_dirs (upscale_video E input_path scale model fps crf preset).
Proof.
  pose proof keeps_get_video_fps. pose proof keeps_upscale_frames_cuda.
  unfold upscale_video, run. keeps_tac.
Qed.

Lemma keeps_handler_try (j : job_input) (tmp_path : string) :
  keeps_dirs (handler_try E j tmp_path).
Proof.
  pose proof keeps_upscale_video.
  unfold handler_try, acquire_input, run, os.isfile, os.getsize. keeps_tac.
Qed.

End WorkingDirectory.

(** ** The working directory at job end *)

Section JobEnd.

Context (E : Externals) (Htools : tools_keep_dirs E).

Lemma makedirs_Ok (p : string) (w : World) :
  files (fs w) !! p = None ->
  os.makedirs p w =
    (Ok tt, mkWorld (mkFS (files (fs w)) ({[ p ]} ∪ dirs (fs w))) (entropy w) (calls w)).
Proof using. intros H. cbv [os.makedirs bind get_fs put_fs ret raise]. now rewrite H. Qed.

Lemma upscale_video_creates (input_path : string) (scale : float) (model : string)
    (fps : option float) (crf : Z) (preset : string) (w : World) :
  files (fs w) !! job_work_dir E w = None ->
  job_work_dir E w ∈ dirs (fs (upscale_video E input_path scale model fps crf preset w).2).
Proof.
  intros Hfresh. unfold upscale_video. cbv zeta.
  rewrite (bind_Ok _ _ w (uuid4 E (entropy w)) (drawn w) eq_refl).
  fold (job_work_dir E w).
  rewrite (bind_Ok _ _ _ _ _ (makedirs_Ok (job_work_dir E w) (drawn w) Hfresh)).
  pose proof (keeps_get_video_fps E Htools) as Hfps.
  pose proof (keeps_upscale_frames_cuda E) as Hframes.
  match goal with
  | |- _ ∈ dirs (fs (?m ?w0).2) =>
      assert (Hk : keeps_dirs m) by (unfold run; keeps_tac); apply Hk
  end.
  cbn. apply elem_of_union. left. now apply elem_of_singleton.
Qed.

Lemma keeps_handler_guarded (j : job_input) (tmp_path : string) :
  keeps_dirs (handler_guarded E j tmp_path).
Proof.
  unfold handler_guarded. apply keeps_try_except.
  - now apply keeps_handler_try.
  - intros e k Hk. destruct e; inversion Hk. apply keeps_ret.
Qed.

Lemma keeps_handler (j : job_input) : keeps_dirs (handler E j).
Proof.
  intros w d Hd. destruct (has_source j) eqn:Hsrc.
  - rewrite (handler_with_source E j w Hsrc). cbn [snd]. rewrite cleaned_dirs.
    now apply keeps_handler_guarded.
  - now rewrite (handler_no_source E j w Hsrc).
Qed.

Lemma stopped_has_work_dir (j : job_input) (w w1 : World) (input_path : string) :
  acquire_input E (inp_video_url j) (inp_file_path j) (tmp_of E w) (drawn w)
    = (Ok (inr input_path), w1) ->
  files (fs w1) !! job_work_dir E w1 = None ->
  job_work_dir E w1 ∈ dirs (fs (stopped E j w)).
Proof.
  intros Hacq Hfresh. unfold stopped, handler_guarded, handler_try. cbv zeta.
  set (h := except_CalledProcessError _).
  set (m := bind _ _).
  assert (Hm : job_work_dir E w1 ∈ dirs (fs (m (drawn w)).2)).
  { subst m. rewrite (bind_Ok _ _ _ _ _ Hacq).
    match goal with
    | |- _ ∈ dirs (fs (bind ?m1 ?k ?w0).2) =>
        pose proof (upscale_video_creates input_path
                      (resolve_scale (inp_scale j) (inp_target_resolution j))
                      (str_or_default (inp_model j) (DEFAULT_MODEL E))
                      (inp_output_fps j) (default DEFAULT_CRF (inp_crf j))
                      (str_or_default (inp_preset j) DEFAULT_PRESET) w1 Hfresh) as Hdir;
        unfold bind; destruct (m1 w0) as [[out|e] w2]; cbn in Hdir |- *; [|exact Hdir]
    end.
    cbv [os.read_file bind get_fs ret raise].
    now destruct (files (fs w2) !! out). }
  unfold try_except. destruct (m (drawn w)) as [[a|e] w2]; cbn in Hm |- *; [exact Hm|].
  subst h. destruct e; exact Hm.
Qed.

End JobEnd.

(** C4, as the code has it: the working directory is created at job start
    and is still there when [handler] returns, whether the job succeeded
    or failed (the external tools removing no directory); no directory is
    removed, and the only cleanup at job end is the removal of the
    downloaded input at its temporary path. *)
Theorem working_directory_is_kept (E : Externals) (j : job_input) (w w1 : World)
    (input_path : string) :
  tools_keep_dirs E ->
  has_source j = true ->
  acquire_input E (inp_video_url j) (inp_file_path j) (tmp_of E w) (drawn w)
    = (Ok (inr input_path), w1) ->
  files (fs w1) !! job_work_dir E w1 = None ->
  job_work_dir E w1 ∈ dirs (fs (handler E j w).2) /\
  (forall d, d ∈ dirs (fs w) -> d ∈ dirs (fs (handler E j w).2)) /\
  dirs (fs (handler E j w).2) = dirs (fs (stopped E j w)) /\
  (forall p, p <> tmp_of E w ->
             files (fs (handler E j w).2) !! p = files (fs (stopped E j w)) !! p).
Proof.
  intros Htools Hsrc Hacq Hfresh.
  split; [|split; [intros d; now apply keeps_handler|]];
    rewrite (handler_with_source E j w Hsrc); cbn [snd]; fold (stopped E j w).
  - rewrite cleaned_dirs. now apply (stopped_has_work_dir E Htools j w w1 input_path).
  - split; [apply cleaned_dirs|]. intros p Hp. now apply cleaned_files.
Qed.

(** Settle a decidable closed proposition by running its decision
    procedure. *)
Ltac decide_by_run :=
  match goal with
  | |- ?P => apply (@bool_decide_unpack P _); vm_compute; exact I
  end.

Lemma machine_exec_ok_dirs (cmd : list string) (f : FS) :
  dirs (Machine.exec_ok cmd f).2 = dirs f.
Proof.
  unfold Machine.exec_ok.
  repeat match goal with
         | |- context [if ?b then _ else _] => destruct b
         end; reflexivity.
Qed.

Lemma machine_tools_keep_dirs :
  tools_keep_dirs (Machine.externals Machine.exec_ffmpeg_fails).
Proof.
  intros cmd f d Hd. cbn [exec Machine.externals]. unfold Machine.exec_ffmpeg_fails.
  destruct (String.eqb (Machine.program cmd) "ffmpeg"); [exact Hd|].
  now rewrite machine_exec_ok_dirs.
Qed.

Lemma working_directory_is_kept_witness :
  Machine.job_dir ∈
    dirs (fs (handler (Machine.externals Machine.exec_ffmpeg_fails) Machine.url_job
                Machine.world0).2).
Proof.
  pose (E := Machine.externals Machine.exec_ffmpeg_fails).
  pose (w1 := (acquire_input E (inp_video_url Machine.url_job)
                 (inp_file_path Machine.url_job) (tmp_of E Machine.world0)
                 (drawn Machine.world0)).2).
  destruct (working_directory_is_kept E Machine.url_job Machine.world0 w1
              (tmp_of E Machine.world0)) as [H _].
  - exact machine_tools_keep_dirs.
  - reflexivity.
  - vm_compute. reflexivity.
  - vm_compute. reflexivity.
  - exact H.
Defined.

(** C4, as the claim states it, fails: after a job that succeeded and
    after a job that failed, the working directory and the files in it are
    still there. *)
Lemma working_directory_left_behind :
  let done := handler (Machine.externals Machine.exec_ok) Machine.url_job Machine.world0 in
  let broken :=
    handler (Machine.externals Machine.exec_ffmpeg_fails) Machine.url_job Machine.world0 in
  (exists out p, done.1 = Ok (Success out "video/mp4" "upscaled.mp4" p)) /\
  Machine.job_dir ∈ dirs (fs done.2) /\
  files (fs done.2) !! (Machine.job_dir ++ "/src.mp4") = Some "VIDEO" /\
  files (fs done.2) !! (Machine.job_dir ++ "/frames_upscaled_00000001.png")
    = Some "upscaled F1" /\
  files (fs done.2) !! (Machine.job_dir ++ "/upscaled_with_audio.mp4") = Some "MP4" /\
  (exists msg, broken.1 = Ok (Failure msg)) /\
  Machine.job_dir ∈ dirs (fs broken.2) /\
  files (fs broken.2) !! (Machine.job_dir ++ "/src.mp4") = Some "VIDEO".
Proof.
  cbv zeta.
  split; [do 2 eexists; vm_compute; reflexivity|].
  split; [decide_by_run|].
  split; [vm_compute; reflexivity|].
  split; [vm_compute; reflexivity|].
  split; [vm_compute; reflexivity|].
  split; [eexists; vm_compute; reflexivity|].
  split; [decide_by_run|].
  vm_compute; reflexivity.
Qed.

(** C9: a job given a local [file_path] moves that file into its working
    directory (line 149), so the file is gone from the caller's path after
    the job, whether the job succeeds or fails. *)
Lemma local_source_file_is_moved :
  let done := handler (Machine.externals Machine.exec_ok) Machine.file_job Machine.world0 in
  let broken :=
    handler (Machine.externals Machine.exec_ffmpeg_fails) Machine.file_job Machine.world0 in
  inp_file_path Machine.file_job = Some "/data/in.mp4" /\
  files (fs Machine.world0) !! "/data/in.mp4" = Some "VIDEO" /\
  (exists out p, done.1 = Ok (Success out "video/mp4" "upscaled.mp4" p)) /\
  files (fs done.2) !! "/data/in.mp4" = None /\
  files (fs done.2) !! (Machine.job_dir ++ "/src.mp4") = Some "VIDEO" /\
  (exists msg, broken.1 = Ok (Failure msg)) /\
  files (fs broken.2) !! "/data/in.mp4" = None.
Proof.
  cbv zeta.
  split; [reflexivity|].
  split; [vm_compute; reflexivity|].
  split; [do 2 eexists; vm_compute; reflexivity|].
  split; [vm_compute; reflexivity|].
  split; [vm_compute; reflexivity|].
  split; [eexists; vm_compute; reflexivity|].
  vm_compute; reflexivity.
Qed.

(** * Further properties of the handler *)

(** ** Inverting the steps of a run *)

Section RunInversion.

Context (E : Externals).

Lemma bind_inv_Ok {A B} (m : M A) (k : A -> M B) (w w' : World) (b : B) :
  bind m k w = (Ok b, w') -> exists a w1, m w = (Ok a, w1) /\ k a w1 = (Ok b, w').
Proof.
  unfold bind. destruct (m w) as [[a|e] w1]; [eauto | discriminate].
Qed.

Lemma run_inv_Ok (cmd : list string) (w w1 : World) (u : unit) :
  run E cmd w = (Ok u, w1) ->
  returncode (exec E cmd (fs w)).1 = 0%Z /\ w1 = after_spawn E CheckCall cmd w.
Proof.
  intros H. destruct (Z.eq_dec (returncode (exec E cmd (fs w)).1) 0%Z) as [Hz | Hnz].
  - rewrite (run_zero E cmd w Hz) in H. injection H as <-. auto.
  - rewrite (run_nonzero E cmd w Hnz) in H. discriminate.
Qed.

Lemma calls_after_run (cmd : list string) (w w1 : World) (u : unit) :
  run E cmd w = (Ok u, w1) -> calls w1 = (calls w ++ [mkCall CheckCall cmd 0])%list.
Proof.
  intros H. apply run_inv_Ok in H as [Hz ->]. unfold after_spawn. cbn. now rewrite Hz.
Qed.

Lemma silent_Ok {A} (m : M A) (w w1 : World) (r : result A) :
  silent m -> m w = (r, w1) -> calls w1 = calls w.
Proof. intros Hm H. specialize (Hm w). now rewrite H in Hm. Qed.

End RunInversion.

(** ** The prober runs ffprobe once *)

Section ProberWorld.

Context (E : Externals) (path : string) (w : World).

Lemma try_except_Exception_world {A} (m k : M A) (w0 : World) :
  silent k ->
  calls (try_except m (except_Exception k) w0).2 = calls (m w0).2.
Proof.
  intros Hk. unfold try_except, except_Exception.
  destruct (m w0) as [[a|e] w1]; [reflexivity|]. apply Hk.
Qed.

Lemma probe_body_calls {A} (cmd : list string) (k : string -> M A) :
  (forall out, silent (k out)) ->
  calls (bind (check_output E cmd) k w).2 = calls (after_spawn E CheckOutput cmd w).
Proof.
  intros Hk. destruct (Z.eq_dec (returncode (exec E cmd (fs w)).1) 0%Z) as [Hz | Hnz].
  - rewrite (bind_Ok _ _ _ _ _ (check_output_zero E cmd w Hz)). apply Hk.
  - now rewrite (bind_Raise _ _ _ _ _ (check_output_nonzero E cmd w Hnz)).
Qed.

End ProberWorld.

Lemma get_video_fps_calls (E : Externals) (path : string) (w : World) :
  calls (get_video_fps E path w).2 =
    (calls w ++ [mkCall CheckOutput (fps_probe_cmd path)
                   (returncode (fps_probe E path w))])%list.
Proof.
  unfold get_video_fps. rewrite try_except_Exception_world by apply silent_ret.
  rewrite probe_body_calls; [reflexivity|].
  intros out. unfold unpack2, float_of_str, float_div. silent_tac.
Qed.

Lemma get_video_size_calls (E : Externals) (path : string) (w : World) :
  calls (get_video_size E path w).2 =
    (calls w ++ [mkCall CheckOutput (size_probe_cmd path)
                   (returncode (size_probe E path w))])%list.
Proof.
  unfold get_video_size. rewrite try_except_Exception_world by apply silent_ret.
  rewrite probe_body_calls; [reflexivity|].
  intros out. unfold unpack2, int_of_str. silent_tac.
Qed.

(** X1: whatever ffprobe answers, [get_video_fps] and [get_video_size] start
    exactly one child process, the probe of [path], and no other. *)
Theorem prober_runs_one_probe (E : Externals) (path : string) (w : World) :
  calls (get_video_fps E path w).2 =
    (calls w ++ [mkCall CheckOutput (fps_probe_cmd path)
                   (returncode (fps_probe E path w))])%list /\
  calls (get_video_size E path w).2 =
    (calls w ++ [mkCall CheckOutput (size_probe_cmd path)
                   (returncode (size_probe E path w))])%list.
Proof. split; [apply get_video_fps_calls | apply get_video_size_calls]. Qed.

(** ** The stages of a successful upscale_video *)

Section SuccessTrace.

Context (E : Externals).

Lemma makedirs_inv_Ok (p : string) (w w1 : World) (u : unit) :
  os.makedirs p w = (Ok u, w1) ->
  files (fs w) !! p = None /\
  w1 = mkWorld (mkFS (files (fs w)) ({[ p ]} ∪ dirs (fs w))) (entropy w) (calls w).
Proof.
  cbv [os.makedirs bind get_fs put_fs ret raise].
  destruct (files (fs w) !! p); [discriminate|]. intros [= <-]. auto.
Qed.

Lemma rename_inv_Ok (a b : string) (w w1 : World) (u : unit) :
  os.rename a b w = (Ok u, w1) ->
  exists c, files (fs w) !! a = Some c /\
            w1 = mkWorld (mkFS (<[ b := c ]> (delete a (files (fs w)))) (dirs (fs w)))
                         (entropy w) (calls w).
Proof.
  cbv [os.rename bind get_fs put_fs ret raise].
  destruct (files (fs w) !! a) as [c|]; [|discriminate]. intros [= <-]. eauto.
Qed.

(** Lines 138-149: on success the job starts from the [staged] world. *)
Lemma staging_inv_Ok (input_path : string) (w w3 : World) (u : unit) :
  bind (os.makedirs (job_work_dir E w))
    (fun _ =>
       if negb (String.eqb (abspath E input_path) (abspath E (src_in (job_work_dir E w))))
       then os.rename input_path (src_in (job_work_dir E w)) else ret tt)
    (drawn w) = (Ok u, w3) ->
  files (fs w) !! job_work_dir E w = None /\ w3 = staged E input_path w.
Proof.
  intros H. apply bind_inv_Ok in H as (u1 & w2 & Hmk & Hmv).
  apply makedirs_inv_Ok in Hmk as [Hfresh ->]. split; [exact Hfresh|].
  unfold staged. cbv zeta.
  destruct (String.eqb (abspath E input_path) (abspath E (src_in (job_work_dir E w)))).
  - cbn in Hmv. now injection Hmv as <-.
  - cbn [negb] in Hmv. apply rename_inv_Ok in Hmv as (c & Hc & ->).
    cbn in Hc |- *. now rewrite Hc.
Qed.

(** Line 151: the frame rate handed to the encoder. *)
Lemma out_fps_inv_Ok (fps : option float) (src : string) (w w4 : World) (out_fps : float) :
  match fps with
  | Some f => if PrimFloat.ltb 0%float f then ret f else get_video_fps E src
  | None => get_video_fps E src
  end w = (Ok out_fps, w4) ->
  exists probe,
    calls w4 = (calls w ++ probe)%list /\
    if scale_given fps then fps = Some out_fps /\ probe = []
    else (get_video_fps E src w).1 = Ok out_fps /\
         probe = [mkCall CheckOutput (fps_probe_cmd src) (returncode (fps_probe E src w))].
Proof.
  intros H.
  assert (Hprobe : get_video_fps E src w = (Ok out_fps, w4) ->
            exists probe,
              calls w4 = (calls w ++ probe)%list /\
              (get_video_fps E src w).1 = Ok out_fps /\
              probe = [mkCall CheckOutput (fps_probe_cmd src)
                         (returncode (fps_probe E src w))]).
  { intros Hfps. eexists. split; [|split; [now rewrite Hfps | reflexivity]].
    pose proof (get_video_fps_calls E src w) as Hlog.
    now rewrite Hfps in Hlog. }
  destruct fps as [f|]; cbn [scale_given].
  - destruct (PrimFloat.ltb 0%float f).
    + injection H as <- <-. exists []. rewrite app_nil_r. auto.
    + destruct (Hprobe H) as (probe & ? & ? & ?). eauto.
  - destruct (Hprobe H) as (probe & ? & ? & ?). eauto.
Qed.

End SuccessTrace.

Lemma upscale_video_inv_Ok (E : Externals) (input_path : string) (scale : float)
    (model : string) (fps : option float) (crf : Z) (preset : string)
    (w w' : World) (path : string) :
  upscale_video E input_path scale model fps crf preset w = (Ok path, w') ->
  path = final_in (job_work_dir E w) /\
  files (fs w) !! job_work_dir E w = None /\
  exists out_fps probe,
    (if scale_given fps then fps = Some out_fps /\ probe = []
     else (get_video_fps E (src_in (job_work_dir E w)) (staged E input_path w)).1
            = Ok out_fps /\
          probe = [mkCall CheckOutput (fps_probe_cmd (src_in (job_work_dir E w)))
                     (returncode (fps_probe E (src_in (job_work_dir E w))
                                    (staged E input_path w)))]) /\
    calls w' =
      (calls w ++ probe ++ stage_calls E (job_work_dir E w) out_fps crf preset)%list.
Proof.
  intros H. unfold upscale_video in H. cbv zeta in H.
  apply bind_inv_Ok in H as (u & w1 & Hdraw & H).
  injection Hdraw as <- <-. fold (drawn w) (job_work_dir E w) in H.
  fold (src_in (job_work_dir E w)) (frame_pattern_in (job_work_dir E w))
       (upscaled_pattern_in (job_work_dir E w)) (noaudio_in (job_work_dir E w))
       (final_in (job_work_dir E w)) in H.
  set (wd := job_work_dir E w) in *.
  apply bind_inv_Ok in H as (u2 & w2 & Hmk & H).
  apply bind_inv_Ok in H as (u3 & w3 & Hmv & H).
  assert (Hstage : files (fs w) !! wd = None /\ w3 = staged E input_path w).
  { apply (staging_inv_Ok E input_path w w3 u3). fold wd.
    unfold bind at 1. now rewrite Hmk. }
  destruct Hstage as [Hfresh ->].
  apply bind_inv_Ok in H as (out_fps & w4 & Hfps & H).
  apply out_fps_inv_Ok in Hfps as (probe & Hc4 & Hsel).
  apply bind_inv_Ok in H as (u5 & w5 & Hextract & H).
  apply bind_inv_Ok in H as (u6 & w6 & Hframes & H).
  apply bind_inv_Ok in H as (u7 & w7 & Hencode & H).
  apply bind_inv_Ok in H as (u8 & w8 & Hremux & H).
  injection H as <- <-.
  apply calls_after_run in Hextract, Hencode, Hremux.
  apply (silent_Ok _ _ _ _ (silent_upscale_frames_cuda E wd scale model)) in Hframes.
  split; [reflexivity|]. split; [exact Hfresh|].
  exists out_fps, probe. split; [exact Hsel|].
  rewrite Hremux, Hencode, Hframes, Hextract, Hc4. unfold stage_calls.
  change (calls (staged E input_path w)) with (calls w).
  now rewrite <- !app_assoc.
Qed.

(** X2: when [upscale_video] returns, it returns the path of
    upscaled_with_audio.mp4 in its fresh working directory, and the child
    processes it started are, in this order: the frame-rate probe of src.mp4
    (only when no positive [fps] was given), then frame extraction, encoding
    at the chosen frame rate, crf and preset, and the remux, each of the
    three with exit status 0. *)
Theorem upscale_video_success_trace (E : Externals) (input_path : string) (scale : float)
    (model : string) (fps : option float) (crf : Z) (preset : string)
    (w w' : World) (path : string) :
  upscale_video E input_path scale model fps crf preset w = (Ok path, w') ->
  path = final_in (job_work_dir E w) /\
  files (fs w) !! job_work_dir E w = None /\
  exists out_fps probe,
    (if scale_given fps then fps = Some out_fps /\ probe = []
     else (get_video_fps E (src_in (job_work_dir E w)) (staged E input_path w)).1
            = Ok out_fps /\
          probe = [mkCall CheckOutput (fps_probe_cmd (src_in (job_work_dir E w)))
                     (returncode (fps_probe E (src_in (job_work_dir E w))
                                    (staged E input_path w)))]) /\
    calls w' =
      (calls w ++ probe ++ stage_calls E (job_work_dir E w) out_fps crf preset)%list.
Proof. apply upscale_video_inv_Ok. Qed.

Lemma upscale_video_success_trace_witness :
  calls (upscale_video (Machine.externals Machine.exec_ok) "/data/in.mp4" 1.5%float
           "realesr-animevideov3" (Some 24%float) 18 "slow" Machine.world0).2 =
  stage_calls (Machine.externals Machine.exec_ok)
    "/tmp/00000000-0000-4000-8000-000000000000" 24%float 18 "slow".
Proof.
  pose (E := Machine.externals Machine.exec_ok).
  pose (r := upscale_video E "/data/in.mp4" 1.5%float "realesr-animevideov3"
               (Some 24%float) 18 "slow" Machine.world0).
  destruct (upscale_video_success_trace E "/data/in.mp4" 1.5%float
              "realesr-animevideov3" (Some 24%float) 18 "slow" Machine.world0 r.2
              "/tmp/00000000-0000-4000-8000-000000000000/upscaled_with_audio.mp4")
    as (_ & _ & out_fps & probe & Hsel & Hcalls).
  - vm_compute. reflexivity.
  - cbn [scale_given] in Hsel.
    change (PrimFloat.ltb 0%float 24%float) with true in Hsel.
    destruct Hsel as [[= <-] ->]. exact Hcalls.
Defined.

(** ** The response of a successful job *)

Section SuccessResponse.

Context (E : Externals) (j : job_input) (w : World).

Lemma guarded_inv_Success (tmp_path : string) (w0 w1 : World) (r : response) :
  handler_guarded E j tmp_path w0 = (Ok r, w1) ->
  (exists msg, r = Failure msg) \/ handler_try E j tmp_path w0 = (Ok r, w1).
Proof.
  unfold handler_guarded, try_except.
  destruct (handler_try E j tmp_path w0) as [[a|e] w2]; [now right|].
  destruct e; cbn; try discriminate. intros [= <- <-]. left. eauto.
Qed.

(** Lines 226-241 hand a path to the pipeline only from [pipeline_start]. *)
Lemma acquire_inv_inr (input_path : string) (w1 : World) :
  acquire_input E (inp_video_url j) (inp_file_path j) (tmp_of E w) (drawn w)
    = (Ok (inr input_path), w1) ->
  input_path = input_of E j w /\ w1 = pipeline_start E j w /\
  calls w1 = (calls w ++ download_calls E j w)%list.
Proof.
  unfold input_of, pipeline_start, download_calls.
  destruct (PyStr.truthy (inp_video_url j)) eqn:Hurl.
  - destruct (Z.eq_dec (download_rc E j w) 0%Z) as [Hrc | Hrc].
    + rewrite (acquire_download_done E j w Hurl Hrc).
      destruct (unusable _ _); [discriminate|]. intros [= <- <-].
      rewrite calls_downloaded. now rewrite Hrc.
    + rewrite (acquire_download_failed E j w Hurl Hrc). discriminate.
  - rewrite (acquire_local E j w Hurl).
    destruct (files (fs w) !! local_path_of j); [|discriminate].
    intros [= <- <-]. cbn. now rewrite app_nil_r.
Qed.

Lemma handler_try_inv_Success (w1 : World) (b64 ct fn : string) (p : params) :
  handler_try E j (tmp_of E w) (drawn w) = (Ok (Success b64 ct fn p), w1) ->
  ct = "video/mp4" /\ fn = "upscaled.mp4" /\ p = resolved_params E j /\
  calls (pipeline_start E j w) = (calls w ++ download_calls E j w)%list /\
  exists path data,
    upscale_video E (input_of E j w) (par_scale p) (par_model p) (par_output_fps p)
      (par_crf p) (par_preset p) (pipeline_start E j w) = (Ok path, w1) /\
    files (fs w1) !! path = Some data /\ b64 = b64encode E data.
Proof.
  unfold handler_try. cbv zeta. intros H.
  apply bind_inv_Ok in H as ([early | input_path] & w2 & Hacq & H).
  - exfalso. injection H as -> ->. revert Hacq. unfold acquire_input.
    destruct (PyStr.truthy (inp_video_url j)).
    + intros Hacq. apply bind_inv_Ok in Hacq as (? & ? & _ & Hacq).
      apply bind_inv_Ok in Hacq as (? & ? & _ & Hacq).
      apply bind_inv_Ok in Hacq as ([] & ? & _ & Hacq); discriminate.
    + intros Hacq. apply bind_inv_Ok in Hacq as ([] & ? & _ & Hacq); discriminate.
  - apply acquire_inv_inr in Hacq as (-> & -> & Hstart).
    apply bind_inv_Ok in H as (path & w3 & Hrun & H).
    apply bind_inv_Ok in H as (data & w4 & Hread & H).
    injection H as <- <- <- <- <-.
    revert Hread. cbv [os.read_file bind get_fs ret raise].
    destruct (files (fs w3) !! path) as [c|] eqn:Hc; [|discriminate].
    intros [= <- <-].
    repeat split; [exact Hstart|]. exists path, c. auto.
Qed.

End SuccessResponse.

(** X3: when [handler] returns a success response, its content type and file
    name are fixed, its params are the resolved request parameters, its
    payload is the base64 text of the final video as it lay in the working
    directory when the pipeline ended, and the child processes of the job
    are exactly: the download (for a [video_url]), the frame-rate probe
    (without a positive [output_fps]), then extraction, encoding with the
    reported crf and preset, and remux; the download and the three stages
    have exit status 0. *)
Theorem handler_success_response (E : Externals) (j : job_input) (w : World)
    (b64 ct fn : string) (p : params) :
  (handler E j w).1 = Ok (Success b64 ct fn p) ->
  ct = "video/mp4" /\ fn = "upscaled.mp4" /\ p = resolved_params E j /\
  (exists data,
     files (fs (stopped E j w)) !! final_in (job_work_dir E (pipeline_start E j w))
       = Some data /\
     b64 = b64encode E data) /\
  exists out_fps probe,
    (if scale_given (inp_output_fps j) then inp_output_fps j = Some out_fps /\ probe = []
     else exists rc,
            probe = [mkCall CheckOutput
                       (fps_probe_cmd (src_in (job_work_dir E (pipeline_start E j w))))
                       rc]) /\
    calls (handler E j w).2 =
      (calls w ++ download_calls E j w ++ probe ++
       stage_calls E (job_work_dir E (pipeline_start E j w)) out_fps
         (par_crf p) (par_preset p))%list.
Proof.
  intros H.
  destruct (has_source j) eqn:Hsrc;
    [|rewrite (handler_no_source E j w Hsrc) in H; discriminate].
  rewrite (handler_with_source E j w Hsrc) in H |- *. cbn [fst snd] in H |- *.
  rewrite cleaned_calls. unfold stopped.
  destruct (handler_guarded E j (tmp_of E w) (drawn w)) as [r w1] eqn:Hg.
  cbn [fst snd] in H |- *. subst r.
  apply guarded_inv_Success in Hg as [[msg Hmsg] | Htry]; [discriminate|].
  apply handler_try_inv_Success in Htry
    as (-> & -> & Hp & Hstart & path & data & Hrun & Hdata & ->).
  apply upscale_video_inv_Ok in Hrun
    as (-> & _ & out_fps & probe & Hsel & Hcalls).
  split; [reflexivity|]. split; [reflexivity|]. split; [exact Hp|].
  split; [eauto|].
  exists out_fps, probe. split.
  - rewrite Hp in Hsel. cbn [par_output_fps resolved_params] in Hsel.
    destruct (scale_given (inp_output_fps j)); [exact Hsel|].
    destruct Hsel as [_ ->]. eauto.
  - rewrite Hcalls, Hstart. now rewrite <- !app_assoc.
Qed.

Lemma handler_success_response_witness :
  exists data,
    files (fs (stopped (Machine.externals Machine.exec_ok) Machine.url_job Machine.world0))
      !! final_in Machine.job_dir = Some data /\
    "base64:MP4" = b64encode (Machine.externals Machine.exec_ok) data.
Proof.
  destruct (handler_success_response (Machine.externals Machine.exec_ok) Machine.url_job
              Machine.world0 "base64:MP4" "video/mp4" "upscaled.mp4"
              (mkParams 1.5%float "realesr-animevideov3" (Some "1080p") 20 "medium" None))
    as (_ & _ & _ & Hdata & _).
  - vm_compute. reflexivity.
  - exact Hdata.
Defined.

(** ** The resolved scale *)

Lemma preset_table_values (key : string) (v : float) :
  TARGET_RESOLUTION_SCALE !! key = Some v ->
  (v = 1.5%float \/ v = 2.0%float) /\ (key = "1080p" \/ key = "2k" \/ key = "1440p").
Proof.
  unfold TARGET_RESOLUTION_SCALE. intros H.
  apply lookup_insert_Some in H as [[<- <-] | [_ H]]; [auto|].
  apply lookup_insert_Some in H as [[<- <-] | [_ H]]; [auto|].
  apply lookup_singleton_Some in H as [<- <-]. auto.
Qed.

Lemma preset_table_None (key : string) :
  TARGET_RESOLUTION_SCALE !! key = None ->
  key <> "1080p" /\ key <> "2k" /\ key <> "1440p".
Proof.
  intros H. repeat split; intros ->; vm_compute in H; discriminate.
Qed.

Lemma resolve_preset_table (target_resolution : option string) :
  resolve_preset target_resolution =
  if PyStr.truthy target_resolution
  then default DEFAULT_SCALE
         (TARGET_RESOLUTION_SCALE !! preset_key (default "" target_resolution))
  else DEFAULT_SCALE.
Proof.
  unfold resolve_preset. destruct (PyStr.truthy target_resolution); [|reflexivity].
  cbv zeta.
  destruct (TARGET_RESOLUTION_SCALE !! preset_key (default "" target_resolution))
    as [v|] eqn:Hlook; [reflexivity|].
  apply preset_table_None in Hlook as (H1 & H2 & H3).
  apply String.eqb_neq in H1, H2, H3. now rewrite H1, H2, H3.
Qed.

(** X4: the table lookup alone decides the preset: the comparisons that
    follow it in the source (lines 88-91) never change the result, which is
    the table entry of the normalised key, or 1.5 when there is none. *)
Theorem preset_table_decides (target_resolution : option string) :
  resolve_preset target_resolution =
  if PyStr.truthy target_resolution
  then default DEFAULT_SCALE
         (TARGET_RESOLUTION_SCALE !! preset_key (default "" target_resolution))
  else DEFAULT_SCALE.
Proof. apply resolve_preset_table. Qed.

(** X5: the resolved scale is positive for every request, whatever [scale]
    (absent, zero, negative, infinite, not a number) and whatever
    [target_resolution]: it is the explicit scale or one of 1.5 and 2.0. *)
Theorem resolve_scale_positive (scale : option float) (target_resolution : option string) :
  PrimFloat.ltb 0%float (resolve_scale scale target_resolution) = true /\
  (scale = Some (resolve_scale scale target_resolution) \/
   resolve_scale scale target_resolution = 1.5%float \/
   resolve_scale scale target_resolution = 2.0%float).
Proof.
  assert (Hpreset : resolve_preset target_resolution = 1.5%float \/
                    resolve_preset target_resolution = 2.0%float).
  { rewrite resolve_preset_table. destruct (PyStr.truthy target_resolution); [|now left].
    destruct (TARGET_RESOLUTION_SCALE !! _) as [v|] eqn:Hlook; [|now left].
    now apply preset_table_values in Hlook as [Hv _]. }
  assert (Hpos : PrimFloat.ltb 0%float (resolve_preset target_resolution) = true).
  { destruct Hpreset as [-> | ->]; reflexivity. }
  unfold resolve_scale. destruct scale as [s|]; [|auto].
  destruct (PrimFloat.ltb 0%float s) eqn:Hs; auto.
Qed.

(** ** Which source a job uses, and what escapes it *)

Section SourcesAndFailures.

Context (E : Externals) (j : job_input) (w : World).

Lemma bind_ext {A B} (m : M A) (k1 k2 : A -> M B) (w0 : World) :
  (forall a w1, k1 a w1 = k2 a w1) -> bind m k1 w0 = bind m k2 w0.
Proof. intros H. unfold bind. destruct (m w0) as [[a|e] w1]; auto. Qed.

Lemma acquire_input_url_first (fp : option string) (tmp_path : string) :
  PyStr.truthy (inp_video_url j) = true ->
  acquire_input E (inp_video_url j) fp tmp_path =
  acquire_input E (inp_video_url j) None tmp_path.
Proof. intros Hurl. unfold acquire_input. now rewrite Hurl. Qed.

Lemma guarded_never_raises_CalledProcessError (tmp_path : string) (w0 : World)
    (rc : Z) (cmd : list string) :
  (handler_guarded E j tmp_path w0).1 <> Raise (CalledProcessError rc cmd).
Proof.
  unfold handler_guarded, try_except.
  destruct (handler_try E j tmp_path w0) as [[a|e] w1]; [discriminate|].
  destruct e; discriminate.
Qed.

Lemma guarded_passes_other_exceptions (tmp_path : string) (w0 w1 : World) (e : exn) :
  handler_try E j tmp_path w0 = (Raise e, w1) ->
  (forall rc cmd, e <> CalledProcessError rc cmd) ->
  handler_guarded E j tmp_path w0 = (Raise e, w1).
Proof.
  intros Htry He. unfold handler_guarded, try_except. rewrite Htry.
  destruct e; try reflexivity. now elim (He returncode0 cmd).
Qed.

End SourcesAndFailures.

(** X6: a request that names a [video_url] is served from the download alone:
    a [file_path] given with it plays no role, in the response or in the
    effects of the job. *)
Theorem video_url_takes_precedence (E : Externals) (j : job_input) (w : World) :
  PyStr.truthy (inp_video_url j) = true ->
  handler E j w = handler E (without_file_path j) w.
Proof.
  intros Hurl. unfold handler. cbn [inp_video_url inp_file_path without_file_path].
  rewrite Hurl. cbn [negb andb].
  unfold handler_try, handler_finally.
  cbn [inp_video_url inp_file_path inp_target_resolution inp_scale inp_model
       inp_output_fps inp_crf inp_preset without_file_path].
  apply bind_ext. intros u w0.
  now rewrite (acquire_input_url_first E j (inp_file_path j) (tmp_path_of u) Hurl).
Qed.

Lemma video_url_takes_precedence_witness :
  handler (Machine.externals Machine.exec_ok)
    (mkJob (Some "https://example.org/in.mp4") (Some "/data/in.mp4") None None None None
       None None) Machine.world0 =
  handler (Machine.externals Machine.exec_ok)
    (mkJob (Some "https://example.org/in.mp4") None None None None None None None)
    Machine.world0.
Proof.
  apply (video_url_takes_precedence (Machine.externals Machine.exec_ok)
           (mkJob (Some "https://example.org/in.mp4") (Some "/data/in.mp4") None None
              None None None None) Machine.world0).
  reflexivity.
Defined.

(** X7: [handler] turns exactly the failures of child processes into error
    responses: it never raises [CalledProcessError], and every other
    exception of the [try] block (a missing weights file, a frame that cannot
    be read or enhanced, a missing final video) is raised to the caller
    after the cleanup. *)
Theorem handler_raises_all_but_process_failures (E : Externals) (j : job_input) (w : World) :
  (forall rc cmd, (handler E j w).1 <> Raise (CalledProcessError rc cmd)) /\
  (forall e w1,
     has_source j = true ->
     handler_try E j (tmp_of E w) (drawn w) = (Raise e, w1) ->
     (forall rc cmd, e <> CalledProcessError rc cmd) ->
     (handler E j w).1 = Raise e).
Proof.
  split.
  - intros rc cmd. destruct (has_source j) eqn:Hsrc.
    + rewrite (handler_with_source E j w Hsrc). cbn [fst].
      apply guarded_never_raises_CalledProcessError.
    + rewrite (handler_no_source E j w Hsrc). discriminate.
  - intros e w1 Hsrc Htry He. rewrite (handler_with_source E j w Hsrc). cbn [fst].
    now rewrite (guarded_passes_other_exceptions E j _ _ _ _ Htry He).
Qed.

(** X8: after a job with a [video_url], nothing is left at the temporary
    download path, however the job ended: the download was moved into the
    working directory or removed by the cleanup.  (In this file system
    [os.remove] of an existing file succeeds; there are no permissions.) *)
Theorem temporary_download_is_gone (E : Externals) (j : job_input) (w : World) :
  PyStr.truthy (inp_video_url j) = true ->
  files (fs (handler E j w).2) !! tmp_of E w = None.
Proof.
  intros Hurl.
  rewrite handler_with_source by (unfold has_source; now rewrite Hurl).
  cbn [snd]. unfold cleaned. rewrite Hurl.
  destruct (files (fs (handler_guarded E j (tmp_of E w) (drawn w)).2) !! tmp_of E w)
    eqn:Hlook; [|exact Hlook].
  cbn. apply lookup_delete_eq.
Qed.

Lemma handler_raises_all_but_process_failures_witness :
  (handler (Machine.externals Machine.exec_ok) Machine.file_job world_without_weights).1 =
  Raise (OSError "/workspace/weights/realesr-animevideov3.pth").
Proof.
  pose (E := Machine.externals Machine.exec_ok).
  apply (proj2 (handler_raises_all_but_process_failures E Machine.file_job
                  world_without_weights)
           (OSError "/workspace/weights/realesr-animevideov3.pth")
           (handler_try E Machine.file_job (tmp_of E world_without_weights)
              (drawn world_without_weights)).2).
  - reflexivity.
  - vm_compute. reflexivity.
  - discriminate.
Defined.

Lemma temporary_download_is_gone_witness :
  files (fs (handler (Machine.externals Machine.exec_ffmpeg_fails) Machine.url_job
               Machine.world0).2)
    !! "/tmp/input_00000000000040008000000000000000.mp4" = None.
Proof.
  apply (temporary_download_is_gone (Machine.externals Machine.exec_ffmpeg_fails)
           Machine.url_job Machine.world0).
  reflexivity.
Defined.

(** ** What the frame loop writes *)

Section FrameWrites.

Context (E : Externals) (u : upsampler E) (wd : string) (scale : float).

Lemma frame_result_with_file (f p c : string) (w : World) :
  os.path_join wd f <> p ->
  frame_result E u wd scale f (fs (with_file p c w)) = frame_result E u wd scale f (fs w).
Proof.
  intros Hne. unfold frame_result, with_file. cbn.
  rewrite lookup_insert_ne by congruence. reflexivity.
Qed.

(** Whatever its outcome, the loop only adds or overwrites output files. *)
Lemma for_each_frames_any (l : list string) (w w' : World) (r : result unit) :
  for_each l (upscale_frame E u wd scale) w = (r, w') ->
  dirs (fs w') = dirs (fs w) /\ entropy w' = entropy w /\ calls w' = calls w /\
  (forall p, is_Some (files (fs w) !! p) -> is_Some (files (fs w') !! p)) /\
  (forall p, (forall f, f ∈ l -> p <> out_path wd f) ->
             files (fs w') !! p = files (fs w) !! p).
Proof.
  revert w. induction l as [|x l IH]; intros w H.
  - injection H as <- <-. repeat split; tauto.
  - cbn [for_each] in H. unfold bind in H. rewrite upscale_frame_eq in H.
    destruct (frame_result E u wd scale x (fs w)) as [out|].
    + apply IH in H as (Hd & He & Hc & Hmono & Hsame).
      cbn in Hd, He, Hc, Hmono, Hsame.
      repeat split; try assumption.
      * intros p Hp. apply Hmono.
        destruct (decide (out_path wd x = p)) as [->|Hne].
        -- rewrite lookup_insert_eq. eauto.
        -- now rewrite lookup_insert_ne.
      * intros p Hp. rewrite Hsame.
        -- apply lookup_insert_ne. intros Heq. apply (Hp x); [left | now symmetry].
        -- intros f Hf. apply Hp. now right.
    + injection H as <- <-. repeat split; tauto.
Qed.

(** The content of an output written for one frame only. *)
Lemma for_each_frames_content (l : list string) (w w' : World) (f : string) :
  for_each l (upscale_frame E u wd scale) w = (Ok tt, w') ->
  (forall g h, g ∈ l -> h ∈ l -> os.path_join wd g <> out_path wd h) ->
  f ∈ l ->
  (forall g, g ∈ l -> out_path wd g = out_path wd f -> g = f) ->
  files (fs w') !! out_path wd f = imencode E <$> frame_result E u wd scale f (fs w).
Proof.
  revert w. induction l as [|x l IH]; intros w H Hdisj Hf Huniq.
  - inversion Hf.
  - cbn [for_each] in H. unfold bind in H. rewrite upscale_frame_eq in H.
    destruct (frame_result E u wd scale x (fs w)) as [out|] eqn:Hres; [|discriminate].
    destruct (decide (f ∈ l)) as [Hin | Hnotin].
    + rewrite (IH _ H); try assumption.
      * rewrite frame_result_with_file; [reflexivity|].
        apply Hdisj; [now right | left].
      * intros g h Hg Hh. apply Hdisj; now right.
      * intros g Hg. apply Huniq. now right.
    + apply elem_of_cons in Hf as [-> | Hf]; [|contradiction].
      apply for_each_frames_any in H as (_ & _ & _ & _ & Hsame).
      rewrite Hsame.
      * cbn. rewrite lookup_insert_eq, Hres. reflexivity.
      * intros g Hg Heq. apply Hnotin.
        rewrite <- (Huniq g); [exact Hg | now right | now symmetry].
Qed.

(** The loop stops at the first frame that cannot be read or enhanced; the
    frames before it have been written. *)
Lemma for_each_frames_stops (l1 l2 : list string) (f : string) (w : World) :
  (forall g h, g ∈ (l1 ++ f :: l2)%list -> h ∈ (l1 ++ f :: l2)%list ->
               os.path_join wd g <> out_path wd h) ->
  (forall g, g ∈ l1 -> is_Some (frame_result E u wd scale g (fs w))) ->
  frame_result E u wd scale f (fs w) = None ->
  exists w',
    for_each (l1 ++ f :: l2)%list (upscale_frame E u wd scale) w =
      (Raise LibraryError, w') /\
    (forall g, g ∈ l1 -> is_Some (files (fs w') !! out_path wd g)) /\
    (forall p, (forall g, g ∈ l1 -> p <> out_path wd g) ->
               files (fs w') !! p = files (fs w) !! p).
Proof.
  revert w. induction l1 as [|x l1 IH]; intros w Hdisj Hready Hbad.
  - exists w. cbn [app for_each]. unfold bind. rewrite upscale_frame_eq, Hbad.
    split; [reflexivity|]. split; [intros g Hg; inversion Hg | reflexivity].
  - destruct (Hready x) as [out Hout]; [left|].
    destruct (IH (with_file (out_path wd x) (imencode E out) w)) as (w' & Hrun & Hw & Hsame).
    + intros g h Hg Hh. apply Hdisj; now right.
    + intros g Hg. rewrite frame_result_with_file.
      * apply Hready. now right.
      * apply Hdisj; [right; apply elem_of_app; now left | left].
    + rewrite frame_result_with_file; [exact Hbad|].
      apply Hdisj; [right; apply elem_of_app; right; left | left].
    + exists w'. cbn [app for_each]. unfold bind. rewrite upscale_frame_eq, Hout.
      split; [exact Hrun|]. split.
      * intros g Hg. apply elem_of_cons in Hg as [-> | Hg]; [|now apply Hw].
        apply for_each_frames_any in Hrun as (_ & _ & _ & Hmono & _).
        apply Hmono. cbn. rewrite lookup_insert_eq. eauto.
      * intros p Hp. rewrite Hsame.
        -- cbn. apply lookup_insert_ne. intros Heq. apply (Hp x); [left | now symmetry].
        -- intros g Hg. apply Hp. now right.
Qed.

End FrameWrites.

(** ** upscale_frames_cuda: what it writes, and what it leaves alone *)

Section FrameOutputs.

Context (E : Externals) (wd : string) (scale : float) (model_name : string).

Lemma upscale_frames_cuda_cases (w : World) :
  upscale_frames_cuda E wd scale model_name w = (Raise (OSError (model_path_of model_name)), w)
  \/ upscale_frames_cuda E wd scale model_name w = (Raise LibraryError, w)
  \/ upscale_frames_cuda E wd scale model_name w = (Raise (OSError wd), w)
  \/ exists c u,
       files (fs w) !! model_path_of model_name = Some c /\
       RealESRGANer E SRVGGNetCompact (mkEsrgan 4 512 10 0 true) c = Some u /\
       wd ∈ dirs (fs w) /\
       upscale_frames_cuda E wd scale model_name w =
       for_each (frame_entries wd (fs w)) (upscale_frame E u wd scale) w.
Proof.
  unfold upscale_frames_cuda, make_upsampler, os.read_file, os.listdir, bind, get_fs,
    ret, raise.
  fold (model_path_of model_name).
  destruct (files (fs w) !! model_path_of model_name) as [c|]; [|now left].
  destruct (RealESRGANer E _ _ c) as [u|] eqn:Hu; [|now right; left].
  destruct (bool_decide (wd ∈ dirs (fs w))) eqn:Hwd; [|now right; right; left].
  right; right; right. exists c, u.
  apply bool_decide_eq_true_1 in Hwd. repeat split; auto.
Qed.

Lemma frame_entries_spec (w : World) (f : string) :
  wd ∈ dirs (fs w) ->
  f ∈ frame_entries wd (fs w) ->
  is_frame_file f = true /\ PyStr.contains "/" f = false /\
  (is_Some (files (fs w) !! (wd ++ "/" ++ f)) \/ (wd ++ "/" ++ f) ∈ dirs (fs w)).
Proof.
  intros Hwd. apply (frame_files_of_spec wd w).
  unfold os.listdir, bind, get_fs, ret. now rewrite bool_decide_eq_true_2.
Qed.

Lemma frame_entries_intro (w : World) (f : string) :
  wd ∈ dirs (fs w) ->
  is_frame_file f = true -> PyStr.contains "/" f = false ->
  is_Some (files (fs w) !! (wd ++ "/" ++ f)) ->
  f ∈ frame_entries wd (fs w).
Proof.
  intros Hwd Hf Hslash Hin. apply (frame_files_of_spec wd w); [|auto].
  unfold os.listdir, bind, get_fs, ret. now rewrite bool_decide_eq_true_2.
Qed.

End FrameOutputs.


(** X10: when [upscale_frames_cuda] returns, the weights were read from
    WEIGHTS_DIR/<model>.pth, and for every index whose extracted frame is a
    file of the working directory the upscaled frame holds the encoding of
    that frame enhanced by the upsampler made from those weights, at the
    requested scale. *)
Theorem upscaled_frame_content (E : Externals) (wd : string) (scale : float)
    (model_name : string) (w w' : World) :
  wd <> "" -> PyStr.endswith "/" wd = false ->
  upscale_frames_cuda E wd scale model_name w = (Ok tt, w') ->
  exists c u,
    files (fs w) !! model_path_of model_name = Some c /\
    RealESRGANer E SRVGGNetCompact (mkEsrgan 4 512 10 0 true) c = Some u /\
    forall idx, is_digits idx = true ->
      is_Some (files (fs w) !! os.path_join wd (frame_name idx)) ->
      exists out,
        frame_result E u wd scale (frame_name idx) (fs w) = Some out /\
        files (fs w') !! os.path_join wd (upscaled_name idx) = Some (imencode E out).
Proof.
  intros Hne Hslash Hrun.
  destruct (upscale_frames_cuda_cases E wd scale model_name w)
    as [H | [H | [H | (c & u & Hc & Hu & Hwd & H)]]];
    rewrite H in Hrun; try discriminate.
  exists c, u. split; [exact Hc|]. split; [exact Hu|].
  intros idx Hidx Hfile.
  pose proof (is_frame_file_frame_name idx) as Hframe.
  assert (Hin : frame_name idx ∈ frame_entries wd (fs w)).
  { apply frame_entries_intro; try assumption.
    - now apply (png_no_char "/" idx eq_refl).
    - now rewrite <- (in_path_plain wd Hne Hslash). }
  assert (Hname : out_path wd (frame_name idx) = os.path_join wd (upscaled_name idx)).
  { unfold out_path. now rewrite out_name_of_frame_name. }
  pose proof (for_each_frames_content E u wd scale _ w w' (frame_name idx) Hrun) as Hcontent.
  rewrite Hname in Hcontent.
  assert (Hval : files (fs w') !! os.path_join wd (upscaled_name idx) =
                 imencode E <$> frame_result E u wd scale (frame_name idx) (fs w)).
  { apply Hcontent; [|exact Hin|].
    - intros g h Hg Hh.
      apply (frame_entries_spec wd w g Hwd) in Hg as (Hg & _).
      apply (frame_entries_spec wd w h Hwd) in Hh as (Hh & _).
      now apply in_path_not_out_path.
    - intros g Hg Heq.
      apply (frame_entries_spec wd w g Hwd) in Hg as (Hg & _).
      rewrite <- Hname in Heq.
      rewrite !(out_path_plain wd Hne Hslash) in Heq by assumption.
      do 2 apply append_inj_l in Heq.
      rewrite (out_name_of_frame_name idx Hidx) in Heq.
      now apply out_name_of_inv in Heq. }
  destruct (frame_result E u wd scale (frame_name idx) (fs w)) as [out|] eqn:Hres.
  - exists out. split; [reflexivity | exact Hval].
  - exfalso.
    apply for_each_frames_Ok in Hrun as (_ & _ & _ & _ & _ & Hout & _).
    specialize (Hout _ Hin). rewrite Hname, Hval in Hout. now destruct Hout.
Qed.

Lemma upscaled_frame_content_witness :
  files (fs (upscale_frames_cuda (Machine.externals Machine.exec_ok) Machine.job_dir
               1.5%float "realesr-animevideov3" Machine.extracted).2)
    !! os.path_join Machine.job_dir (upscaled_name "00000002") = Some "upscaled F2".
Proof.
  destruct (upscaled_frame_content (Machine.externals Machine.exec_ok) Machine.job_dir
              1.5%float "realesr-animevideov3" Machine.extracted
              (upscale_frames_cuda (Machine.externals Machine.exec_ok) Machine.job_dir
                 1.5%float "realesr-animevideov3" Machine.extracted).2)
    as (c & u & _ & _ & Hall).
  - discriminate.
  - reflexivity.
  - vm_compute. reflexivity.
  - destruct (Hall "00000002") as (out & Hres & Hout).
    + reflexivity.
    + vm_compute. eauto.
    + rewrite Hout. destruct u. vm_compute in Hres. injection Hres as <-. reflexivity.
Defined.

Section FrameFailure.

Context (E : Externals) (wd : string) (scale : float) (model_name : string).

Lemma upscale_frames_cuda_loop (w : World) (c : string) (u : upsampler E) :
  files (fs w) !! model_path_of model_name = Some c ->
  RealESRGANer E SRVGGNetCompact (mkEsrgan 4 512 10 0 true) c = Some u ->
  wd ∈ dirs (fs w) ->
  upscale_frames_cuda E wd scale model_name w =
  for_each (frame_entries wd (fs w)) (upscale_frame E u wd scale) w.
Proof.
  intros Hc Hu Hwd.
  unfold upscale_frames_cuda, make_upsampler, os.read_file, os.listdir, bind, get_fs,
    ret, raise.
  fold (model_path_of model_name). rewrite Hc, Hu.
  rewrite bool_decide_eq_true_2 by assumption. reflexivity.
Qed.

End FrameFailure.

(** X11: when an entry of the working directory named like a frame cannot
    be read or enhanced, [upscale_frames_cuda] raises at that entry: the
    frames sorted before it have been written and stay, and nothing else
    has changed, so no later frame is processed. *)
Theorem upscale_stops_at_first_bad_frame (E : Externals) (wd : string) (scale : float)
    (model_name : string) (w : World) (c : string) (u : upsampler E)
    (l1 l2 : list string) (f : string) :
  wd <> "" -> PyStr.endswith "/" wd = false ->
  files (fs w) !! model_path_of model_name = Some c ->
  RealESRGANer E SRVGGNetCompact (mkEsrgan 4 512 10 0 true) c = Some u ->
  wd ∈ dirs (fs w) ->
  frame_entries wd (fs w) = (l1 ++ f :: l2)%list ->
  (forall g, g ∈ l1 -> is_Some (frame_result E u wd scale g (fs w))) ->
  frame_result E u wd scale f (fs w) = None ->
  exists w',
    upscale_frames_cuda E wd scale model_name w = (Raise LibraryError, w') /\
    (forall g, g ∈ l1 -> is_Some (files (fs w') !! out_path wd g)) /\
    (forall p, (forall g, g ∈ l1 -> p <> out_path wd g) ->
               files (fs w') !! p = files (fs w) !! p).
Proof.
  intros Hne Hslash Hc Hu Hwd Hentries Hready Hbad.
  rewrite (upscale_frames_cuda_loop E wd scale model_name w c u Hc Hu Hwd), Hentries.
  apply for_each_frames_stops; try assumption.
  intros g h Hg Hh. rewrite <- Hentries in Hg, Hh.
  apply (frame_entries_spec wd w g Hwd) in Hg as (Hg & _).
  apply (frame_entries_spec wd w h Hwd) in Hh as (Hh & _).
  now apply in_path_not_out_path.
Qed.

Lemma upscale_stops_at_first_bad_frame_witness :
  exists w',
    upscale_frames_cuda (Machine.externals Machine.exec_ok) Machine.job_dir 1.5%float
      "realesr-animevideov3" world_with_bad_frame = (Raise LibraryError, w') /\
    is_Some (files (fs w') !! out_path Machine.job_dir "frame_00000001.png") /\
    files (fs w') !! out_path Machine.job_dir "frame_00000003.png" = None.
Proof.
  destruct (upscale_stops_at_first_bad_frame (Machine.externals Machine.exec_ok)
              Machine.job_dir 1.5%float "realesr-animevideov3" world_with_bad_frame
              "WEIGHTS" tt ["frame_00000001.png"] ["frame_00000003.png"]
              "frame_00000002.png")
    as (w' & Hrun & Hdone & Hsame).
  - discriminate.
  - reflexivity.
  - vm_compute. reflexivity.
  - reflexivity.
  - vm_compute. reflexivity.
  - vm_compute. reflexivity.
  - intros g Hg. apply list_elem_of_singleton in Hg as ->. vm_compute. eauto.
  - vm_compute. reflexivity.
  - exists w'. split; [exact Hrun|]. split.
    + apply Hdone. left.
    + rewrite Hsame; [vm_compute; reflexivity|].
      intros g Hg. apply list_elem_of_singleton in Hg as ->. vm_compute. discriminate.
Defined.

(** ** The child processes of a job *)

Section Emits.

Context (E : Externals) (P : call -> Prop).

Lemma emits_silent {A} (m : M A) : silent m -> emits P m.
Proof. intros Hm w. exists []. rewrite Hm, app_nil_r. split; [reflexivity | constructor]. Qed.

Lemma emits_bind {A B} (m : M A) (k : A -> M B) :
  emits P m -> (forall a, emits P (k a)) -> emits P (bind m k).
Proof.
  intros Hm Hk w. unfold bind. destruct (Hm w) as (l1 & Hl1 & H1).
  destruct (m w) as [[a|e] w1]; cbn in *; [|eauto].
  destruct (Hk a w1) as (l2 & Hl2 & H2).
  exists (l1 ++ l2)%list. rewrite Hl2, Hl1, app_assoc. split; [reflexivity|].
  apply Forall_app; auto.
Qed.

Lemma emits_try_except {A} (m : M A) (h : exn -> option (M A)) :
  emits P m -> (forall e k, h e = Some k -> emits P k) -> emits P (try_except m h).
Proof.
  intros Hm Hh w. unfold try_except. destruct (Hm w) as (l1 & Hl1 & H1).
  destruct (m w) as [[a|e] w1]; cbn in *; [eauto|].
  destruct (h e) as [k|] eqn:Hk; [|eauto].
  destruct (Hh e k Hk w1) as (l2 & Hl2 & H2).
  exists (l1 ++ l2)%list. rewrite Hl2, Hl1, app_assoc. split; [reflexivity|].
  apply Forall_app; auto.
Qed.

Lemma emits_spawn (k : call_kind) (cmd : list string) :
  (forall rc, P (mkCall k cmd rc)) -> emits P (spawn E k cmd).
Proof.
  intros HP w. unfold spawn. destruct (exec E cmd (fs w)) as [r f'].
  exists [mkCall k cmd (returncode r)].
  destruct (returncode r =? 0)%Z; cbn; (split; [reflexivity|]); constructor; auto.
Qed.

Lemma emits_run (cmd : list string) :
  (forall rc, P (mkCall CheckCall cmd rc)) -> emits P (run E cmd).
Proof.
  intros HP. unfold run. apply emits_bind; [now apply emits_spawn|].
  intros _. apply emits_silent, silent_ret.
Qed.

Lemma emits_get_video_fps (path : string) :
  (forall rc, P (mkCall CheckOutput (fps_probe_cmd path) rc)) ->
  emits P (get_video_fps E path).
Proof.
  intros HP. unfold get_video_fps. apply emits_try_except.
  - apply emits_bind.
    + unfold check_output. apply emits_bind; [now apply emits_spawn|].
      intros r. apply emits_silent, silent_ret.
    + intros out. apply emits_silent. unfold unpack2, float_of_str, float_div. silent_tac.
  - intros e k [= <-]. apply emits_silent. auto with calls.
Qed.

End Emits.

Section JobCalls.

Context (E : Externals) (j : job_input).

Lemma emits_upscale_video (input_path : string) (scale : float) (model : string) :
  emits (job_call E j)
    (upscale_video E input_path scale model (inp_output_fps j)
       (default DEFAULT_CRF (inp_crf j)) (str_or_default (inp_preset j) DEFAULT_PRESET)).
Proof.
  unfold upscale_video. cbv zeta.
  apply emits_bind; [apply emits_silent; silent_tac|]. intros u.
  apply emits_bind; [apply emits_silent; silent_tac|]. intros _.
  apply emits_bind; [apply emits_silent; silent_tac|]. intros _.
  apply emits_bind.
  { assert (Hprobe : scale_given (inp_output_fps j) = false ->
                     emits (job_call E j)
                       (get_video_fps E (os.path_join (work_dir_of (uuid_str u)) "src.mp4"))).
    { intros Hfps. apply emits_get_video_fps. intros rc. right; left. eauto. }
    destruct (inp_output_fps j) as [f|]; [|now apply Hprobe].
    cbn [scale_given] in Hprobe.
    destruct (PrimFloat.ltb 0 f); [apply emits_silent, silent_ret | now apply Hprobe]. }
  intros out_fps.
  apply emits_bind.
  { apply emits_run. intros rc. right; right; left. eauto. }
  intros _.
  apply emits_bind; [apply emits_silent; auto with calls|]. intros _.
  apply emits_bind.
  { apply emits_run. intros rc. right; right; right; left. eauto. }
  intros _.
  apply emits_bind.
  { apply emits_run. intros rc. right; right; right; right. eauto. }
  intros _. apply emits_silent, silent_ret.
Qed.

Lemma emits_acquire_input (tmp_path : string) :
  emits (job_call E j) (acquire_input E (inp_video_url j) (inp_file_path j) tmp_path).
Proof.
  unfold acquire_input. destruct (PyStr.truthy (inp_video_url j)) eqn:Hurl.
  - apply emits_bind.
    + apply emits_run. intros rc. left. split; [exact Hurl|]. unfold url_of. eauto.
    + intros _. apply emits_silent. silent_tac.
  - apply emits_silent. silent_tac.
Qed.

Lemma emits_handler_guarded (tmp_path : string) :
  emits (job_call E j) (handler_guarded E j tmp_path).
Proof.
  unfold handler_guarded. apply emits_try_except.
  - unfold handler_try. cbv zeta.
    apply emits_bind; [apply emits_acquire_input|]. intros [early | input_path].
    + apply emits_silent, silent_ret.
    + apply emits_bind; [apply emits_upscale_video|]. intros out_path.
      apply emits_silent. silent_tac.
  - intros e k Hk. destruct e; try discriminate. injection Hk as <-.
    apply emits_silent, silent_ret.
Qed.

End JobCalls.

(** X12: every child process that [handler] starts is one of the five
    command lines of a job: curl (only when [video_url] is set), the
    frame-rate probe (only when no positive [output_fps] is given), and the
    three ffmpeg stages with the request's crf and preset.  In particular
    [handler] never runs the size probe of [get_video_size]. *)
Theorem handler_child_processes (E : Externals) (j : job_input) (w : World) :
  exists l,
    calls (handler E j w).2 = (calls w ++ l)%list /\ Forall (job_call E j) l.
Proof.
  destruct (has_source j) eqn:Hsrc.
  - rewrite (handler_with_source E j w Hsrc). cbn [snd]. rewrite cleaned_calls.
    destruct (emits_handler_guarded E j (tmp_of E w) (drawn w)) as (l & Hl & H).
    exists l. split; [exact Hl | exact H].
  - rewrite (handler_no_source E j w Hsrc). exists []. cbn. rewrite app_nil_r.
    split; [reflexivity | constructor].
Qed.

(** X13: [get_video_size] returns a pair exactly when ffprobe exits with
    status 0 and prints two comma-separated fields that both parse as
    integers; in every other case it returns [None]. *)
Theorem get_video_size_some_iff (E : Externals) (path : string) (w : World) (wi hi : Z) :
  (get_video_size E path w).1 = Ok (Some (wi, hi)) <->
  returncode (size_probe E path w) = 0%Z /\
  exists ws hs,
    PyStr.split "," (PyStr.strip (stdout (size_probe E path w))) = [ws; hs] /\
    py_int E ws = Some wi /\ py_int E hs = Some hi.
Proof.
  split.
  - intros Hres.
    destruct (Z.eq_dec (returncode (size_probe E path w)) 0%Z) as [Hrc | Hrc];
      [|rewrite (get_video_size_probe_failed E path w Hrc) in Hres; discriminate].
    split; [exact Hrc|]. revert Hres. unfold get_video_size, try_except.
    rewrite (bind_Ok _ _ _ _ _ (check_output_zero E (size_probe_cmd path) w Hrc)).
    fold (size_probe E path w).
    destruct (PyStr.split "," (PyStr.strip (stdout (size_probe E path w))))
      as [|ws [|hs [|x l]]]; try discriminate.
    cbn [unpack2]. unfold bind, int_of_str, ret, raise, except_Exception.
    destruct (py_int E ws) as [a|] eqn:Ha; [|discriminate].
    destruct (py_int E hs) as [b|] eqn:Hb; [|discriminate].
    cbn. intros [= -> ->]. eauto.
  - intros (Hrc & ws & hs & Hsplit & Hw & Hh).
    now apply (get_video_size_parsed E path w ws hs).
Qed.

